(** * Certificate lifecycle of the multicluster-observability operator

    A shallow embedding of package [certificates] (CA and leaf secrets,
    chain pruning, the orchestration pass) and the properties of its
    specification.

    Go values are modelled as follows: [[]byte] is [list byte]; a slice
    that is re-sliced and appended to in place is a backing array with a
    length ([GoSlice]); [map[string][]byte] is a [gmap string (list byte)]
    whose missing keys read as the nil slice; a pointer that may be nil
    is an [option]; a Go [error] result is a value; a run-time panic
    (nil dereference, index out of range) is the [Panicked] outcome. *)

From Stdlib Require Import ZArith.
From stdpp Require Import base option list gmap strings.

Open Scope Z_scope.
Open Scope string_scope.
Open Scope list_scope.

Abbreviation bytes := (list Byte.byte).

(** ** Outcomes of a Go call *)

Inductive Run (A : Type) : Type :=
  | Done (a : A)
  | Panicked (msg : string)
  | Spinning.
Arguments Done {A} a.
Arguments Panicked {A} msg.
Arguments Spinning {A}.

Definition nilDeref : string := "invalid memory address or nil pointer dereference".
Definition outOfRange : string := "index out of range".
Definition sliceBounds : string := "slice bounds out of range".

(** ** Go slices over a backing array *)

Module GoSlice.
Section Slice.
Context {A : Type}.

(** A slice that starts at the first cell of its backing array:
    [arr] is the array (its length is the capacity), [len] the
    length of the view. *)
Record slice : Type := Slice { arr : list A; len : nat }.

Definition cap (s : slice) : nat := length (arr s).
Definition elems (s : slice) : list A := take (len s) (arr s).
Definition wf (s : slice) : Prop := (len s <= cap s)%nat.

(** [[]T{x1, ..., xn}]: a fresh array of exactly that size. *)
Definition literal (xs : list A) : slice := Slice xs (length xs).

(** [s[:high]] panics unless [high <= cap(s)]. *)
Definition upto (s : slice) (high : nat) : Run slice :=
  if (high <=? cap s)%nat then Done (Slice (arr s) high)
  else Panicked sliceBounds.

(** Writing [src] into the array from cell [at_] on (the copy that
    [append] does when the capacity suffices; Go copies as memmove, so
    [src] is what the source cells held before the write). *)
Definition overwrite (mem : list A) (at_ : nat) (src : list A) : list A :=
  take at_ mem ++ src ++ drop (at_ + length src) mem.

(** [append(s, src...)]: in place when the capacity suffices, into a
    fresh array otherwise. *)
Definition append (s : slice) (src : list A) : slice :=
  if (len s + length src <=? cap s)%nat
  then Slice (overwrite (arr s) (len s) src) (len s + length src)
  else Slice (elems s ++ src) (len s + length src).

(** [s[i] = x] panics unless [i < len(s)]. *)
Definition store (s : slice) (i : nat) (x : A) : Run slice :=
  if (i <? len s)%nat then Done (Slice (<[i:=x]> (arr s)) (len s))
  else Panicked outOfRange.
End Slice.
Arguments slice A : clear implicits.
End GoSlice.

(** ** Data model *)

(** [pem.Block] (headers are never used by the package). *)
Record Block : Type := mkBlock { Type_ : string; Bytes : bytes }.

(** An RSA key pair, identified by the material it was generated from;
    [&key.PublicKey] is the same identifier. *)
Definition Key : Type := Z.

(** [pkix.Name], the fields the package fills in. *)
Record Name : Type := mkName {
  Organization : list string;
  Country : list string;
  OrganizationalUnit : list string;
  CommonName : string
}.

(** [x509.Certificate], the fields the package writes or reads. *)
Record Certificate : Type := mkCertificate {
  SerialNumber : Z;
  Subject : Name;
  NotBefore : Z;
  NotAfter : Z;
  IsCA : bool;
  BasicConstraintsValid : bool;
  KeyUsage : Z;
  ExtKeyUsage : list Z;
  DNSNames : list string;
  IPAddresses : list bytes
}.

Definition KeyUsageDigitalSignature : Z := Z.shiftl 1 0.
Definition KeyUsageKeyEncipherment : Z := Z.shiftl 1 2.
Definition KeyUsageCertSign : Z := Z.shiftl 1 5.
Definition ExtKeyUsageServerAuth : Z := 1.
Definition ExtKeyUsageClientAuth : Z := 2.

(** [serialNumberLimit = new(big.Int).Lsh(big.NewInt(1), 128)] *)
Definition serialNumberLimit : Z := Z.shiftl 1 128.

(** The value of an [int64] expression, [time.Duration] among them:
    the result wraps around in two's complement. *)
Definition wrapInt64 (z : Z) : Z := (z + 2 ^ 63) mod 2 ^ 64 - 2 ^ 63.

(** [corev1.Secret]: name, labels, controller reference and data. *)
Record Secret : Type := mkSecret {
  SName : string;
  Labels : gmap string string;
  Owner : option string;
  Data : gmap string bytes
}.

Definition withData (s : Secret) (d : gmap string bytes) : Secret :=
  mkSecret (SName s) (Labels s) (Owner s) d.
Definition withLabels (s : Secret) (l : gmap string string) : Secret :=
  mkSecret (SName s) l (Owner s) (Data s).
Definition withOwner (s : Secret) (o : option string) : Secret :=
  mkSecret (SName s) (Labels s) o (Data s).

Inductive Error : Type :=
  | ErrNotFound
  | ErrAlreadyExists
  | ErrAPI
  | ErrEntropy
  | ErrSign
  | ErrParse
  | ErrOwner
  | ErrHost.

Definition IsNotFound (e : Error) : bool :=
  match e with ErrNotFound => true | _ => false end.

(** A call of the store client. *)
Inductive StoreOp : Type :=
  | OpGet (name : string)
  | OpCreate (name : string)
  | OpUpdate (name : string).

Definition opName (op : StoreOp) : string :=
  match op with OpGet n | OpCreate n | OpUpdate n => n end.

(** The world one call runs in: the secrets of the operator's
    namespace, the write calls issued so far, the random source,
    the clock, the result of the route lookup that host discovery
    makes, and the API calls that fail. *)
Record World : Type := mkWorld {
  secrets : gmap string Secret;
  calls : list StoreOp;
  entropy : list Z;
  now : Z;
  apiHost : option string;
  fault : StoreOp -> bool
}.

Definition M (A : Type) : Type := World -> Run A * World.

Definition ret {A} (a : A) : M A := fun w => (Done a, w).
Definition bind {A B} (m : M A) (f : A -> M B) : M B :=
  fun w =>
    match m w with
    | (Done a, w') => f a w'
    | (Panicked msg, w') => (Panicked msg, w')
    | (Spinning, w') => (Spinning, w')
    end.
Definition panic {A} (msg : string) : M A := fun w => (Panicked msg, w).
Definition lift {A} (r : Run A) : M A := fun w => (r, w).

Notation "x <- m ;; k" := (bind m (fun x => k))
  (at level 100, m at next level, right associativity).

Definition rbind {A B} (r : Run A) (f : A -> Run B) : Run B :=
  match r with
  | Done a => f a
  | Panicked msg => Panicked msg
  | Spinning => Spinning
  end.
Notation "x <~ r ;; k" := (rbind r (fun x => k))
  (at level 100, r at next level, right associativity).

(** [p.f] on a pointer [p]. *)
Definition deref {A} (p : option A) : Run A :=
  match p with Some a => Done a | None => Panicked nilDeref end.

(** [xs[0]] *)
Definition index0 {A} (xs : list A) : Run A :=
  match xs with x :: _ => Done x | [] => Panicked outOfRange end.

(** *** The store client *)

Definition setSecrets (w : World) (m : gmap string Secret) : World :=
  mkWorld m (calls w) (entropy w) (now w) (apiHost w) (fault w).
Definition logCall (w : World) (op : StoreOp) : World :=
  mkWorld (secrets w) (calls w ++ [op]) (entropy w) (now w) (apiHost w) (fault w).
Definition setEntropy (w : World) (e : list Z) : World :=
  mkWorld (secrets w) (calls w) e (now w) (apiHost w) (fault w).

(** [c.Get]: the object read carries the name it was asked under. *)
Definition client_Get (name : string) : M (Secret + Error) := fun w =>
  if fault w (OpGet name) then (Done (inr ErrAPI), w)
  else match secrets w !! name with
       | Some s => (Done (inl (mkSecret name (Labels s) (Owner s) (Data s))), w)
       | None => (Done (inr ErrNotFound), w)
       end.

Definition client_Create (s : Secret) : M (option Error) := fun w =>
  let w := logCall w (OpCreate (SName s)) in
  if fault w (OpCreate (SName s)) then (Done (Some ErrAPI), w)
  else match secrets w !! SName s with
       | Some _ => (Done (Some ErrAlreadyExists), w)
       | None => (Done None, setSecrets w (<[SName s := s]> (secrets w)))
       end.

Definition client_Update (s : Secret) : M (option Error) := fun w =>
  let w := logCall w (OpUpdate (SName s)) in
  if fault w (OpUpdate (SName s)) then (Done (Some ErrAPI), w)
  else match secrets w !! SName s with
       | Some _ => (Done None, setSecrets w (<[SName s := s]> (secrets w)))
       | None => (Done (Some ErrNotFound), w)
       end.

(** *** Randomness and time *)

(** [rand.Int(rand.Reader, max)]: uniform in [[0, max)]; fails when the
    reader does. *)
Definition rand_Int (max : Z) : M (Z + Error) := fun w =>
  match entropy w with
  | x :: rest => (Done (inl (x mod max)), setEntropy w rest)
  | [] => (Done (inr ErrEntropy), w)
  end.

(** [rsa.GenerateKey(rand.Reader, 2048)] *)
Definition rsa_GenerateKey : M (Key + Error) := fun w =>
  match entropy w with
  | x :: rest => (Done (inl x), setEntropy w rest)
  | [] => (Done (inr ErrEntropy), w)
  end.

(** [time.Now()]. A call of the package is taken to happen at the one
    instant [now w]: the clock does not move between the readings of
    a call, so no property below states the length of a validity
    period, which the code takes from two readings. *)
Definition time_Now : M Z := fun w => (Done (now w), w).

(** ** What the package imports *)

(** [encoding/pem], [crypto/x509] and controller-runtime. [pem_Decode]
    returns the first block and the remainder of its input, or no
    block and the whole input. [controllerReference m s] is the owner
    reference that [controllerutil.SetControllerReference] puts on
    [s] for the owner [m], the only field it writes, or its error. *)
Class Libraries : Type := {
  pem_Decode : bytes -> option Block * bytes;
  pem_Encode : Block -> bytes;
  x509_CreateCertificate : Certificate -> Certificate -> Key -> Key -> bytes + Error;
  x509_ParseCertificate : bytes -> option Certificate;
  x509_ParseCertificates : bytes -> option (list Certificate);
  x509_MarshalPKCS1PrivateKey : Key -> bytes;
  x509_ParsePKCS1PrivateKey : bytes -> option Key;
  controllerReference : string -> Secret -> string + Error
}.

(** Package [config]: the names of the secrets, the common names, the
    backup label, the leaf validity and the internal service name. *)
Class Config : Type := {
  ServerCACerts : string;
  ClientCACerts : string;
  ServerCerts : string;
  GrafanaCerts : string;
  ServerCertCN : string;
  GrafanaCN : string;
  BackupLabelName : string;
  BackupLabelValue : string;
  GetCertDuration : Z;
  GetObsAPISvc : string
}.

(** ** The package *)

Import GoSlice.

Section Certificates.
Context `{Libraries} `{Config}.

Definition serverCACertifcateCN : string := "observability-server-ca-certificate".
Definition clientCACertificateCN : string := "observability-client-ca-certificate".

(** Modelled from the spec: [mcoutil.AddBackupLabelToSecretObj] is a
    helper of the repository that is not among the sources. Section
    4.2 leaves a present bundle unchanged, "caller may still tag the
    bundle for retention/backup bookkeeping": a secret without the
    backup label gets the label and is written back, a secret that
    carries it is left alone. *)
Definition AddBackupLabelToSecretObj (s : Secret) : M (option Error) :=
  match Labels s !! BackupLabelName with
  | Some _ => ret None
  | None =>
      client_Update (withLabels s (<[BackupLabelName := BackupLabelValue]> (Labels s)))
  end.

(** [if mco != nil { controllerutil.SetControllerReference(...) }] *)
Definition ownedBy (mco : option string) (s : Secret) : Secret + Error :=
  match mco with
  | Some m =>
      match controllerReference m s with
      | inl o => inl (withOwner s (Some o))
      | inr err => inr err
      end
  | None => inl s
  end.

Definition pemEncode (cert key : bytes) : bytes * bytes :=
  (pem_Encode (mkBlock "CERTIFICATE" cert),
   pem_Encode (mkBlock "RSA PRIVATE KEY" key)).

(** The template of [createCACertificate]; the product
    [config.GetCertDuration() * 5] is one of [time.Duration]. *)
Definition caTemplate (cn : string) (sn t1 t2 : Z) : Certificate :=
  {| SerialNumber := sn;
     Subject := mkName ["Red Hat, Inc."] ["US"] [] cn;
     NotBefore := t1;
     NotAfter := t2 + wrapInt64 (GetCertDuration * 5);
     IsCA := true;
     BasicConstraintsValid := true;
     KeyUsage := Z.lor (Z.lor KeyUsageDigitalSignature KeyUsageKeyEncipherment)
                       KeyUsageCertSign;
     ExtKeyUsage := [];
     DNSNames := [];
     IPAddresses := [] |}.

(** [if key == nil { key, err = rsa.GenerateKey(...) }] *)
Definition keyOrFresh (key : option Key) : M (Key + Error) :=
  match key with
  | Some k => ret (inl k)
  | None => rsa_GenerateKey
  end.

Definition createCACertificate (cn : string) (caKey : option Key)
  : M (bytes * bytes + Error) :=
  r <- rand_Int serialNumberLimit;;
  match r with
  | inr err => ret (inr err)
  | inl sn =>
      t1 <- time_Now;;
      t2 <- time_Now;;
      let ca := caTemplate cn sn t1 t2 in
      r <- keyOrFresh caKey;;
      match r with
      | inr err => ret (inr err)
      | inl caKey =>
          match x509_CreateCertificate ca ca caKey caKey with
          | inr err => ret (inr err)
          | inl caBytes => ret (inl (x509_MarshalPKCS1PrivateKey caKey, caBytes))
          end
      end
  end.

(** The DNS names of a leaf (lines 335-341):
    [dns = append(dns[:1], dns[0:]...); dns[0] = cn]. *)
Definition leafDNSNames (cn : string) (dns : option (slice string)) : Run (slice string) :=
  match dns with
  | Some dns =>
      d1 <~ upto dns 1;;
      store (append d1 (elems dns)) 0 cn
  | None => Done (literal [cn])
  end.

(** The template of [createCertificate]. *)
Definition leafTemplate (isServer : bool) (cn : string) (ou : option (list string))
    (dns : option (slice string)) (ips : option (list bytes)) (sn t1 t2 : Z)
  : Run Certificate :=
  let eku := if negb isServer then [ExtKeyUsageClientAuth] else [ExtKeyUsageServerAuth] in
  let ou' := match ou with Some ou => ou | None => [] end in
  names <~ leafDNSNames cn dns;;
  let ips' := match ips with Some ips => ips | None => [] end in
  Done {| SerialNumber := sn;
          Subject := mkName ["Red Hat, Inc."] ["US"] ou' cn;
          NotBefore := t1;
          NotAfter := t2 + GetCertDuration;
          IsCA := false;
          BasicConstraintsValid := false;
          KeyUsage := Z.lor KeyUsageDigitalSignature KeyUsageKeyEncipherment;
          ExtKeyUsage := eku;
          DNSNames := elems names;
          IPAddresses := ips' |}.

Definition createCertificate (isServer : bool) (cn : string) (ou : option (list string))
    (dns : option (slice string)) (ips : option (list bytes))
    (caCert : Certificate) (caKey : Key) (key : option Key)
  : M (bytes * bytes + Error) :=
  r <- rand_Int serialNumberLimit;;
  match r with
  | inr err => ret (inr err)
  | inl sn =>
      t1 <- time_Now;;
      t2 <- time_Now;;
      cert <- lift (leafTemplate isServer cn ou dns ips sn t1 t2);;
      r <- keyOrFresh key;;
      match r with
      | inr err => ret (inr err)
      | inl key =>
          match x509_CreateCertificate cert caCert key caKey with
          | inr err => ret (inr err)
          | inl caBytes => ret (inl (x509_MarshalPKCS1PrivateKey key, caBytes))
          end
      end
  end.

(** [createCASecret]. In the renewal the assignments to
    [caSecret.Data] come after [block.Bytes]: a nil [Data] map reads
    as nil slices, in which [pem.Decode] finds no block, so they are
    not reached with a nil map. *)
Definition createCASecret (mco : option string) (isRenew : bool) (name cn : string)
  : M (option Error * bool) :=
  r <- client_Get name;;
  match r with
  | inr err =>
      if negb (IsNotFound err) then ret (Some err, false)
      else
        r <- createCACertificate cn None;;
        match r with
        | inr err => ret (Some err, false)
        | inl (key, cert) =>
            let (certPEM, keyPEM) := pemEncode cert key in
            let caSecret :=
              mkSecret name {[ BackupLabelName := BackupLabelValue ]} None
                (<["tls.key" := keyPEM]> (<["tls.crt" := certPEM]> {[ "ca.crt" := certPEM ]})) in
            match ownedBy mco caSecret with
            | inr err => ret (Some err, false)
            | inl caSecret =>
                e <- client_Create caSecret;;
                match e with
                | Some err => ret (Some err, false)
                | None => ret (None, true)
                end
            end
        end
  | inl caSecret =>
      if negb isRenew then
        e <- AddBackupLabelToSecretObj caSecret;;
        match e with
        | Some err => ret (Some err, false)
        | None => ret (None, false)
        end
      else
        let (block, _) := pem_Decode (Data caSecret !!! "tls.key") in
        blk <- lift (deref block);;
        let caKey := x509_ParsePKCS1PrivateKey (Bytes blk) in
        r <- createCACertificate cn caKey;;
        match r with
        | inr err => ret (Some err, false)
        | inl (key, cert) =>
            let (certPEM, keyPEM) := pemEncode cert key in
            let data1 := <["ca.crt" := certPEM]> (Data caSecret) in
            let data2 := <["tls.crt" := certPEM ++ (data1 !!! "tls.crt")]> data1 in
            let data3 := <["tls.key" := keyPEM]> data2 in
            e <- client_Update (withData caSecret data3);;
            match e with
            | Some err => ret (Some err, false)
            | None => ret (None, true)
            end
        end
  end.

Definition getCA (isServer : bool) : M (Certificate * Key * bytes + Error) :=
  let caCertName := if negb isServer then ClientCACerts else ServerCACerts in
  r <- client_Get caCertName;;
  match r with
  | inr err => ret (inr err)
  | inl caSecret =>
      let crt := Data caSecret !!! "tls.crt" in
      let (block1, rest) := pem_Decode crt in
      let caCertBytes := take (length crt - length rest) crt in
      b1 <- lift (deref block1);;
      match x509_ParseCertificates (Bytes b1) with
      | None => ret (inr ErrParse)
      | Some caCerts =>
          let (block2, _) := pem_Decode (Data caSecret !!! "tls.key") in
          b2 <- lift (deref block2);;
          match x509_ParsePKCS1PrivateKey (Bytes b2) with
          | None => ret (inr ErrParse)
          | Some caKey =>
              c0 <- lift (index0 caCerts);;
              ret (inl (c0, caKey, caCertBytes))
          end
      end
  end.

(** [range dns]: a nil slice has no elements. *)
Definition rangeOf {A} (s : option (slice A)) : list A :=
  match s with Some s => elems s | None => [] end.

(** The loop of lines 265-270; [serverCrt] is the pointer that
    [x509.ParseCertificate] returned. *)
Fixpoint driftLoop (serverCrt : option Certificate) (dns : list string) (isRenew : bool)
  : Run bool :=
  match dns with
  | [] => Done isRenew
  | dnsString :: dns' =>
      crt <~ deref serverCrt;;
      if negb (bool_decide (dnsString ∈ DNSNames crt)) then Done true
      else driftLoop serverCrt dns' isRenew
  end.

(** Lines 254-272: the check of a present server certificate. A block
    that [pem.Decode] returns has non-nil bytes, so the test
    [block == nil || block.Bytes == nil] is the test for no block. *)
Definition driftCheck (crtSecret : Secret) (dns : option (slice string)) (isRenew : bool)
  : Run bool :=
  if bool_decide (SName crtSecret = ServerCerts) && negb isRenew then
    let (block, _) := pem_Decode (Data crtSecret !!! "tls.crt") in
    match block with
    | None => Done isRenew
    | Some blk =>
        let serverCrt := x509_ParseCertificate (Bytes blk) in
        let isRenew := match serverCrt with None => true | Some _ => isRenew end in
        driftLoop serverCrt (rangeOf dns) isRenew
    end
  else Done isRenew.

(** [createCertSecret]; [ou] and [ips] are nil at every call of the
    package. *)
Definition createCertSecret (mco : option string) (isRenew : bool) (name : string)
    (isServer : bool) (cn : string) (ou : option (list string))
    (dns : option (slice string)) (ips : option (list bytes)) : M (option Error) :=
  r <- client_Get name;;
  match r with
  | inr err =>
      if negb (IsNotFound err) then ret (Some err)
      else
        r <- getCA isServer;;
        match r with
        | inr err => ret (Some err)
        | inl (caCert, caKey, caCertBytes) =>
            r <- createCertificate isServer cn ou dns ips caCert caKey None;;
            match r with
            | inr err => ret (Some err)
            | inl (key, cert) =>
                let (certPEM, keyPEM) := pemEncode cert key in
                let crtSecret :=
                  mkSecret name {[ BackupLabelName := BackupLabelValue ]} None
                    (<["tls.key" := keyPEM]>
                       (<["tls.crt" := certPEM]> {[ "ca.crt" := caCertBytes ]})) in
                match ownedBy mco crtSecret with
                | inr err => ret (Some err)
                | inl crtSecret => client_Create crtSecret
                end
            end
        end
  | inl crtSecret =>
      isRenew <- lift (driftCheck crtSecret dns isRenew);;
      if negb isRenew then AddBackupLabelToSecretObj crtSecret
      else
        r <- getCA isServer;;
        match r with
        | inr err => ret (Some err)
        | inl (caCert, caKey, caCertBytes) =>
            let (block, _) := pem_Decode (Data crtSecret !!! "tls.key") in
            blk <- lift (deref block);;
            let crtkey := x509_ParsePKCS1PrivateKey (Bytes blk) in
            r <- createCertificate isServer cn ou dns ips caCert caKey crtkey;;
            match r with
            | inr err => ret (Some err)
            | inl (key, cert) =>
                let (certPEM, keyPEM) := pemEncode cert key in
                let data1 := <["ca.crt" := caCertBytes]> (Data crtSecret) in
                let data2 := <["tls.crt" := certPEM]> data1 in
                let data3 := <["tls.key" := keyPEM]> data2 in
                client_Update (withData crtSecret data3)
            end
        end
  end.

(** *** Pruning *)

(** The state of the loop of [removeExpiredCA]: the backing array of
    [data], the slice [caSecret.Data["tls.crt"]] being built, and
    whether that slice still lives in the array of [data] (it starts
    as [data[:k]], so [append] writes into the array that [restData]
    is read from). *)
Record pruneState : Type := mkPrune {
  dataArr : bytes;
  kept : slice Byte.byte;
  aliased : bool
}.

Definition appendKept (st : pruneState) (src : bytes) : pruneState :=
  let kept' := append (kept st) src in
  if aliased st && (len (kept st) + length src <=? cap (kept st))%nat
  then mkPrune (arr kept') kept' true
  else mkPrune (dataArr st) kept' false.

(** [removeFlag] of one block: [time.Now().After(certs[0].NotAfter)]
    or a parse error. *)
Definition removeFlagOf (t : Z) (blk : Block) : Run bool :=
  match x509_ParseCertificates (Bytes blk) with
  | None => Done true
  | Some certs =>
      c0 <~ index0 certs;;
      Done (t >? NotAfter c0)
  end.

(** The [for] loop of lines 405-426. [n] is [len(data)], [restLen]
    is [len(restData)]: [restData] is the last [restLen] bytes of
    [data], as [pem.Decode] returned them. The clock is taken to
    stand still during one call. *)
Fixpoint pruneLoop (fuel : nat) (t : Z) (n : nat) (st : pruneState) (restLen : nat)
  : Run pruneState :=
  match fuel with
  | O => Spinning
  | S fuel' =>
      let index := (n - restLen)%nat in
      let restData := drop index (take n (dataArr st)) in
      let (block, rest') := pem_Decode restData in
      let restLen' := length rest' in
      blk <~ deref block;;
      removeFlag <~ removeFlagOf t blk;;
      let st' :=
        if negb removeFlag
        then appendKept st (take (n - restLen' - index) (drop index (dataArr st)))
        else st in
      if (restLen' =? 0)%nat then Done st'
      else pruneLoop fuel' t n st' restLen'
  end.

(** Lines 401-427, from [data] to the new [caSecret.Data["tls.crt"]]. *)
Definition pruneChain (t : Z) (data : slice Byte.byte) : Run (slice Byte.byte) :=
  let n := len data in
  let (_, restData) := pem_Decode (elems data) in
  let restLen := length restData in
  let st := mkPrune (arr data) (Slice (arr data) (n - restLen)) true in
  if (0 <? restLen)%nat then
    st' <~ pruneLoop n t n st restLen;;
    Done (kept st')
  else Done (kept st).

Definition nilMap : string := "assignment to entry in nil map".

(** [removeExpiredCA]. A secret without data is read with a nil
    [Data] map, which cannot be assigned to. *)
Definition removeExpiredCA (name : string) : M unit :=
  r <- client_Get name;;
  match r with
  | inr err => ret tt
  | inl caSecret =>
      let data := Data caSecret !!! "tls.crt" in
      if bool_decide (Data caSecret = ∅) then panic nilMap
      else
        t <- time_Now;;
        chain <- lift (pruneChain t (literal data));;
        if negb (length data =? len chain)%nat then
          _ <- client_Update (withData caSecret (<["tls.crt" := elems chain]> (Data caSecret)));;
          ret tt
        else ret tt
  end.

(** *** The orchestration pass *)

(** Host discovery: [config.GetObsAPIHost] looks the route up. *)
Definition GetObsAPIHost : M (string + Error) := fun w =>
  match apiHost w with
  | Some url => (Done (inl url), w)
  | None => (Done (inr ErrHost), w)
  end.

Definition getHosts (ingressCtlCrdExists : bool) : M (slice string + Error) :=
  let hosts := literal [GetObsAPISvc] in
  if ingressCtlCrdExists then
    r <- GetObsAPIHost;;
    match r with
    | inr err => ret (inr err)
    | inl url => ret (inl (append hosts [url]))
    end
  else ret (inl hosts).

(** [mco.Annotations] dereferences [mco]; the duration that
    [config.SetCertDuration] installs is [GetCertDuration]. *)
Definition CreateObservabilityCerts (mco : option string) (ingressCtlCrdExists : bool)
  : M (option Error) :=
  _ <- lift (deref mco);;
  r <- createCASecret mco false ServerCACerts serverCACertifcateCN;;
  match r with
  | (Some err, _) => ret (Some err)
  | (None, serverCrtUpdated) =>
      r <- createCASecret mco false ClientCACerts clientCACertificateCN;;
      match r with
      | (Some err, _) => ret (Some err)
      | (None, clientCrtUpdated) =>
          r <- getHosts ingressCtlCrdExists;;
          match r with
          | inr err => ret (Some err)
          | inl hosts =>
              e <- createCertSecret mco serverCrtUpdated ServerCerts true ServerCertCN
                     None (Some hosts) None;;
              match e with
              | Some err => ret (Some err)
              | None =>
                  createCertSecret mco clientCrtUpdated GrafanaCerts false GrafanaCN
                    None None None
              end
          end
      end
  end.
End Certificates.

(** ** Vocabulary of the specification *)

Section SpecTerms.
Context `{Libraries} `{Config}.

(** A caller-supplied DNS list, when there is one, is a slice within
    its capacity that holds at least one name. *)
Definition suppliedDNS (dns : option (slice string)) : Prop :=
  match dns with
  | Some d => wf d /\ (1 <= len d)%nat
  | None => True
  end.

(** [Chain data segs]: [data] is a concatenation of PEM blocks, and
    [segs] lists, in order, the byte range of each block in [data]
    with the block that [pem.Decode] reads from it. *)
Inductive Chain : bytes -> list (bytes * Block) -> Prop :=
  | Chain_nil : Chain [] []
  | Chain_cons seg blk rest segs :
      seg <> [] ->
      pem_Decode (seg ++ rest) = (Some blk, rest) ->
      Chain rest segs ->
      Chain (seg ++ rest) ((seg, blk) :: segs).

(** The words of section 4.4: a block is dropped when parsing fails or
    the certificate's [notAfter] has passed. *)
Definition parseFails (blk : Block) : bool :=
  match x509_ParseCertificates (Bytes blk) with
  | None => true
  | Some _ => false
  end.

Definition notAfterPassed (t : Z) (blk : Block) : bool :=
  match x509_ParseCertificates (Bytes blk) with
  | Some (c :: _) => (NotAfter c <? t)%Z
  | _ => false
  end.

Definition dropped (t : Z) (blk : Block) : bool :=
  parseFails blk || notAfterPassed t blk.

(** The blocks that survive, with their original bytes, in order. *)
Definition survivors (t : Z) (segs : list (bytes * Block)) : list (bytes * Block) :=
  List.filter (fun sb => negb (dropped t (snd sb))) segs.

(** A block that parses holds a certificate. *)
Definition holdsCertificate (sb : bytes * Block) : Prop :=
  x509_ParseCertificates (Bytes (snd sb)) <> Some [].

(** The CA bundle that issues for a role. *)
Definition caNameOf (isServer : bool) : string :=
  if isServer then ServerCACerts else ClientCACerts.

(** The byte range of the first PEM block of a chain. *)
Definition firstBlockOf (chain : bytes) : bytes :=
  take (length chain - length (snd (pem_Decode chain))) chain.

(** [caCert] and [caKey] are the active certificate and the key of the
    CA bundle [sCA]: the first certificate of its chain and its
    stored key. *)
Definition issuerOf (sCA : Secret) (caCert : Certificate) (caKey : Key) : Prop :=
  exists b1 r1 certs b2 r2,
    pem_Decode (Data sCA !!! "tls.crt") = (Some b1, r1)
    /\ x509_ParseCertificates (Bytes b1) = Some (caCert :: certs)
    /\ pem_Decode (Data sCA !!! "tls.key") = (Some b2, r2)
    /\ x509_ParsePKCS1PrivateKey (Bytes b2) = Some caKey.

(** The leaf bundle [sLeaf] holds a certificate made from the template
    [tmpl] and signed by the CA bundle [sCA]. *)
Definition issuedWith (sCA sLeaf : Secret) (tmpl : Certificate) : Prop :=
  exists key caCert caKey certBytes,
    issuerOf sCA caCert caKey
    /\ x509_CreateCertificate tmpl caCert key caKey = inl certBytes
    /\ Data sLeaf !!! "tls.crt" = pem_Encode (mkBlock "CERTIFICATE" certBytes)
    /\ Data sLeaf !!! "tls.key"
       = pem_Encode (mkBlock "RSA PRIVATE KEY" (x509_MarshalPKCS1PrivateKey key))
    /\ Data sLeaf !!! "ca.crt" = firstBlockOf (Data sCA !!! "tls.crt").

(** Every required name is among the DNS names of the certificate. *)
Definition covers (crt : Certificate) (required : list string) : Prop :=
  Forall (fun d => d ∈ DNSNames crt) required.

(** From [w] to [w1] only secrets named in [names] were written, and
    the route, the clock and the failing calls are the same. *)
Definition touchesOnly (names : list string) (w w1 : World) : Prop :=
  (exists ops, calls w1 = calls w ++ ops /\ Forall (fun op => opName op ∈ names) ops)
  /\ (forall k, k ∉ names -> secrets w1 !! k = secrets w !! k)
  /\ fault w1 = fault w /\ apiHost w1 = apiHost w /\ now w1 = now w.

(** Every run of [m] writes only secrets named in [names]. *)
Definition Touches {A} (names : list string) (m : M A) : Prop :=
  forall w r w', m w = (r, w') -> touchesOnly names w w'.

(** Every run of [m] returns: it neither panics nor spins. *)
Definition Returns {A} (m : M A) : Prop :=
  forall w, exists a, fst (m w) = Done a.
End SpecTerms.

(** ** A small instance of the imports

    A framing codec (a tag byte, a length byte, the payload), a
    certificate encoding of a few fixed-width fields and the names, and
    the well-known names of the operator. The examples and the
    failing runs below are evaluated on it. *)

Module Toy.
Definition b2n (b : Byte.byte) : nat := Byte.to_nat b.
Definition n2b (n : nat) : Byte.byte := default Byte.x00 (Byte.of_nat n).
Definition z2b (z : Z) : Byte.byte := n2b (Z.to_nat z).
Definition b2z (b : Byte.byte) : Z := Z.of_nat (b2n b).

Definition tagOf (ty : string) : Byte.byte :=
  if String.eqb ty "CERTIFICATE" then Byte.x43
  else if String.eqb ty "RSA PRIVATE KEY" then Byte.x4b
  else Byte.x3f.

Definition typeOf (b : Byte.byte) : option string :=
  match b with
  | Byte.x43 => Some "CERTIFICATE"
  | Byte.x4b => Some "RSA PRIVATE KEY"
  | _ => None
  end.

Definition encode (blk : Block) : bytes :=
  tagOf (Type_ blk) :: n2b (length (Bytes blk)) :: Bytes blk.

Definition decode (data : bytes) : option Block * bytes :=
  match data with
  | t :: l :: body =>
      match typeOf t with
      | Some ty =>
          if (b2n l <=? length body)%nat
          then (Some (mkBlock ty (take (b2n l) body)), drop (b2n l) body)
          else (None, data)
      | None => (None, data)
      end
  | _ => (None, data)
  end.

Definition putName (s : string) : bytes :=
  n2b (String.length s) :: String.list_byte_of_string s.

Fixpoint getNames (fuel : nat) (bs : bytes) : option (list string) :=
  match fuel with
  | O => None
  | S fuel' =>
      match bs with
      | [] => Some []
      | l :: body =>
          if (b2n l <=? length body)%nat
          then cons (String.string_of_list_byte (take (b2n l) body))
                 <$> getNames fuel' (drop (b2n l) body)
          else None
      end
  end.

(** The encoding of a certificate signed with [priv]. *)
Definition der (c : Certificate) (priv : Key) : bytes :=
  Byte.x30 :: z2b (SerialNumber c) :: z2b (NotBefore c) :: z2b (NotAfter c)
    :: (if IsCA c then Byte.x01 else Byte.x00) :: z2b priv
    :: putName (CommonName (Subject c)) ++ concat (putName <$> DNSNames c).

Definition parse (bs : bytes) : option Certificate :=
  match bs with
  | Byte.x30 :: sn :: nb :: na :: ca :: _ :: names =>
      match getNames (S (length names)) names with
      | Some (cn :: dns) =>
          Some {| SerialNumber := b2z sn;
                  Subject := mkName ["Red Hat, Inc."] ["US"] [] cn;
                  NotBefore := b2z nb;
                  NotAfter := b2z na;
                  IsCA := Byte.eqb ca Byte.x01;
                  BasicConstraintsValid := Byte.eqb ca Byte.x01;
                  KeyUsage := 0;
                  ExtKeyUsage := [];
                  DNSNames := dns;
                  IPAddresses := [] |}
      | _ => None
      end
  | _ => None
  end.

(** As [x509.ParseCertificates], no bytes are no certificates and no
    error. *)
Definition parseAll (bs : bytes) : option (list Certificate) :=
  match bs with
  | [] => Some []
  | _ => (fun c => [c]) <$> parse bs
  end.

Definition marshalKey (k : Key) : bytes := [z2b k].
Definition parseKey (bs : bytes) : option Key :=
  match bs with
  | [b] => Some (b2z b)
  | _ => None
  end.

Definition libs : Libraries :=
  {| pem_Decode := decode;
     pem_Encode := encode;
     x509_CreateCertificate := fun tmpl _ _ priv => inl (der tmpl priv);
     x509_ParseCertificate := parse;
     x509_ParseCertificates := parseAll;
     x509_MarshalPKCS1PrivateKey := marshalKey;
     x509_ParsePKCS1PrivateKey := parseKey;
     controllerReference := fun m _ => inl m |}.

Definition config : Config :=
  {| ServerCACerts := "observability-server-ca-certs";
     ClientCACerts := "observability-client-ca-certs";
     ServerCerts := "observability-server-certs";
     GrafanaCerts := "observability-grafana-certs";
     ServerCertCN := "observability-server-certificate";
     GrafanaCN := "grafana";
     BackupLabelName := "cluster.open-cluster-management.io/backup";
     BackupLabelValue := "";
     GetCertDuration := 10;
     GetObsAPISvc := "observatorium-api" |}.

Definition noFault : StoreOp -> bool := fun _ => false.

(** An empty namespace at time 5 with some entropy and a route. *)
Definition emptyWorld : World :=
  {| secrets := ∅; calls := []; entropy := [11; 12; 13; 14; 15; 16; 17; 18];
     now := 5; apiHost := Some "api.example.com"; fault := noFault |}.

Definition cert (isCA : bool) (cn : string) (sn notAfter : Z) (dns : list string)
  : Certificate :=
  {| SerialNumber := sn;
     Subject := mkName ["Red Hat, Inc."] ["US"] [] cn;
     NotBefore := 0;
     NotAfter := notAfter;
     IsCA := isCA;
     BasicConstraintsValid := isCA;
     KeyUsage := 0;
     ExtKeyUsage := [];
     DNSNames := dns;
     IPAddresses := [] |}.

Definition certBlock (c : Certificate) (priv : Key) : Block :=
  mkBlock "CERTIFICATE" (der c priv).
Definition keyBlock (k : Key) : Block :=
  mkBlock "RSA PRIVATE KEY" (marshalKey k).

Definition backupLabel : gmap string string :=
  {[ "cluster.open-cluster-management.io/backup" := "" ]}.

Definition bundle (name : string) (ca crt key : bytes) : Secret :=
  mkSecret name backupLabel None
    (<["tls.key" := key]> (<["tls.crt" := crt]> {[ "ca.crt" := ca ]})).

(** Three server CA certificates signed with key 7: the current one,
    its predecessor, valid until 20, and an older one valid until 90. *)
Definition caNew : Block := certBlock (cert true "ca" 3 90 []) 7.
Definition caOld : Block := certBlock (cert true "ca" 2 20 []) 7.
Definition caOlder : Block := certBlock (cert true "ca" 1 90 []) 7.

Definition serverCA (chain : bytes) : Secret :=
  bundle "observability-server-ca-certs" (encode caNew) chain (encode (keyBlock 7)).

Definition worldOf (ss : list Secret) (t : Z) (host : option string) : World :=
  {| secrets := list_to_map ((fun s => (SName s, s)) <$> ss);
     calls := []; entropy := [11; 12; 13; 14; 15; 16; 17; 18];
     now := t; apiHost := host; fault := noFault |}.

(** The certificate a bundle stores, as the drift check reads it. *)
Definition storedCert (s : Secret) : option Certificate :=
  match decode (Data s !!! "tls.crt") with
  | (Some blk, _) => parse (Bytes blk)
  | (None, _) => None
  end.

(** A server leaf with serial number 11, issued for the common name
    and the host ["a"]. *)
Definition leafACert : Certificate :=
  cert false "observability-server-certificate" 11 90
    ["observability-server-certificate"; "a"].

Definition leafA : Secret :=
  bundle "observability-server-certs" (encode caNew)
    (encode (certBlock leafACert 7)) (encode (keyBlock 21)).

(** The server CA bundle and that leaf; the random source yields 11
    next. *)
Definition driftWorld : World :=
  worldOf [serverCA (encode caNew); leafA] 5 (Some "api.example.com").

(** The client CA bundle, with key 8. *)
Definition caClient : Block := certBlock (cert true "client-ca" 4 90 []) 8.
Definition clientCA : Secret :=
  bundle "observability-client-ca-certs" (encode caClient) (encode caClient)
    (encode (keyBlock 8)).

(** A server leaf whose certificate is a PEM block that holds no
    certificate, beside both CA bundles. *)
Definition leafBroken : Secret :=
  bundle "observability-server-certs" (encode caNew)
    (encode (mkBlock "CERTIFICATE" [Byte.x00; Byte.x01])) (encode (keyBlock 21)).
Definition brokenLeafWorld : World :=
  worldOf [serverCA (encode caNew); clientCA; leafBroken] 5 (Some "api.example.com").

(** A server leaf whose certificate parses and whose key is not PEM. *)
Definition leafNoKey : Secret :=
  bundle "observability-server-certs" (encode caNew)
    (encode (certBlock leafACert 7)) [Byte.x6b; Byte.x65; Byte.x79].
Definition leafNoKeyWorld : World :=
  worldOf [serverCA (encode caNew); leafNoKey] 5 (Some "api.example.com").

(** A server CA bundle whose key is not PEM. *)
Definition caNoKey : Secret :=
  bundle "observability-server-ca-certs" (encode caNew) (encode caNew)
    [Byte.x6b; Byte.x65; Byte.x79].
Definition caNoKeyWorld : World := worldOf [caNoKey] 5 None.

(** A server CA bundle that was renewed once: two certificates. *)
Definition twoCAWorld : World :=
  worldOf [serverCA (encode caNew ++ encode caOld)] 5 (Some "api.example.com").

(** The same CA bundle beside the server leaf [leafA], whose names do
    not cover the internal service. *)
Definition twoCADriftWorld : World :=
  worldOf [serverCA (encode caNew ++ encode caOld); leafA] 5 (Some "api.example.com").

(** No bundle yet, and host discovery fails. *)
Definition noRouteWorld : World := worldOf [] 5 None.



(** A grafana leaf that carries the names of [leafACert]. *)
Definition grafanaLeaf : Secret :=
  bundle "observability-grafana-certs" (encode caClient)
    (encode (certBlock leafACert 8)) (encode (keyBlock 21)).
Definition grafanaWorld : World := worldOf [grafanaLeaf] 5 None.

(** A server CA bundle whose key is a PEM block that holds no key. *)
Definition caBadKey : Secret :=
  bundle "observability-server-ca-certs" (encode caNew) (encode caNew)
    (encode (mkBlock "RSA PRIVATE KEY" [])).
Definition caBadKeyWorld : World := worldOf [caBadKey] 5 None.

(** A namespace that holds the server CA bundle alone. *)
Definition caWorld : World := worldOf [serverCA (encode caNew)] 5 None.

(** A certificate that lapsed at 10. At time 50 the first and the
    second certificate of this chain have expired, the third has not. *)
Definition caLapsed : Block := certBlock (cert true "ca" 5 10 []) 7.
Definition pruneWorld : World :=
  worldOf [serverCA (encode caLapsed ++ encode caOld ++ encode caOlder)] 50 None.
End Toy.

(** ** Further example namespaces *)

Module Cases.
(** The empty namespace of [Toy.emptyWorld] with a store that refuses
    every [Create]. *)
Definition noCreate : StoreOp -> bool :=
  fun op => match op with OpCreate _ => true | _ => false end.
Definition readOnlyWorld : World :=
  mkWorld ∅ [] [11; 12; 13; 14; 15; 16; 17; 18] 5 (Some "api.example.com") noCreate.

(** A server CA bundle whose chain is one certificate followed by a
    line feed, and one whose second block holds no bytes. *)
Definition trailingWorld : World :=
  Toy.worldOf [Toy.serverCA (Toy.encode Toy.caNew ++ [Byte.x0a])] 5 None.
Definition hollowWorld : World :=
  Toy.worldOf
    [Toy.serverCA (Toy.encode Toy.caNew ++ Toy.encode (mkBlock "CERTIFICATE" []))] 5 None.

(** A chain of three PEM blocks: the current CA certificate, a
    certificate block without bytes, and an earlier CA certificate that
    is still valid. *)
Definition hollow : Block := mkBlock "CERTIFICATE" [].
Definition hollowChain : bytes :=
  Toy.encode Toy.caNew ++ Toy.encode hollow ++ Toy.encode Toy.caOlder.
Definition hollowChainWorld : World := Toy.worldOf [Toy.serverCA hollowChain] 5 None.
End Cases.

Module Settled.
(** The namespace that a pass leaves behind when it starts from
    [Toy.emptyWorld], and its four bundles. *)
Definition world : World :=
  snd (@CreateObservabilityCerts Toy.libs Toy.config (Some "mco") true Toy.emptyWorld).
Definition bundleOf (name : string) : Secret :=
  default (mkSecret name ∅ None ∅) (secrets world !! name).
End Settled.

(** ** What the libraries do with their own output

    The conditions under which a pass can be followed from an empty
    namespace to the end: the two kinds of PEM block that the package
    writes decode to themselves, a marshalled key parses to itself,
    every template is signed and the result parses to a certificate
    with the DNS names of the template, and the owner reference can
    be set. *)

Section Laws.
Context `{Libraries}.

Definition pemRoundTrip : Prop :=
  forall ty bs,
    ty ∈ ["CERTIFICATE"; "RSA PRIVATE KEY"] ->
    pem_Decode (pem_Encode (mkBlock ty bs)) = (Some (mkBlock ty bs), []).

Definition keyRoundTrip : Prop :=
  forall k, x509_ParsePKCS1PrivateKey (x509_MarshalPKCS1PrivateKey k) = Some k.

Definition signs : Prop :=
  forall tmpl parent pub priv,
    exists certBytes crt,
      x509_CreateCertificate tmpl parent pub priv = inl certBytes
      /\ x509_ParseCertificates certBytes = Some [crt]
      /\ x509_ParseCertificate certBytes = Some crt
      /\ DNSNames crt = DNSNames tmpl.

Definition owns (m : string) : Prop :=
  forall s, exists o, controllerReference m s = inl o.
End Laws.

(** ** An instance of the imports that keeps these laws

    A PEM block is its type and its bytes, each behind its length in
    unary; a key and a certificate are the bits of their [Countable]
    code, one bit a byte. *)

Module Lawful.
Fixpoint p2b (p : positive) : bytes :=
  match p with
  | xH => []
  | xO q => Byte.x00 :: p2b q
  | xI q => Byte.x01 :: p2b q
  end.

Fixpoint b2p (bs : bytes) : option positive :=
  match bs with
  | [] => Some xH
  | Byte.x00 :: r => xO <$> b2p r
  | Byte.x01 :: r => xI <$> b2p r
  | _ => None
  end.

Fixpoint unary (n : nat) : bytes :=
  match n with
  | O => [Byte.x00]
  | S n' => Byte.x01 :: unary n'
  end.

Fixpoint count (bs : bytes) : option (nat * bytes) :=
  match bs with
  | Byte.x00 :: r => Some (O, r)
  | Byte.x01 :: r => (fun nr => (S (fst nr), snd nr)) <$> count r
  | _ => None
  end.

Definition frame (xs : bytes) : bytes := unary (length xs) ++ xs.

Definition unframe (bs : bytes) : option (bytes * bytes) :=
  match count bs with
  | Some (n, r) => if (n <=? length r)%nat then Some (take n r, drop n r) else None
  | None => None
  end.

Definition encode (b : Block) : bytes :=
  frame (String.list_byte_of_string (Type_ b)) ++ frame (Bytes b).

Definition decode (data : bytes) : option Block * bytes :=
  match unframe data with
  | Some (ty, r1) =>
      match unframe r1 with
      | Some (bs, r2) => (Some (mkBlock (String.string_of_list_byte ty) bs), r2)
      | None => (None, data)
      end
  | None => (None, data)
  end.

Definition fields (c : Certificate) : Z * Z * Z * bool * string * list string :=
  (SerialNumber c, NotBefore c, NotAfter c, IsCA c, CommonName (Subject c), DNSNames c).

Definition der (c : Certificate) : bytes := p2b (countable.encode (fields c)).

Definition parse (bs : bytes) : option Certificate :=
  match b2p bs ≫= countable.decode with
  | Some (sn, nb, na, ca, cn, dns) =>
      Some {| SerialNumber := sn;
              Subject := mkName ["Red Hat, Inc."] ["US"] [] cn;
              NotBefore := nb;
              NotAfter := na;
              IsCA := ca;
              BasicConstraintsValid := ca;
              KeyUsage := 0;
              ExtKeyUsage := [];
              DNSNames := dns;
              IPAddresses := [] |}
  | None => None
  end.

Definition marshalKey (k : Key) : bytes := Byte.x4b :: p2b (countable.encode k).
Definition parseKey (bs : bytes) : option Key :=
  match bs with
  | Byte.x4b :: r => b2p r ≫= countable.decode
  | _ => None
  end.

Definition libs : Libraries :=
  {| pem_Decode := decode;
     pem_Encode := encode;
     x509_CreateCertificate := fun tmpl _ _ _ => inl (Byte.x30 :: der tmpl);
     x509_ParseCertificate :=
       fun bs => match bs with Byte.x30 :: r => parse r | _ => None end;
     x509_ParseCertificates :=
       fun bs => match bs with
                 | [] => Some []
                 | Byte.x30 :: r => (fun c => [c]) <$> parse r
                 | _ => None
                 end;
     x509_MarshalPKCS1PrivateKey := marshalKey;
     x509_ParsePKCS1PrivateKey := parseKey;
     controllerReference := fun m _ => inl m |}.
End Lawful.

(** * The client certificate of the hub metrics collector

    [CreateCSR] and [CreateUpdateMtlsCertSecretForHubCollector], the
    rest of package [certificates]. *)

(** [x509.CertificateRequest], the fields that [CreateCSR] fills in;
    [ExtraNames] are those of the subject. *)
Record CertificateRequest : Type := mkCertificateRequest {
  ReqSubject : Name;
  ExtraNames : list (list Z * string);
  ReqDNSNames : list string;
  SignatureAlgorithm : Z
}.

Definition SHA512WithRSA : Z := 6.

(** [certificatesv1.CertificateSigningRequest], its [Spec]. *)
Record CertificateSigningRequest : Type := mkCSR {
  Request : bytes;
  Usages : list string
}.

Definition UsageDigitalSignature : string := "digital signature".
Definition UsageClientAuth : string := "client auth".

(** The errors [CreateUpdateMtlsCertSecretForHubCollector] returns:
    [errors.NewBadRequest] or the error of the store. *)
Inductive HubError : Type :=
  | BadRequest (msg : string)
  | StoreError (err : Error).

Definition IsAlreadyExists (e : Error) : bool :=
  match e with ErrAlreadyExists => true | _ => false end.

(** What the two functions import beyond [Libraries]:
    [x509.CreateCertificateRequest], which is handed the key pointer as
    it is (nil when key generation failed); [Sign], a function of the
    package that is not among the sources, which may read and write
    the store and returns the signed certificate or nil; and two names
    of package [operatorconfig]. *)
Class HubImports : Type := {
  x509_CreateCertificateRequest : CertificateRequest -> option Key -> Run (bytes + Error);
  Sign : CertificateSigningRequest -> M (option bytes);
  operatorconfig_ClientCACertificateCN : string;
  operatorconfig_HubMetricsCollectorMtlsCert : string
}.

Section HubCollector.
Context `{Libraries} `{HubImports}.

Definition csrTemplate : CertificateRequest :=
  {| ReqSubject := mkName ["Red Hat, Inc."] ["US"] [] operatorconfig_ClientCACertificateCN;
     ExtraNames := [([2; 5; 4; 11], "acm"); ([2; 5; 4; 3], "managed-cluster-observability")];
     ReqDNSNames := ["observability-controller.addon.open-cluster-management.io"];
     SignatureAlgorithm := SHA512WithRSA |}.

(** [CreateCSR] drops the errors of [rsa.GenerateKey] and of
    [x509.CreateCertificateRequest]: the key is nil after the first,
    the request bytes are nil after the second.
    [x509.MarshalPKCS1PrivateKey] reads the fields of the key. *)
Definition CreateCSR : M (bytes * bytes) :=
  r <- rsa_GenerateKey;;
  let keys := match r with inl k => Some k | inr _ => None end in
  r <- lift (x509_CreateCertificateRequest csrTemplate keys);;
  let csrCertificate := match r with inl der => der | inr _ => [] end in
  let csr := pem_Encode (mkBlock "CERTIFICATE REQUEST" csrCertificate) in
  k <- lift (deref keys);;
  let privateKey := pem_Encode (mkBlock "RSA PRIVATE KEY" (x509_MarshalPKCS1PrivateKey k)) in
  ret (csr, privateKey).

(** [c.Get] replaces the object it is handed by the stored one, so
    the [Data] map that is assigned to is the stored one, nil for a
    secret without data. *)
Definition CreateUpdateMtlsCertSecretForHubCollector (updateMtlsCert : bool)
  : M (option HubError) :=
  pair <- CreateCSR;;
  let (csrBytes, privateKeyBytes) := pair : bytes * bytes in
  let csr := mkCSR csrBytes [UsageDigitalSignature; UsageClientAuth] in
  signedClientCert <- Sign csr;;
  match signedClientCert with
  | None => ret (Some (BadRequest "failed to sign CSR"))
  | Some signedClientCert =>
      let HubMtlsSecret :=
        mkSecret operatorconfig_HubMetricsCollectorMtlsCert ∅ None
          (<["tls.key" := privateKeyBytes]> {[ "tls.crt" := signedClientCert ]}) in
      err <- client_Create HubMtlsSecret;;
      match err with
      | None => ret None
      | Some e =>
          if negb (IsAlreadyExists e) then ret (Some (StoreError e))
          else if updateMtlsCert then
            r <- client_Get operatorconfig_HubMetricsCollectorMtlsCert;;
            match r with
            | inr e => ret (Some (StoreError e))
            | inl HubMtlsSecret =>
                if bool_decide (Data HubMtlsSecret = ∅) then panic nilMap
                else
                  let data1 := <["tls.crt" := signedClientCert]> (Data HubMtlsSecret) in
                  let data2 := <["tls.key" := privateKeyBytes]> data1 in
                  err <- client_Update (withData HubMtlsSecret data2);;
                  match err with
                  | Some e => ret (Some (StoreError e))
                  | None => ret None
                  end
            end
          else ret None
      end
  end.
End HubCollector.

(** An instance for the examples: the request is the common name of
    its subject, and the signer wraps the request it is handed, or
    refuses. *)
Module ToyHub.
Definition request (tmpl : CertificateRequest) (k : option Key) : Run (bytes + Error) :=
  match k with
  | Some k => Done (inl (Toy.z2b k :: String.list_byte_of_string (CommonName (ReqSubject tmpl))))
  | None => Panicked nilDeref
  end.

Definition signer (csr : CertificateSigningRequest) : M (option bytes) :=
  fun w => (Done (Some (Toy.encode (mkBlock "CERTIFICATE" (Request csr)))), w).
Definition refuser (csr : CertificateSigningRequest) : M (option bytes) :=
  fun w => (Done None, w).

Definition imports (sign : CertificateSigningRequest -> M (option bytes)) : HubImports :=
  {| x509_CreateCertificateRequest := request;
     Sign := sign;
     operatorconfig_ClientCACertificateCN := "observability-client-ca-certificate";
     operatorconfig_HubMetricsCollectorMtlsCert := "observability-controller-open-cluster-management.io-observability-signer-client-cert" |}.

(** A namespace that holds a hub collector secret with an old
    certificate, an old key and one more entry. *)
Definition oldSecret : Secret :=
  mkSecret "observability-controller-open-cluster-management.io-observability-signer-client-cert"
    Toy.backupLabel (Some "mco")
    (<["note" := [Byte.x6e]]> (<["tls.key" := [Byte.x6b]]> {[ "tls.crt" := [Byte.x63] ]})).
Definition oldWorld : World := Toy.worldOf [oldSecret] 5 None.
End ToyHub.

(** * Package [status] and the readiness checks of the controller

    The pods of a component are folded into a status map, the status
    maps into one condition, and the condition is written to the
    status of the instance, with retries on conflict. *)

(** ** State passing over any store *)

Definition St (S A : Type) : Type := S -> Run A * S.

Definition sret {S A} (a : A) : St S A := fun s => (Done a, s).
Definition sbind {S A B} (m : St S A) (f : A -> St S B) : St S B :=
  fun s =>
    match m s with
    | (Done a, s') => f a s'
    | (Panicked msg, s') => (Panicked msg, s')
    | (Spinning, s') => (Spinning, s')
    end.
Definition slift {S A} (r : Run A) : St S A := fun s => (r, s).

Notation "x <<- m ;; k" := (sbind m (fun x => k))
  (at level 100, m at next level, right associativity).

(** ** API objects *)

Module corev1.
Definition PodPending : string := "Pending".
Definition PodRunning : string := "Running".
Definition PodSucceeded : string := "Succeeded".
Definition PodFailed : string := "Failed".

Record ContainerStatus : Type := mkContainerStatus { Ready : bool }.

Record Pod : Type := mkPod {
  Name : string;
  Namespace : string;
  Labels : gmap string string;
  Phase : string;
  ContainerStatuses : list ContainerStatus
}.
End corev1.

Module metav1.
Definition ConditionTrue : string := "True".

(** [LastTransitionTime] is [None] for the zero time. *)
Record Condition : Type := mkCondition {
  Type_ : string;
  Status : string;
  LastTransitionTime : option Z;
  Reason : string;
  Message : string
}.
End metav1.

Module apiextensionsv1.
Record CustomResourceDefinitionVersion : Type := mkVersion {
  Name : string;
  Served : bool
}.
End apiextensionsv1.

(** Package [shared]. *)
Module shared.
Record ObservabilityAddonSpec : Type := mkAddonSpec {
  EnableMetrics : bool;
  Interval : Z
}.

Record PreConfiguredStorage : Type := mkStorage {
  Key : string;
  Name : string;
  TLSSecretName : string;
  TLSSecretMountPath : string;
  ServiceAccountProjection : bool
}.
End shared.

(** The API types of the operator that the sources name; the fields
    are those that are read or written. Pointer fields are options. *)
Module mcov1beta2.
Abbreviation PodStatusMap := (gmap string (list string)).

Record MultiClusterObservabilityComponentStatus : Type := mkComponents {
  Grafana : PodStatusMap;
  ObservatoriumAPI : PodStatusMap;
  ThanosQuery : PodStatusMap;
  ThanosQueryFrontend : PodStatusMap;
  ThanosReceiveController : PodStatusMap;
  ObservatoriumOperator : PodStatusMap;
  RBACQueryProxy : PodStatusMap;
  Alertmanager : PodStatusMap;
  ThanosCompact : PodStatusMap;
  ThanosReceive : PodStatusMap;
  ThanosRule : PodStatusMap;
  ThanosStoreMemcached : PodStatusMap;
  ThanosStoreShard : PodStatusMap;
  MultiClusterObservabilityAddon : PodStatusMap
}.

Record CapabilitiesSpec : Type := mkCapabilities {
  Platform : option unit;
  UserWorkloads : option unit
}.

Record StorageConfigObject : Type := mkStorageConfig {
  MetricObjectStorage : option shared.PreConfiguredStorage
}.

Record MultiClusterObservabilitySpec : Type := mkSpec {
  ObservabilityAddonSpec : option shared.ObservabilityAddonSpec;
  Capabilities : option CapabilitiesSpec;
  StorageConfig : option StorageConfigObject
}.

Record MultiClusterObservabilityStatus : Type := mkStatus {
  Conditions : list metav1.Condition;
  Components : MultiClusterObservabilityComponentStatus
}.

Record MultiClusterObservability : Type := mkMCO {
  Name : string;
  Spec : MultiClusterObservabilitySpec;
  Status : MultiClusterObservabilityStatus
}.

(** The pod statuses, condition types and condition reasons. *)
Class Constants : Type := {
  PodFailed : string;
  PodPending : string;
  PodRunning : string;
  PodReady : string;
  PodStatusUnknown : string;
  ConditionReady : string;
  ConditionPending : string;
  ConditionFailed : string;
  ConditionDegraded : string;
  ReasonFailedComponents : string;
  ReasonPendingComponents : string;
  ReasonReadyComponents : string;
  ReasonMetricsDisabled : string;
  ReasonMCOAMissingCRDs : string;
  ReasonMissingObjectStorageSecret : string;
  ReasonInvalidObjectStorageSecret : string
}.
End mcov1beta2.

(** ** Errors *)

Inductive ApiError : Type :=
  | NotFound
  | AlreadyExists
  | Conflict
  | Unavailable.

(** [status.DegradedError] *)
Record DegradedError : Type := mkDegraded {
  DMessage : string;
  DReason : string;
  Requeue : bool
}.

(** The [error] values of these packages: an error of the API, an
    error wrapped with a message ([kverrors.Wrap], [fmt.Errorf] with
    [%w]), a [*DegradedError]. *)
Inductive error : Type :=
  | ApiErr (e : ApiError)
  | Wrapped (msg : string) (cause : error)
  | Degraded (e : DegradedError).

Definition apierrors_IsNotFound (err : ApiError) : bool :=
  match err with NotFound => true | _ => false end.
Definition apierrors_IsConflict (err : error) : bool :=
  match err with ApiErr Conflict => true | _ => false end.

(** ** The cluster *)

Inductive ApiCall : Type :=
  | GetInstance (key : string)
  | ListPods
  | UpdateStatus (name : string)
  | GetCRD (name : string)
  | GetSecret (name : string).

(** What the client of these packages sees: the instances, the pods,
    the custom resource definitions, the secrets, the calls made so
    far, and, for the [n]-th call, the error the API answers with. *)
Record Cluster : Type := mkCluster {
  instances : gmap string mcov1beta2.MultiClusterObservability;
  pods : list corev1.Pod;
  crds : gmap string (list apiextensionsv1.CustomResourceDefinitionVersion);
  objSecrets : gmap string Secret;
  trace : list ApiCall;
  failing : nat -> ApiCall -> option ApiError
}.

Definition setInstances (c : Cluster)
    (m : gmap string mcov1beta2.MultiClusterObservability) : Cluster :=
  mkCluster m (pods c) (crds c) (objSecrets c) (trace c) (failing c).

(** One call of the API: it is recorded, and fails when the cluster
    says so. *)
Definition call (op : ApiCall) : St Cluster (option ApiError) := fun c =>
  (Done (failing c (length (trace c)) op),
   mkCluster (instances c) (pods c) (crds c) (objSecrets c) (trace c ++ [op]) (failing c)).

(** Package [config], as far as these packages use it. *)
Class ControllerConfig : Type := {
  GetDefaultNamespace : string;
  ComponentLabels : string -> string -> gmap string string;
  config_MultiClusterObservabilityAddon : string;
  GetMCOASupportedCRDNames : list string;
  GetMCOASupportedCRDVersion : string -> string;
  CheckObjStorageConf : string -> Secret -> option string
}.

(** ** The client *)

(** [c.Get] of an instance: the object read carries the name it was
    asked under. *)
Definition client_GetInstance (key : string)
  : St Cluster (mcov1beta2.MultiClusterObservability + ApiError) :=
  e <<- call (GetInstance key);;
  match e with
  | Some err => sret (inr err)
  | None => fun c =>
      match instances c !! key with
      | Some i => (Done (inl (mcov1beta2.mkMCO key (mcov1beta2.Spec i) (mcov1beta2.Status i))), c)
      | None => (Done (inr NotFound), c)
      end
  end.

(** [client.MatchingLabels] and [client.InNamespace]. *)
Definition selected (labels : gmap string string) (ns : string) (p : corev1.Pod) : bool :=
  bool_decide (corev1.Namespace p = ns)
  && bool_decide (map_Forall (fun k v => corev1.Labels p !! k = Some v) labels).

Definition client_ListPods (labels : gmap string string) (ns : string)
  : St Cluster (list corev1.Pod + ApiError) :=
  e <<- call ListPods;;
  match e with
  | Some err => sret (inr err)
  | None => fun c => (Done (inl (List.filter (selected labels ns) (pods c))), c)
  end.

(** [c.Status().Update]: the status of the stored instance is
    replaced, its spec stays. *)
Definition client_StatusUpdate (instance : mcov1beta2.MultiClusterObservability)
  : St Cluster (option ApiError) :=
  e <<- call (UpdateStatus (mcov1beta2.Name instance));;
  match e with
  | Some err => sret (Some err)
  | None => fun c =>
      match instances c !! mcov1beta2.Name instance with
      | Some stored =>
          (Done None,
           setInstances c
             (<[mcov1beta2.Name instance :=
                  mcov1beta2.mkMCO (mcov1beta2.Name instance) (mcov1beta2.Spec stored)
                    (mcov1beta2.Status instance)]> (instances c)))
      | None => (Done (Some NotFound), c)
      end
  end.

Definition client_GetCRD (name : string)
  : St Cluster (list apiextensionsv1.CustomResourceDefinitionVersion + ApiError) :=
  e <<- call (GetCRD name);;
  match e with
  | Some err => sret (inr err)
  | None => fun c =>
      match crds c !! name with
      | Some versions => (Done (inl versions), c)
      | None => (Done (inr NotFound), c)
      end
  end.

Definition client_GetSecret (name : string) : St Cluster (Secret + ApiError) :=
  e <<- call (GetSecret name);;
  match e with
  | Some err => sret (inr err)
  | None => fun c =>
      match objSecrets c !! name with
      | Some s => (Done (inl (mkSecret name (Labels s) (Owner s) (Data s))), c)
      | None => (Done (inr NotFound), c)
      end
  end.

(** [retry.RetryOnConflict(retry.DefaultRetry, fn)]: [fn] is run up
    to five times, as long as it returns a conflict; the last
    conflict is returned when the runs are used up. *)
Definition DefaultRetry_Steps : nat := 5.

Fixpoint retry_OnError {S} (steps : nat) (retriable : error -> bool)
    (fn : St S (option error)) (lastErr : option error) : St S (option error) :=
  match steps with
  | O => sret lastErr
  | S steps' =>
      e <<- fn;;
      match e with
      | None => sret None
      | Some err =>
          if retriable err then retry_OnError steps' retriable fn (Some err)
          else sret (Some err)
      end
  end.

Definition retry_RetryOnConflict {S} (steps : nat) (fn : St S (option error))
  : St S (option error) :=
  retry_OnError steps apierrors_IsConflict fn None.

(** [mergeConditions], a function of package [status] that is not
    among the sources. *)
Class StatusHelpers : Type := {
  mergeConditions :
    list metav1.Condition -> list metav1.Condition -> Z -> list metav1.Condition
}.

(** ** Package [status] *)

Section Status.
Context `{mcov1beta2.Constants} `{ControllerConfig} `{StatusHelpers}.

(** The loop at the end of [podStatus]. *)
Fixpoint containersReady (statuses : list corev1.ContainerStatus) : string :=
  match statuses with
  | [] => mcov1beta2.PodReady
  | c :: rest =>
      if negb (corev1.Ready c) then mcov1beta2.PodRunning else containersReady rest
  end.

Definition podStatus (pod : corev1.Pod) : string :=
  let phase := corev1.Phase pod in
  if bool_decide (phase = corev1.PodFailed) then mcov1beta2.PodFailed
  else if bool_decide (phase = corev1.PodPending) then mcov1beta2.PodPending
  else if bool_decide (phase = corev1.PodRunning)
       then containersReady (corev1.ContainerStatuses pod)
  else mcov1beta2.PodStatusUnknown.

(** [for _, pod := range pods.Items { psm[status] = append(psm[status], pod.Name) }] *)
Fixpoint groupPods (items : list corev1.Pod) (psm : mcov1beta2.PodStatusMap)
  : mcov1beta2.PodStatusMap :=
  match items with
  | [] => psm
  | pod :: rest =>
      let status := podStatus pod in
      groupPods rest (<[status := psm !!! status ++ [corev1.Name pod]]> psm)
  end.

Definition appendPodStatus (component instanceName : string)
  : St Cluster (mcov1beta2.PodStatusMap + error) :=
  r <<- client_ListPods (ComponentLabels component instanceName) GetDefaultNamespace;;
  match r with
  | inr err =>
      sret (inr (Wrapped "failed to list pods for MultiClusterObservability component"
                   (ApiErr err)))
  | inl items => sret (inl (groupPods items ∅))
  end.

(** Of the fourteen status maps only that of the addon is filled in;
    the others stay nil. *)
Definition generateComponentStatus (instance : mcov1beta2.MultiClusterObservability)
  : St Cluster (mcov1beta2.MultiClusterObservabilityComponentStatus + error) :=
  r <<- appendPodStatus config_MultiClusterObservabilityAddon (mcov1beta2.Name instance);;
  match r with
  | inr err =>
      sret (inr (Wrapped "failed lookup MultiClusterObservability component pods status"
                   err))
  | inl psm => sret (inl (mcov1beta2.mkComponents ∅ ∅ ∅ ∅ ∅ ∅ ∅ ∅ ∅ ∅ ∅ ∅ ∅ psm))
  end.

Definition messageReady : string := "All components ready".
Definition messageFailed : string :=
  "One or more MultiClusterObservability components failed".
Definition messagePending : string :=
  "One or more MultiClusterObservability components pending on dependencies".
Definition messageRunning : string :=
  "All components are running, but some readiness checks are failing".
Definition messageMetricsDisabled : string :=
  "Collect metrics from the managed clusters is disabled".

Definition conditionFailed : metav1.Condition :=
  metav1.mkCondition mcov1beta2.ConditionFailed "" None
    mcov1beta2.ReasonFailedComponents messageFailed.
Definition conditionPending : metav1.Condition :=
  metav1.mkCondition mcov1beta2.ConditionPending "" None
    mcov1beta2.ReasonPendingComponents messagePending.
Definition conditionRunning : metav1.Condition :=
  metav1.mkCondition mcov1beta2.ConditionPending "" None
    mcov1beta2.ReasonPendingComponents messageRunning.
Definition conditionReady : metav1.Condition :=
  metav1.mkCondition mcov1beta2.ConditionReady "" None
    mcov1beta2.ReasonReadyComponents messageReady.
Definition conditionMetricsDisabled : metav1.Condition :=
  metav1.mkCondition mcov1beta2.ConditionReady "" None
    mcov1beta2.ReasonMetricsDisabled messageMetricsDisabled.

Definition DegradedError_Error (e : DegradedError) : string :=
  String.append "cluster degraded: " (DMessage e).

(** The sum that [generateCondition] writes out three times, for
    [PodFailed], [PodPending] and [PodRunning]. *)
Definition podsIn (status : string)
    (cs : mcov1beta2.MultiClusterObservabilityComponentStatus) : nat :=
  (length (mcov1beta2.Grafana cs !!! status)
   + length (mcov1beta2.ObservatoriumAPI cs !!! status)
   + length (mcov1beta2.ThanosQuery cs !!! status)
   + length (mcov1beta2.ThanosQueryFrontend cs !!! status)
   + length (mcov1beta2.ThanosReceiveController cs !!! status)
   + length (mcov1beta2.ObservatoriumOperator cs !!! status)
   + length (mcov1beta2.RBACQueryProxy cs !!! status)
   + length (mcov1beta2.Alertmanager cs !!! status)
   + length (mcov1beta2.ThanosCompact cs !!! status)
   + length (mcov1beta2.ThanosReceive cs !!! status)
   + length (mcov1beta2.ThanosRule cs !!! status)
   + length (mcov1beta2.ThanosStoreMemcached cs !!! status)
   + length (mcov1beta2.ThanosStoreShard cs !!! status)
   + length (mcov1beta2.MultiClusterObservabilityAddon cs !!! status))%nat.

Definition generateCondition (cs : mcov1beta2.MultiClusterObservabilityComponentStatus)
    (stack : mcov1beta2.MultiClusterObservability) (degradedErr : option DegradedError)
  : metav1.Condition + error :=
  match degradedErr with
  | Some d =>
      inl (metav1.mkCondition mcov1beta2.ConditionDegraded "" None (DReason d) (DMessage d))
  | None =>
      let addonSpec := mcov1beta2.ObservabilityAddonSpec (mcov1beta2.Spec stack) in
      if match addonSpec with
         | Some a => negb (shared.EnableMetrics a)
         | None => false
         end
      then inl conditionMetricsDisabled
      else
        let failed := podsIn mcov1beta2.PodFailed cs in
        if negb (failed =? 0)%nat then inl conditionFailed
        else
          let pending := podsIn mcov1beta2.PodPending cs in
          if negb (pending =? 0)%nat then inl conditionPending
          else
            let running := podsIn mcov1beta2.PodRunning cs in
            if (0 <? running)%nat then inl conditionRunning
            else inl conditionReady
  end.

Definition generateConditions (cs : mcov1beta2.MultiClusterObservabilityComponentStatus)
    (stack : mcov1beta2.MultiClusterObservability) (degradedErr : option DegradedError)
  : list metav1.Condition + error :=
  let conditions := [] in
  match generateCondition cs stack degradedErr with
  | inr err => inr err
  | inl mainCondition => inl (conditions ++ [mainCondition])
  end.

(** The closure [statusUpdater] of [RefreshStatus]. *)
Definition statusUpdater (cs : mcov1beta2.MultiClusterObservabilityComponentStatus)
    (activeConditions : list metav1.Condition) (metaTime : Z)
    (instance : mcov1beta2.MultiClusterObservability)
  : mcov1beta2.MultiClusterObservability :=
  mcov1beta2.mkMCO (mcov1beta2.Name instance) (mcov1beta2.Spec instance)
    (mcov1beta2.mkStatus
       (mergeConditions (mcov1beta2.Conditions (mcov1beta2.Status instance))
          activeConditions metaTime)
       cs).

(** [RefreshStatus]. The loop over [activeConditions] assigns to the
    loop variable, a copy of the element: [stamped] is what it
    assigns, and it is not used. The name in the message of the
    lookup error is that of the instance before it was read. *)
Definition RefreshStatus (req : string) (now : Z) (degradedErr : option DegradedError)
  : St Cluster (option error) :=
  r <<- client_GetInstance req;;
  match r with
  | inr err =>
      if apierrors_IsNotFound err then sret None
      else sret (Some (Wrapped "failed to lookup instance " (ApiErr err)))
  | inl instance =>
      r <<- generateComponentStatus instance;;
      match r with
      | inr err => sret (Some err)
      | inl cs =>
          match generateConditions cs instance degradedErr with
          | inr err => sret (Some err)
          | inl activeConditions =>
              let metaTime := now in
              let stamped :=
                (fun c => metav1.mkCondition (metav1.Type_ c) metav1.ConditionTrue
                            (Some metaTime) (metav1.Reason c) (metav1.Message c))
                  <$> activeConditions in
              e <<- client_StatusUpdate (statusUpdater cs activeConditions metaTime instance);;
              match e with
              | None => sret None
              | Some err =>
                  if apierrors_IsConflict (ApiErr err) then
                    retry_RetryOnConflict DefaultRetry_Steps
                      (r <<- client_GetInstance req;;
                       match r with
                       | inr err => sret (Some (ApiErr err))
                       | inl instance =>
                           e <<- client_StatusUpdate
                                   (statusUpdater cs activeConditions metaTime instance);;
                           sret (ApiErr <$> e)
                       end)
                  else sret (Some (ApiErr err))
              end
          end
      end
  end.
End Status.

(** ** The readiness checks of the controller *)

(** [client.IgnoreAlreadyExists] *)
Definition client_IgnoreAlreadyExists (err : option ApiError) : option ApiError :=
  match err with
  | Some AlreadyExists => None
  | _ => err
  end.

(** [strings.Join] *)
Fixpoint strings_Join (elems : list string) (sep : string) : string :=
  match elems with
  | [] => ""
  | [s] => s
  | s :: rest => String.append s (String.append sep (strings_Join rest sep))
  end.

Section Readiness.
Context `{mcov1beta2.Constants} `{ControllerConfig}.

(** The inner loop of [mcoaCRDsInstalled]: whether some version of
    the definition has the supported name and is served. *)
Fixpoint servedAt (version : string)
    (versions : list apiextensionsv1.CustomResourceDefinitionVersion) : bool :=
  match versions with
  | [] => false
  | crdVersion :: rest =>
      if bool_decide (apiextensionsv1.Name crdVersion = version)
         && apiextensionsv1.Served crdVersion
      then true
      else servedAt version rest
  end.

(** The outer loop. After a failed [Get] that is not ignored the name
    is missing; after an ignored one the definition at hand is the
    empty one, with no versions. *)
Fixpoint crdLoop (names : list string) (missing : list string)
  : St Cluster (list string) :=
  match names with
  | [] => sret missing
  | crdName :: rest =>
      r <<- client_GetCRD crdName;;
      let err := match r with inl _ => None | inr e => Some e end in
      let versions := match r with inl vs => vs | inr _ => [] end in
      if bool_decide (client_IgnoreAlreadyExists err <> None)
      then crdLoop rest (missing ++ [crdName])
      else
        let version := GetMCOASupportedCRDVersion crdName in
        if servedAt version versions then crdLoop rest missing
        else crdLoop rest (missing ++ [crdName])
  end.

Definition missingCRDsMessage (missing : list string) : string :=
  let missingVersions :=
    (fun name =>
       String.append name
         (String.append "(" (String.append (GetMCOASupportedCRDVersion name) ")")))
      <$> missing in
  String.append
    "MultiCluster-Observability-Addon degraded because the following CRDs are not installed on the hub: "
    (strings_Join missingVersions ", ").

Definition mcoaCRDsInstalled (mco : mcov1beta2.MultiClusterObservability)
  : St Cluster (option error) :=
  match mcov1beta2.Capabilities (mcov1beta2.Spec mco) with
  | None => sret None
  | Some capabilities =>
      if bool_decide (mcov1beta2.Platform capabilities = None)
         && bool_decide (mcov1beta2.UserWorkloads capabilities = None)
      then sret None
      else
        missing <<- crdLoop GetMCOASupportedCRDNames [];;
        if (length missing =? 0)%nat then sret None
        else
          sret (Some (Degraded
                        {| DReason := mcov1beta2.ReasonMCOAMissingCRDs;
                           DMessage := missingCRDsMessage missing;
                           Requeue := false |}))
  end.

(** [mco.Spec.StorageConfig.MetricObjectStorage] and
    [objStorageConf.Name] go through two pointers. *)
Definition checkObjStorageStatus (mco : mcov1beta2.MultiClusterObservability)
  : St Cluster (option error) :=
  storageConfig <<- slift (deref (mcov1beta2.StorageConfig (mcov1beta2.Spec mco)));;
  objStorageConf <<- slift (deref (mcov1beta2.MetricObjectStorage storageConfig));;
  r <<- client_GetSecret (shared.Name objStorageConf);;
  match r with
  | inr err =>
      if apierrors_IsNotFound err then
        sret (Some (Degraded
                      {| DReason := mcov1beta2.ReasonMissingObjectStorageSecret;
                         DMessage := "Missing object storage secret";
                         Requeue := false |}))
      else sret (Some (Wrapped "failed to lookup object storage secret" (ApiErr err)))
  | inl secret =>
      match CheckObjStorageConf (shared.Key objStorageConf) secret with
      | Some msg =>
          sret (Some (Degraded
                        {| DMessage :=
                             String.append "Invalid object storage secret contents: " msg;
                           DReason := mcov1beta2.ReasonInvalidObjectStorageSecret;
                           Requeue := false |}))
      | None => sret None
      end
  end.

Definition checkReadyStatus (mco : mcov1beta2.MultiClusterObservability)
  : St Cluster (option error) :=
  e <<- mcoaCRDsInstalled mco;;
  match e with
  | Some err => sret (Some err)
  | None =>
      e <<- checkObjStorageStatus mco;;
      match e with
      | Some err => sret (Some err)
      | None => sret None
      end
  end.
End Readiness.

(** ** The S3 configuration check of package [config] *)

Module config.
(** The fields of [Config] and [ObjectStorgeConf] that the check
    reads. *)
Record Config : Type := mkConfig {
  Bucket : string;
  Endpoint : string
}.

Record ObjectStorgeConf : Type := mkObjectStorgeConf {
  Type_ : string;
  Config_ : Config
}.

Inductive S3Error : Type :=
  | YamlError (msg : string)
  | Message (msg : string).
End config.

(** [yaml.Unmarshal] into an [ObjectStorgeConf], and the lower-casing
    of [strings.ToLower] outside ASCII. *)
Class S3Imports : Type := {
  yaml_Unmarshal : bytes -> config.ObjectStorgeConf + string;
  unicode_ToLower : string -> string
}.

Definition isASCII (c : Ascii.ascii) : bool := (Ascii.nat_of_ascii c <? 128)%nat.

Definition lowerASCII (c : Ascii.ascii) : Ascii.ascii :=
  let n := Ascii.nat_of_ascii c in
  if (65 <=? n)%nat && (n <=? 90)%nat then Ascii.ascii_of_nat (n + 32) else c.

Fixpoint allASCII (s : string) : bool :=
  match s with
  | EmptyString => true
  | String c rest => isASCII c && allASCII rest
  end.

Fixpoint lowerBytes (s : string) : string :=
  match s with
  | EmptyString => EmptyString
  | String c rest => String (lowerASCII c) (lowerBytes rest)
  end.

Section S3.
Context `{S3Imports}.

(** [strings.ToLower]: byte by byte on an ASCII string. *)
Definition strings_ToLower (s : string) : string :=
  if allASCII s then lowerBytes s else unicode_ToLower s.

Definition validateS3 (conf : config.Config) : option config.S3Error :=
  if bool_decide (config.Bucket conf = "") then
    Some (config.Message "no s3 bucket in config file")
  else if bool_decide (config.Endpoint conf = "") then
    Some (config.Message "no s3 endpoint in config file")
  else None.

Definition IsValidS3Conf (data : bytes) : option config.S3Error :=
  match yaml_Unmarshal data with
  | inr err => Some (config.YamlError err)
  | inl objectConfg =>
      if bool_decide (strings_ToLower (config.Type_ objectConfg) <> "s3") then
        Some (config.Message "invalid type config, only s3 type is supported")
      else
        match validateS3 (config.Config_ objectConfg) with
        | Some err => Some err
        | None => None
        end
  end.
End S3.

(** ** An instance for the examples *)

Module ToyStatus.
Definition constants : mcov1beta2.Constants :=
  {| mcov1beta2.PodFailed := "Failed";
     mcov1beta2.PodPending := "Pending";
     mcov1beta2.PodRunning := "Running";
     mcov1beta2.PodReady := "Ready";
     mcov1beta2.PodStatusUnknown := "Unknown";
     mcov1beta2.ConditionReady := "Ready";
     mcov1beta2.ConditionPending := "Pending";
     mcov1beta2.ConditionFailed := "Failed";
     mcov1beta2.ConditionDegraded := "Degraded";
     mcov1beta2.ReasonFailedComponents := "FailedComponents";
     mcov1beta2.ReasonPendingComponents := "PendingComponents";
     mcov1beta2.ReasonReadyComponents := "ReadyComponents";
     mcov1beta2.ReasonMetricsDisabled := "MetricsDisabled";
     mcov1beta2.ReasonMCOAMissingCRDs := "MultiClusterObservabilityAddonsMissingCRDs";
     mcov1beta2.ReasonMissingObjectStorageSecret := "MissingObjectStorageSecret";
     mcov1beta2.ReasonInvalidObjectStorageSecret := "InvalidObjectStorageSecret" |}.

(** The configuration is valid when the secret has the entry. *)
Definition controllerConfig : ControllerConfig :=
  {| GetDefaultNamespace := "open-cluster-management-observability";
     ComponentLabels := fun component instanceName =>
       {[ "app.kubernetes.io/name" := component;
          "app.kubernetes.io/instance" := instanceName ]};
     config_MultiClusterObservabilityAddon := "multicluster-observability-addon";
     GetMCOASupportedCRDNames :=
       ["clusterlogforwarders.observability.openshift.io";
        "opentelemetrycollectors.opentelemetry.io"];
     GetMCOASupportedCRDVersion := fun name =>
       if String.eqb name "opentelemetrycollectors.opentelemetry.io" then "v1beta1"
       else "v1";
     CheckObjStorageConf := fun key secret =>
       match Data secret !! key with
       | Some _ => None
       | None => Some "no such key"
       end |}.

(** The active conditions, stamped, before the others. *)
Definition helpers : StatusHelpers :=
  {| mergeConditions := fun old active now =>
       ((fun c => metav1.mkCondition (metav1.Type_ c) metav1.ConditionTrue (Some now)
                    (metav1.Reason c) (metav1.Message c)) <$> active)
       ++ List.filter
            (fun c => negb (existsb (fun a => String.eqb (metav1.Type_ a) (metav1.Type_ c))
                              active)) old |}.

Definition addonPod (name phase : string) (ready : list bool) : corev1.Pod :=
  corev1.mkPod name "open-cluster-management-observability"
    {[ "app.kubernetes.io/name" := "multicluster-observability-addon";
       "app.kubernetes.io/instance" := "observability" ]}
    phase (corev1.mkContainerStatus <$> ready).

Definition noComponents : mcov1beta2.MultiClusterObservabilityComponentStatus :=
  mcov1beta2.mkComponents ∅ ∅ ∅ ∅ ∅ ∅ ∅ ∅ ∅ ∅ ∅ ∅ ∅ ∅.

Definition storage : shared.PreConfiguredStorage :=
  shared.mkStorage "thanos.yaml" "thanos-object-storage" "" "" false.

Definition instance (metrics : bool) (caps : option mcov1beta2.CapabilitiesSpec)
  : mcov1beta2.MultiClusterObservability :=
  mcov1beta2.mkMCO "observability"
    (mcov1beta2.mkSpec (Some (shared.mkAddonSpec metrics 300)) caps
       (Some (mcov1beta2.mkStorageConfig (Some storage))))
    (mcov1beta2.mkStatus [] noComponents).

Definition never : nat -> ApiCall -> option ApiError := fun _ _ => None.

(** A cluster with the instance and three addon pods: one ready, one
    running with a container that is not ready, one that has
    succeeded; and a pod of another component that has failed. *)
Definition cluster (failing : nat -> ApiCall -> option ApiError) : Cluster :=
  {| instances := {[ "observability" := instance true None ]};
     pods := [addonPod "addon-a" "Running" [true; true];
              addonPod "addon-b" "Running" [true; false];
              addonPod "addon-c" "Succeeded" [];
              corev1.mkPod "grafana-0" "open-cluster-management-observability"
                {[ "app.kubernetes.io/name" := "grafana" ]} "Failed" []];
     crds := {[ "clusterlogforwarders.observability.openshift.io" :=
                  [apiextensionsv1.mkVersion "v1" true];
                "opentelemetrycollectors.opentelemetry.io" :=
                  [apiextensionsv1.mkVersion "v1alpha1" true;
                   apiextensionsv1.mkVersion "v1beta1" false] ]};
     objSecrets := {[ "thanos-object-storage" :=
                        mkSecret "thanos-object-storage" ∅ None {[ "thanos.yaml" := [] ]} ]};
     trace := [];
     failing := failing |}.

(** The first two status updates meet a conflict. *)
Definition twoConflicts : nat -> ApiCall -> option ApiError :=
  fun n op =>
    match op with
    | UpdateStatus _ => if (n <? 5)%nat then Some Conflict else None
    | _ => None
    end.

(** Every status update meets a conflict. *)
Definition alwaysConflict : nat -> ApiCall -> option ApiError :=
  fun n op => match op with UpdateStatus _ => Some Conflict | _ => None end.
End ToyStatus.

(** ** Words for the properties of these packages *)

(** The instance switches the collection of metrics off. *)
Definition metricsDisabled (stack : mcov1beta2.MultiClusterObservability) : Prop :=
  match mcov1beta2.ObservabilityAddonSpec (mcov1beta2.Spec stack) with
  | Some a => shared.EnableMetrics a = false
  | None => False
  end.

Definition isStatusUpdate (op : ApiCall) : bool :=
  match op with UpdateStatus _ => true | _ => false end.
Definition isListPods (op : ApiCall) : bool :=
  match op with ListPods => true | _ => false end.

(** A running pod with a container that is not ready. *)
Definition runningUnready (p : corev1.Pod) : bool :=
  bool_decide (corev1.Phase p = corev1.PodRunning)
  && negb (forallb corev1.Ready (corev1.ContainerStatuses p)).

(** The cluster after one more call. *)
Definition logged (c : Cluster) (op : ApiCall) : Cluster :=
  mkCluster (instances c) (pods c) (crds c) (objSecrets c) (trace c ++ [op]) (failing c).

(** From [c] to [c'] the calls [ops] were made, and the pods, the
    definitions, the secrets and the failures are the same. *)
Definition extends (c c' : Cluster) (ops : list ApiCall) : Prop :=
  trace c' = trace c ++ ops
  /\ pods c' = pods c /\ crds c' = crds c /\ objSecrets c' = objSecrets c
  /\ failing c' = failing c.

Section ReadinessWords.
Context `{ControllerConfig}.

(** The definition [name] can be read and has a served version of
    the supported name. *)
Definition crdServed (c : Cluster) (name : string) : bool :=
  bool_decide (failing c 0 (GetCRD name) = None)
  && match crds c !! name with
     | Some versions =>
         existsb (fun v => bool_decide (apiextensionsv1.Name v
                                        = GetMCOASupportedCRDVersion name)
                           && apiextensionsv1.Served v) versions
     | None => false
     end.

(** The instance asks for a capability of the addon. *)
Definition wantsAddon (mco : mcov1beta2.MultiClusterObservability) : bool :=
  match mcov1beta2.Capabilities (mcov1beta2.Spec mco) with
  | None => false
  | Some capabilities =>
      negb (bool_decide (mcov1beta2.Platform capabilities = None)
            && bool_decide (mcov1beta2.UserWorkloads capabilities = None))
  end.

(** The answer to a [Get] of a definition does not change with
    time. *)
Definition steadyCRDs (c : Cluster) : Prop :=
  forall n name, failing c n (GetCRD name) = failing c 0 (GetCRD name).
End ReadinessWords.

(** ** An instance of the imports of the S3 check for the examples:
    every document decodes to the same configuration, with the type in
    upper case. *)

Module ToyS3.
Definition document : config.ObjectStorgeConf :=
  config.mkObjectStorgeConf "S3" (config.mkConfig "thanos" "s3.example.com").

Definition imports : S3Imports :=
  {| yaml_Unmarshal := fun _ => inl document;
     unicode_ToLower := fun s => s |}.
End ToyS3.

(** * Properties *)

(** A decidable statement that evaluates to true. *)
Ltac decided := refine (bool_decide_unpack _ _); vm_compute; exact I.

(** Reading an entry of a [Data] map after some assignments. *)
Ltac data_entry :=
  repeat first
    [ rewrite lookup_total_insert_eq
    | rewrite lookup_total_insert_ne by done
    | rewrite lookup_total_singleton ].

(** A run that has reached its last [ret] or [panic]. *)
Ltac run_ends H :=
  cbn [negb IsNotFound deref rbind] in H; unfold ret, panic, lift in H; congruence.

(** ** Slices *)

Section SliceFacts.
Context {A : Type}.
Implicit Types (s : slice A) (xs : list A).

Lemma elems_literal xs : elems (literal xs) = xs.
Proof. unfold elems, literal; simpl. apply firstn_all. Qed.

Lemma wf_literal xs : wf (literal xs).
Proof. unfold wf, literal, cap. cbn [arr len]. lia. Qed.

Lemma length_elems s : wf s -> length (elems s) = len s.
Proof. unfold wf, elems, cap. intros Hwf. rewrite length_take. lia. Qed.

Lemma length_overwrite (mem : list A) k xs :
  (k + length xs <= length mem)%nat -> length (overwrite mem k xs) = length mem.
Proof.
  intros Hle. unfold overwrite.
  rewrite !length_app, length_take, length_drop. lia.
Qed.

Lemma take_overwrite (mem : list A) k xs :
  (k <= length mem)%nat ->
  take (k + length xs) (overwrite mem k xs) = take k mem ++ xs.
Proof.
  intros Hle. unfold overwrite.
  rewrite app_assoc.
  rewrite take_app_le by (rewrite length_app, length_take; lia).
  apply take_ge. rewrite length_app, length_take. lia.
Qed.

Lemma drop_overwrite (mem : list A) k xs j :
  (k + length xs <= j)%nat -> (k <= length mem)%nat ->
  drop j (overwrite mem k xs) = drop j mem.
Proof.
  intros Hj Hk. unfold overwrite.
  rewrite app_assoc.
  rewrite drop_app_ge by (rewrite length_app, length_take; lia).
  rewrite length_app, length_take, drop_drop.
  f_equal. lia.
Qed.

(** Whether [append] writes in place or moves to a fresh array, the
    elements are those of the slice followed by the appended ones. *)
Lemma elems_append s xs : wf s -> elems (append s xs) = elems s ++ xs.
Proof.
  unfold wf, cap. intros Hwf. unfold append, cap.
  destruct (len s + length xs <=? length (arr s))%nat eqn:Hfit; unfold elems; simpl.
  - apply take_overwrite. lia.
  - apply take_ge. rewrite length_app, length_take. lia.
Qed.

Lemma len_append s xs : len (append s xs) = (len s + length xs)%nat.
Proof. unfold append. by destruct (_ <=? _)%nat. Qed.

Lemma wf_append s xs : wf s -> wf (append s xs).
Proof.
  unfold wf, cap. intros Hwf. unfold append, cap.
  destruct (len s + length xs <=? length (arr s))%nat eqn:Hfit; simpl.
  - apply Nat.leb_le in Hfit. rewrite length_overwrite; lia.
  - unfold elems. rewrite length_app, length_take. lia.
Qed.
End SliceFacts.

(** ** Certificate factory *)

Section FactoryFacts.
Context `{Libraries} `{Config}.

Lemma leafDNSNames_elems cn dns :
  suppliedDNS dns ->
  exists names, leafDNSNames cn dns = Done names /\ elems names = cn :: rangeOf dns.
Proof.
  destruct dns as [[a l]|]; cbn [suppliedDNS leafDNSNames rangeOf].
  - unfold wf, cap; cbn [arr len]. intros [Hwf Hlen].
    destruct a as [|x a']; cbn [length] in Hwf; [lia|].
    unfold upto, cap; cbn [arr length Nat.leb rbind].
    unfold store. rewrite len_append. cbn [len Nat.add Nat.ltb Nat.leb].
    eexists; split; [reflexivity|].
    unfold elems at 1; cbn [arr len].
    rewrite take_insert_lt by lia.
    assert (Hl : length (elems (Slice (x :: a') l)) = l).
    { apply length_elems. unfold wf, cap; cbn [arr len length]; lia. }
    pose proof (elems_append (Slice (x :: a') 1) (elems (Slice (x :: a') l))) as Hel.
    unfold elems at 1 in Hel. rewrite len_append, Hl in Hel. cbn [len Nat.add] in Hel.
    rewrite Hl, Hel by (unfold wf, cap; cbn [arr len length]; lia).
    reflexivity.
  - intros _. eexists; split; [reflexivity|]. apply elems_literal.
Qed.

Lemma leafTemplate_names isServer cn ou dns ips sn t1 t2 :
  suppliedDNS dns ->
  exists tmpl, leafTemplate isServer cn ou dns ips sn t1 t2 = Done tmpl
    /\ DNSNames tmpl = cn :: rangeOf dns /\ SerialNumber tmpl = sn.
Proof.
  intros Hdns. destruct (leafDNSNames_elems cn dns Hdns) as (names & Hrun & Hel).
  unfold leafTemplate. rewrite Hrun. cbn [rbind].
  eexists; split; [reflexivity|]. cbn [DNSNames SerialNumber]. by rewrite Hel.
Qed.

(** C1: a leaf certificate is issued from a template whose DNS names
    are [commonName] followed by the whole supplied list in its order,
    one longer than the supplied list and without deduplication (a
    supplied [commonName] at index [i] is there again at index
    [i + 1]); without a supplied list the names are [[commonName]].
    Issuance does not panic on the list. *)
Theorem C1_leaf_dns_names isServer cn ou dns ips caCert caKey key w :
  suppliedDNS dns ->
  match createCertificate isServer cn ou dns ips caCert caKey key w with
  | (Done (inl (_, certBytes)), _) =>
      exists tmpl k,
        x509_CreateCertificate tmpl caCert k caKey = inl certBytes
        /\ DNSNames tmpl = cn :: rangeOf dns
        /\ length (DNSNames tmpl) = S (length (rangeOf dns))
        /\ (dns = None -> DNSNames tmpl = [cn])
        /\ (forall i : nat, rangeOf dns !! i = Some cn ->
             DNSNames tmpl !! 0%nat = Some cn /\ DNSNames tmpl !! S i = Some cn)
  | (Done (inr _), _) => True
  | _ => False
  end.
Proof.
  intros Hdns. unfold createCertificate, bind at 1.
  destruct (rand_Int serialNumberLimit w) as [[[sn|err]| |] w1] eqn:Hrand;
    try (unfold rand_Int in Hrand; destruct (entropy w); discriminate).
  2: { exact I. }
  unfold bind, time_Now, lift.
  destruct (leafTemplate_names isServer cn ou dns ips sn (now w1) (now w1) Hdns)
    as (tmpl & Htmpl & Hnames & _).
  rewrite Htmpl.
  destruct (keyOrFresh key w1) as [[[k|err]| |] w2] eqn:Hkey;
    try (unfold keyOrFresh, rsa_GenerateKey, ret in Hkey;
         destruct key; [|destruct (entropy w1)]; discriminate).
  2: { exact I. }
  destruct (x509_CreateCertificate tmpl caCert k caKey) as [certBytes|err] eqn:Hsign;
    unfold ret; [|exact I].
  exists tmpl, k. rewrite Hnames. repeat split; try done.
  intros ->. reflexivity.
Qed.
End FactoryFacts.

(** C1 on the small instance: the common name is also the first
    supplied name and is kept twice. *)
Lemma C1_leaf_dns_names_witness :
  suppliedDNS (Some (literal ["server-cn"; "host1"; "server-cn"]))
  /\ match @createCertificate Toy.libs Toy.config true "server-cn" None
            (Some (literal ["server-cn"; "host1"; "server-cn"])) None
            (@caTemplate Toy.config "ca" 1 0 0) 7 None Toy.emptyWorld with
     | (Done (inl (_, certBytes)), _) =>
         exists tmpl k,
           @x509_CreateCertificate Toy.libs tmpl (@caTemplate Toy.config "ca" 1 0 0) k 7
             = inl certBytes
           /\ DNSNames tmpl = ["server-cn"; "server-cn"; "host1"; "server-cn"]
     | _ => False
     end.
Proof.
  assert (Hdns : suppliedDNS (Some (literal ["server-cn"; "host1"; "server-cn"]))).
  { split; [unfold wf, cap; simpl; lia | simpl; lia]. }
  split; [exact Hdns|].
  pose proof (@C1_leaf_dns_names Toy.libs Toy.config true "server-cn" None
                (Some (literal ["server-cn"; "host1"; "server-cn"])) None
                (@caTemplate Toy.config "ca" 1 0 0) 7 None Toy.emptyWorld Hdns) as Hthm.
  destruct (@createCertificate Toy.libs Toy.config true "server-cn" None
              (Some (literal ["server-cn"; "host1"; "server-cn"])) None
              (@caTemplate Toy.config "ca" 1 0 0) 7 None Toy.emptyWorld)
    as [[[[keyBytes certBytes]|err]| |] w'] eqn:Hrun; try discriminate Hrun; try exact Hthm.
  destruct Hthm as (tmpl & k & Hsign & Hnames & _).
  exists tmpl, k. split; [exact Hsign|exact Hnames].
Defined.

(** ** Pruning *)

Section PruneFacts.
Context `{Libraries}.

Lemma Chain_nil_inv segs : Chain [] segs -> segs = [].
Proof.
  inversion 1 as [|seg blk rest segs' Hne Hdec Hrest Happ]; [done|].
  destruct seg; [done|discriminate].
Qed.

Lemma Chain_no_segs data : Chain data [] -> data = [].
Proof. by inversion 1. Qed.

Lemma Chain_cons_inv data sb segs :
  Chain data (sb :: segs) ->
  exists rest, data = fst sb ++ rest /\ fst sb <> []
    /\ pem_Decode data = (Some (snd sb), rest) /\ Chain rest segs.
Proof.
  inversion 1 as [|seg blk rest segs' Hne Hdec Hrest Happ]; subst.
  exists rest. by cbn.
Qed.

Lemma Chain_length data segs : Chain data segs -> (length segs <= length data)%nat.
Proof.
  induction 1 as [|seg blk rest segs Hne Hdec Hrest IH]; [done|].
  rewrite length_app; cbn [length].
  destruct seg; [done|]. cbn [length]. lia.
Qed.

Lemma Chain_concat data segs : Chain data segs -> data = concat (fst <$> segs).
Proof.
  induction 1 as [|seg blk rest segs Hne Hdec Hrest IH]; [done|].
  cbn. by rewrite <- IH.
Qed.

Lemma removeFlagOf_dropped t sb :
  holdsCertificate sb -> removeFlagOf t (snd sb) = Done (dropped t (snd sb)).
Proof.
  unfold holdsCertificate, removeFlagOf, dropped, parseFails, notAfterPassed.
  destruct (x509_ParseCertificates (Bytes (snd sb))) as [[|c certs]|]; try done.
  intros _. cbn. by rewrite Z.gtb_ltb.
Qed.

(** The bytes of the array between [i] and [i + length seg], when the
    view of its first [n] cells from [i] on starts with [seg]. *)
Lemma take_drop_view (mem : bytes) n i seg rest :
  drop i (take n mem) = seg ++ rest ->
  take (length seg) (drop i mem) = seg.
Proof.
  intros Hview.
  destruct (decide (seg = [])) as [->|Hne]; [apply take_0|].
  assert (Hlen : (i + length seg <= n)%nat).
  { apply (f_equal length) in Hview.
    rewrite length_drop, length_take, length_app in Hview.
    destruct seg; [done|]. cbn [length] in *. lia. }
  rewrite take_drop_commute.
  replace (take (i + length seg) mem) with (take (i + length seg) (take n mem))
    by (rewrite take_take; f_equal; lia).
  rewrite <- take_drop_commute, Hview. apply take_app_length.
Qed.

Lemma drop_view_rest (mem : bytes) n i seg rest :
  drop i (take n mem) = seg ++ rest ->
  drop (i + length seg) (take n mem) = rest.
Proof.
  intros Hview. rewrite <- drop_drop, Hview. apply drop_app_length.
Qed.

Lemma take_overwrite_above (mem : bytes) k xs n :
  (k + length xs <= n)%nat -> (n <= length mem)%nat ->
  forall j, (k + length xs <= j)%nat ->
  drop j (take n (overwrite mem k xs)) = drop j (take n mem).
Proof.
  intros Hk Hn j Hj.
  destruct (decide (j <= n)%nat) as [Hjn|Hjn].
  - replace n with (j + (n - j))%nat by lia.
    rewrite <- !take_drop_commute. f_equal. apply drop_overwrite; lia.
  - rewrite !drop_ge; [done| |]; rewrite length_take; lia.
Qed.

Lemma survivors_cons t sb segs :
  survivors t (sb :: segs)
  = if dropped t (snd sb) then survivors t segs else sb :: survivors t segs.
Proof. unfold survivors; cbn. by destruct (dropped t (snd sb)). Qed.

(** The loop on a chain: while the kept slice lives in the array of
    [data], every kept block is copied below the bytes still to be
    read, so the blocks read later are the original ones. *)
Lemma pruneLoop_chain t n rest segs :
  Chain rest segs -> segs <> [] -> Forall holdsCertificate segs ->
  forall fuel mem rl,
    (length segs <= fuel)%nat ->
    (rl + length rest <= n)%nat ->
    (n <= length mem)%nat ->
    drop (n - length rest) (take n mem) = rest ->
    exists st',
      pruneLoop fuel t n (mkPrune mem (Slice mem rl) true) (length rest) = Done st'
      /\ elems (kept st') = take rl mem ++ concat (fst <$> survivors t segs)
      /\ len (kept st') = (rl + length (concat (fst <$> survivors t segs)))%nat.
Proof.
  induction 1 as [|seg blk rest segs Hne Hdec Hrest IH]; [done|].
  intros _ Hcert fuel mem rl Hfuel Hrl Hn Hview.
  apply Forall_cons in Hcert as [Hblk Hcert].
  rewrite length_app in Hrl, Hview.
  destruct fuel as [|fuel]; [cbn [length] in Hfuel; lia|].
  cbn [length] in Hfuel.
  cbn [pruneLoop dataArr]. rewrite length_app, Hview, Hdec.
  cbn [deref rbind].
  pose proof (removeFlagOf_dropped t (seg, blk) Hblk) as Hflag.
  cbn [snd] in Hflag. rewrite Hflag. cbn [rbind].
  assert (Hidx : (n - length rest - (n - (length seg + length rest)) = length seg)%nat)
    by lia.
  rewrite Hidx, (take_drop_view mem n _ seg rest Hview).
  assert (Hrest' : drop (n - length rest) (take n mem) = rest).
  { replace (n - length rest)%nat
      with (n - (length seg + length rest) + length seg)%nat by lia.
    by apply drop_view_rest. }
  rewrite survivors_cons. cbn [snd].
  assert (Hkeep : appendKept (mkPrune mem (Slice mem rl) true) seg
                  = mkPrune (overwrite mem rl seg)
                      (Slice (overwrite mem rl seg) (rl + length seg)) true).
  { unfold appendKept, append, cap. cbn [kept aliased arr len andb dataArr].
    destruct (rl + length seg <=? length mem)%nat eqn:Hfit;
      [done | apply Nat.leb_gt in Hfit; lia]. }
  destruct (dropped t blk); cbn [negb].
  - (* the block is dropped *)
    destruct (length rest =? 0)%nat eqn:Hz.
    + apply Nat.eqb_eq, length_zero_iff_nil in Hz. subst rest.
      apply Chain_nil_inv in Hrest. subst segs.
      eexists; split; [reflexivity|]. unfold elems; cbn.
      split; [by rewrite app_nil_r|lia].
    + apply Nat.eqb_neq in Hz.
      apply (IH ltac:(intros ->; apply Chain_no_segs in Hrest; by subst)
               Hcert fuel mem rl); [lia..|done].
  - (* the block is kept: it is written at [rl], below [n - length rest] *)
    rewrite Hkeep.
    destruct (length rest =? 0)%nat eqn:Hz.
    + apply Nat.eqb_eq, length_zero_iff_nil in Hz. subst rest.
      apply Chain_nil_inv in Hrest. subst segs.
      eexists; split; [reflexivity|]. unfold elems; cbn [kept arr len].
      rewrite take_overwrite by lia. cbn. rewrite !app_nil_r. done.
    + apply Nat.eqb_neq in Hz.
      destruct (IH ltac:(intros ->; apply Chain_no_segs in Hrest; by subst)
                  Hcert fuel (overwrite mem rl seg) (rl + length seg)%nat)
        as (st' & Hrun & Hel & Hlen); [lia|lia| |  |].
      * rewrite length_overwrite; lia.
      * rewrite take_overwrite_above; [done|lia..].
      * exists st'. split; [done|].
        rewrite Hel, Hlen, take_overwrite by lia. cbn.
        rewrite <- app_assoc, length_app. split; [done|lia].
Qed.

Lemma pruneChain_chain t d seg0 b0 segs :
  wf d ->
  Chain (elems d) ((seg0, b0) :: segs) ->
  Forall holdsCertificate segs ->
  exists chain,
    pruneChain t d = Done chain
    /\ elems chain = seg0 ++ concat (fst <$> survivors t segs)
    /\ len chain = length (seg0 ++ concat (fst <$> survivors t segs)).
Proof.
  intros Hwf Hchain Hcert.
  inversion Hchain as [|seg blk rest segs' Hne Hdec Hrest Hdata]; subst.
  pose proof (length_elems d Hwf) as Hlen.
  rewrite <- Hdata, length_app in Hlen.
  unfold wf, cap in Hwf.
  unfold pruneChain. rewrite <- Hdata, Hdec.
  assert (Hfirst : take (len d - length rest) (arr d) = seg0).
  { replace (len d - length rest)%nat with (length seg0) by lia.
    transitivity (take (length seg0) (elems d)).
    - unfold elems. rewrite take_take. f_equal. lia.
    - rewrite <- Hdata. apply take_app_length. }
  destruct (0 <? length rest)%nat eqn:Hpos.
  - apply Nat.ltb_lt in Hpos.
    destruct (pruneLoop_chain t (len d) rest segs Hrest
                ltac:(intros ->; apply Chain_no_segs in Hrest; subst; cbn in Hpos; lia)
                Hcert (len d) (arr d) (len d - length rest)%nat)
      as (st' & Hrun & Hel & Hlen').
    + apply Chain_length in Hrest. lia.
    + lia.
    + lia.
    + replace (len d - length rest)%nat with (length seg0) by lia.
      fold (elems d). rewrite <- Hdata. apply drop_app_length.
    + rewrite Hrun. cbn [rbind]. exists (kept st'). split; [done|].
      rewrite Hel, Hfirst, Hlen', length_app. split; [done|lia].
  - apply Nat.ltb_ge in Hpos.
    assert (rest = []) as -> by (apply length_zero_iff_nil; lia).
    apply Chain_nil_inv in Hrest. subst segs.
    eexists; split; [reflexivity|].
    unfold elems; cbn [kept arr len]. rewrite Hfirst. cbn in *.
    rewrite app_nil_r. split; [done|lia].
Qed.

Lemma survivors_length t rest segs :
  Chain rest segs ->
  (length (concat (fst <$> survivors t segs)) <= length rest)%nat.
Proof.
  induction 1 as [|seg blk rest segs Hne Hdec Hrest IH]; [done|].
  rewrite survivors_cons, length_app. cbn [snd].
  destruct (dropped t blk); cbn; [lia|]. rewrite length_app. lia.
Qed.

(** Pruning that leaves the length unchanged dropped nothing. *)
Lemma survivors_all t rest segs :
  Chain rest segs ->
  length (concat (fst <$> survivors t segs)) = length rest ->
  survivors t segs = segs.
Proof.
  induction 1 as [|seg blk rest segs Hne Hdec Hrest IH]; [done|].
  rewrite survivors_cons, length_app. cbn [snd].
  pose proof (survivors_length t rest segs Hrest) as Hle.
  destruct (dropped t blk); cbn.
  - intros Hlen. destruct seg; [done|]. cbn [length] in Hlen. lia.
  - rewrite length_app. intros Hlen. f_equal. apply IH. lia.
Qed.

Lemma survivors_spec t segs sb :
  sb ∈ survivors t segs <-> sb ∈ segs /\ dropped t (snd sb) = false.
Proof.
  unfold survivors. rewrite !list_elem_of_In, filter_In.
  by rewrite negb_true_iff.
Qed.

(** What [removeExpiredCA] does once the secret is read and the chain
    pruned. *)
Lemma removeExpiredCA_run name w s chain :
  secrets w !! name = Some s ->
  fault w (OpGet name) = false ->
  Data s <> ∅ ->
  pruneChain (now w) (literal (Data s !!! "tls.crt")) = Done chain ->
  removeExpiredCA name w =
    if (length (Data s !!! "tls.crt") =? len chain)%nat then (Done tt, w)
    else
      let s' := mkSecret name (Labels s) (Owner s) (<["tls.crt" := elems chain]> (Data s)) in
      let w1 := logCall w (OpUpdate name) in
      if fault w (OpUpdate name) then (Done tt, w1)
      else (Done tt, setSecrets w1 (<[name := s']> (secrets w))).
Proof.
  intros Hget Hfault Hdata Hprune.
  unfold removeExpiredCA, bind at 1, client_Get. rewrite Hfault, Hget.
  cbn [Data]. rewrite bool_decide_eq_false_2 by done.
  unfold bind, time_Now, lift. rewrite Hprune.
  destruct (length (Data s !!! "tls.crt") =? len chain)%nat; cbn [negb]; [done|].
  unfold client_Update, withData, ret. cbn [SName logCall fault secrets Data Labels Owner].
  destruct (fault w (OpUpdate name)); [done|].
  by rewrite Hget.
Qed.

(** Pruning a chain of PEM blocks whose later blocks each fail to
    parse or hold a certificate: the first block is kept whatever it
    holds; a later block is dropped exactly when it fails to parse or
    its [notAfter] is before the time of the run; the stored result is
    the first block followed by the surviving blocks, each with its
    original bytes, in their original order. *)
Theorem X26_prune_selective name w s seg0 b0 segs :
  secrets w !! name = Some s ->
  fault w (OpGet name) = false ->
  fault w (OpUpdate name) = false ->
  Chain (Data s !!! "tls.crt") ((seg0, b0) :: segs) ->
  Forall holdsCertificate segs ->
  exists w' s',
    removeExpiredCA name w = (Done tt, w')
    /\ secrets w' !! name = Some s'
    /\ Data s' !!! "tls.crt" = seg0 ++ concat (fst <$> survivors (now w) segs)
    /\ (forall sb, sb ∈ segs ->
         (sb ∈ survivors (now w) segs <->
          parseFails (snd sb) = false /\ notAfterPassed (now w) (snd sb) = false)).
Proof.
  intros Hget Hfg Hfu Hchain Hcert.
  assert (Hdata : Data s <> ∅).
  { intros Hempty.
    destruct (Chain_cons_inv _ _ _ Hchain) as (rest & Happ & Hne & _).
    rewrite Hempty, lookup_total_empty in Happ. cbn [fst] in *.
    destruct seg0; [done|discriminate]. }
  destruct (pruneChain_chain (now w) (literal (Data s !!! "tls.crt")) seg0 b0 segs)
    as (chain & Hprune & Hel & Hlen).
  { unfold wf, cap, literal; cbn. lia. }
  { by rewrite elems_literal. }
  { done. }
  assert (Hmember : forall sb, sb ∈ segs ->
            (sb ∈ survivors (now w) segs <->
             parseFails (snd sb) = false /\ notAfterPassed (now w) (snd sb) = false)).
  { intros sb Hin. rewrite survivors_spec. unfold dropped.
    rewrite orb_false_iff. tauto. }
  rewrite (removeExpiredCA_run name w s chain Hget Hfg Hdata Hprune), Hfu.
  destruct (length (Data s !!! "tls.crt") =? len chain)%nat eqn:Hsame.
  - (* nothing was dropped, nothing is written *)
    exists w, s. repeat split; try done; try (by apply Hmember).
    apply Nat.eqb_eq in Hsame.
    destruct (Chain_cons_inv _ _ _ Hchain) as (rest & Happ & Hne & _ & Hrest).
    cbn [fst] in *. rewrite Happ in *. rewrite length_app in Hsame.
    pose proof (survivors_length (now w) rest segs Hrest) as Hle.
    rewrite length_app in Hlen.
    rewrite (survivors_all (now w) rest segs Hrest) by lia.
    by rewrite <- (Chain_concat rest segs Hrest).
  - eexists _, _. split; [reflexivity|]. cbn [secrets setSecrets].
    rewrite lookup_insert_eq. split; [reflexivity|].
    cbn [Data]. rewrite lookup_total_insert_eq. split; [done|]. apply Hmember.
Qed.

(** The worlds [removeExpiredCA] can end in: the one it started in,
    that world with a failed [Update] logged, or that world with the
    secret's ["tls.crt"] replaced. *)
Lemma removeExpiredCA_worlds name w :
  let w' := snd (removeExpiredCA name w) in
  w' = w
  \/ w' = logCall w (OpUpdate name)
  \/ exists s chain,
       secrets w !! name = Some s
       /\ w' = setSecrets (logCall w (OpUpdate name))
                (<[name := mkSecret name (Labels s) (Owner s)
                             (<["tls.crt" := chain]> (Data s))]> (secrets w)).
Proof.
  cbv zeta. destruct (removeExpiredCA name w) as [r w'] eqn:Hrun. cbn [snd].
  unfold removeExpiredCA, bind at 1, client_Get in Hrun.
  destruct (fault w (OpGet name)); [left; run_ends Hrun|].
  destruct (secrets w !! name) as [s0|] eqn:Hget; [|left; run_ends Hrun].
  cbn [Data] in Hrun.
  destruct (bool_decide (Data s0 = ∅)); [left; run_ends Hrun|].
  unfold bind, time_Now, lift in Hrun.
  destruct (pruneChain (now w) (literal (Data s0 !!! "tls.crt"))) as [chain| |];
    [|left; congruence..].
  destruct (length (Data s0 !!! "tls.crt") =? len chain)%nat; cbn [negb] in Hrun;
    [left; run_ends Hrun|].
  unfold client_Update, withData, ret in Hrun.
  cbn [SName logCall fault secrets Data Labels Owner] in Hrun.
  destruct (fault w (OpUpdate name)); [right; left; congruence|].
  rewrite Hget in Hrun. right; right. exists s0, (elems chain).
  split; [done|congruence].
Qed.

(** C9: once the secret is read and the chain pruned, [Update] is
    called exactly when the length of the new chain differs from the
    length of the stored one; and whatever the run does, every secret
    keeps its labels, its owner and every data entry other than
    ["tls.crt"], so the active certificate ["ca.crt"] and the key
    ["tls.key"] are never modified. *)
Theorem C9_prune_writes_and_frame name w :
  let w' := snd (removeExpiredCA name w) in
  (forall s chain,
      secrets w !! name = Some s ->
      fault w (OpGet name) = false ->
      Data s <> ∅ ->
      pruneChain (now w) (literal (Data s !!! "tls.crt")) = Done chain ->
      calls w' = calls w ++
        (if (length (Data s !!! "tls.crt") =? len chain)%nat then [] else [OpUpdate name]))
  /\ (forall k s, secrets w !! k = Some s ->
        exists s', secrets w' !! k = Some s'
          /\ Labels s' = Labels s /\ Owner s' = Owner s
          /\ (forall f, f <> "tls.crt" -> Data s' !! f = Data s !! f)
          /\ Data s' !!! "ca.crt" = Data s !!! "ca.crt"
          /\ Data s' !!! "tls.key" = Data s !!! "tls.key")
  /\ (forall k, secrets w !! k = None -> secrets w' !! k = None).
Proof.
  cbv zeta. split.
  { intros s chain Hget Hfg Hdata Hprune.
    rewrite (removeExpiredCA_run name w s chain Hget Hfg Hdata Hprune).
    destruct (length (Data s !!! "tls.crt") =? len chain)%nat; cbn [snd].
    - by rewrite app_nil_r.
    - by destruct (fault w (OpUpdate name)). }
  destruct (removeExpiredCA_worlds name w) as [Hw|[Hw|(s0 & chain & Hget & Hw)]];
    cbv zeta in Hw; rewrite Hw; cbn [secrets setSecrets logCall].
  - split; [eauto 10|done].
  - split; [eauto 10|done].
  - split.
    + intros k s Hk. destruct (decide (name = k)) as [->|Hne].
      * rewrite lookup_insert_eq. eexists; split; [reflexivity|].
        rewrite Hget in Hk. injection Hk as ->. cbn [Labels Owner Data].
        repeat split.
        -- intros f Hf. by rewrite lookup_insert_ne.
        -- by rewrite lookup_total_insert_ne.
        -- by rewrite lookup_total_insert_ne.
      * rewrite lookup_insert_ne by done. eauto 10.
    + intros k Hk. rewrite lookup_insert_ne; [done|]. intros ->. congruence.
Qed.
End PruneFacts.

(** The chain of the pruning example, block by block. *)
Lemma pruneWorld_chain :
  @Chain Toy.libs
    (Toy.encode Toy.caLapsed ++ Toy.encode Toy.caOld ++ Toy.encode Toy.caOlder ++ [])
    [(Toy.encode Toy.caLapsed, Toy.caLapsed); (Toy.encode Toy.caOld, Toy.caOld);
     (Toy.encode Toy.caOlder, Toy.caOlder)].
Proof.
  repeat (apply (@Chain_cons Toy.libs); [discriminate | vm_compute; reflexivity |]).
  apply Chain_nil.
Qed.

(** X26 on the example: of three certificates the first stays
    although it has expired, the expired second one goes, and the
    third stays as it was. *)
Lemma X26_prune_selective_witness :
  exists w' s',
    @removeExpiredCA Toy.libs "observability-server-ca-certs" Toy.pruneWorld
      = (Done tt, w')
    /\ secrets w' !! "observability-server-ca-certs" = Some s'
    /\ Data s' !!! "tls.crt" = Toy.encode Toy.caLapsed ++ Toy.encode Toy.caOlder
    /\ @notAfterPassed Toy.libs (now Toy.pruneWorld) Toy.caLapsed = true.
Proof.
  destruct (@X26_prune_selective Toy.libs "observability-server-ca-certs" Toy.pruneWorld
              (Toy.serverCA (Toy.encode Toy.caLapsed ++ Toy.encode Toy.caOld
                               ++ Toy.encode Toy.caOlder))
              (Toy.encode Toy.caLapsed) Toy.caLapsed
              [(Toy.encode Toy.caOld, Toy.caOld); (Toy.encode Toy.caOlder, Toy.caOlder)])
    as (w' & s' & Hrun & Hget & Hdata & _).
  - vm_compute. reflexivity.
  - reflexivity.
  - reflexivity.
  - replace (Data _ !!! "tls.crt")
      with (Toy.encode Toy.caLapsed ++ Toy.encode Toy.caOld ++ Toy.encode Toy.caOlder ++ [])
      by (vm_compute; reflexivity).
    exact pruneWorld_chain.
  - repeat constructor; unfold holdsCertificate; vm_compute; discriminate.
  - exists w', s'. split; [exact Hrun|]. split; [exact Hget|].
    split; [|vm_compute; reflexivity].
    rewrite Hdata. vm_compute. reflexivity.
Defined.

(** C2, where the code falls short of it. The chain of the server CA
    is three PEM blocks, and the second has no bytes:
    [x509.ParseCertificates] returns no error and no certificate for
    it. The block does not fail to parse and holds nothing that has
    expired, so by C2 pruning goes on to the third block and stores a
    chain; the code reads [certs[0]] of the empty list and panics, and
    the stored chain is as it was. *)
Theorem C2_prune_panics_on_hollow_block :
  secrets Cases.hollowChainWorld !! "observability-server-ca-certs"
    = Some (Toy.serverCA Cases.hollowChain)
  /\ @Chain Toy.libs (Cases.hollowChain ++ [])
       [(Toy.encode Toy.caNew, Toy.caNew); (Toy.encode Cases.hollow, Cases.hollow);
        (Toy.encode Toy.caOlder, Toy.caOlder)]
  /\ @x509_ParseCertificates Toy.libs (Bytes Cases.hollow) = Some []
  /\ @dropped Toy.libs (now Cases.hollowChainWorld) Cases.hollow = false
  /\ @dropped Toy.libs (now Cases.hollowChainWorld) Toy.caOlder = false
  /\ @removeExpiredCA Toy.libs "observability-server-ca-certs" Cases.hollowChainWorld
     = (Panicked outOfRange, Cases.hollowChainWorld).
Proof.
  split; [vm_compute; reflexivity|].
  split.
  { unfold Cases.hollowChain. rewrite <- !app_assoc.
    repeat (apply (@Chain_cons Toy.libs); [discriminate | vm_compute; reflexivity |]).
    apply Chain_nil. }
  repeat split; vm_compute; reflexivity.
Qed.

(** C9 on the example: the shorter chain is written back with one
    [Update], and the certificate and the key of the bundle stay. *)
Lemma C9_prune_writes_and_frame_witness :
  calls (snd (@removeExpiredCA Toy.libs "observability-server-ca-certs" Toy.pruneWorld))
    = [OpUpdate "observability-server-ca-certs"]
  /\ exists s',
      secrets (snd (@removeExpiredCA Toy.libs "observability-server-ca-certs"
                      Toy.pruneWorld)) !! "observability-server-ca-certs" = Some s'
      /\ Data s' !!! "ca.crt" = Toy.encode Toy.caNew
      /\ Data s' !!! "tls.key" = Toy.encode (Toy.keyBlock 7).
Proof.
  destruct (@C9_prune_writes_and_frame Toy.libs "observability-server-ca-certs"
              Toy.pruneWorld) as (Hwrites & Hframe & _).
  split.
  - erewrite Hwrites; cycle 1.
    + vm_compute. reflexivity.
    + reflexivity.
    + intros Hempty. apply (f_equal (fun m => m !! "ca.crt")) in Hempty.
      vm_compute in Hempty. discriminate.
    + vm_compute. reflexivity.
    + vm_compute. reflexivity.
  - destruct (Hframe "observability-server-ca-certs"
                (Toy.serverCA (Toy.encode Toy.caLapsed ++ Toy.encode Toy.caOld
                                 ++ Toy.encode Toy.caOlder)))
      as (s' & Hget & _ & _ & _ & Hca & Hkey).
    + vm_compute. reflexivity.
    + exists s'. split; [exact Hget|]. split.
      * rewrite Hca. vm_compute. reflexivity.
      * rewrite Hkey. vm_compute. reflexivity.
Defined.

(** ** CA manager *)

Section CAFacts.
Context `{Libraries} `{Config}.

(** The factory touches nothing but the random source. *)
Lemma createCACertificate_world cn caKey w r w1 :
  createCACertificate cn caKey w = (r, w1) -> exists e, w1 = setEntropy w e.
Proof.
  unfold createCACertificate, bind, rand_Int, time_Now, keyOrFresh, rsa_GenerateKey, ret.
  destruct (entropy w) as [|x e] eqn:He.
  { intros [= <- <-]. exists []. destruct w; cbn in *; by subst. }
  destruct caKey as [k|]; cbn [entropy setEntropy].
  - destruct (x509_CreateCertificate _ _ _ _); intros [= <- <-]; by exists e.
  - destruct e as [|y e'].
    + intros [= <- <-]. by exists [].
    + destruct (x509_CreateCertificate _ _ _ _); intros [= <- <-]; by exists e'.
Qed.

Lemma createCACertificate_done cn caKey w keyBytes certBytes w1 :
  createCACertificate cn caKey w = (Done (inl (keyBytes, certBytes)), w1) ->
  exists sn key,
    let ca := caTemplate cn sn (now w) (now w) in
    x509_CreateCertificate ca ca key key = inl certBytes
    /\ keyBytes = x509_MarshalPKCS1PrivateKey key
    /\ (forall k, caKey = Some k -> key = k).
Proof.
  unfold createCACertificate, bind, rand_Int, time_Now, keyOrFresh, rsa_GenerateKey, ret.
  destruct (entropy w) as [|x e] eqn:He; [discriminate|].
  destruct caKey as [k|]; cbn [entropy setEntropy now].
  - destruct (x509_CreateCertificate _ _ _ _) as [bs|] eqn:Hsign; intros [= <- <- <-].
    exists (x mod serialNumberLimit), k. cbv zeta. repeat split; [done|congruence].
  - destruct e as [|y e']; [discriminate|].
    destruct (x509_CreateCertificate _ _ _ _) as [bs|] eqn:Hsign; intros [= <- <- <-].
    exists (x mod serialNumberLimit), y. cbv zeta. repeat split; [done|congruence].
Qed.

(** C3: a renewal of an existing CA bundle that completes returns
    [wasModified = true]; the stored chain ["tls.crt"] is the PEM of the
    new certificate followed by the whole previous chain, the active
    certificate ["ca.crt"] and the key ["tls.key"] are the new ones; and
    when the previous chain was a chain of PEM blocks, the new chain is
    one block longer with the new certificate first, so it holds at
    least two certificates. *)
Theorem C3_ca_renewal_prepends mco name cn w s b w' :
  secrets w !! name = Some s ->
  createCASecret mco true name cn w = (Done (None, b), w') ->
  b = true
  /\ exists sn key certBytes s',
      let ca := caTemplate cn sn (now w) (now w) in
      let certPEM := pem_Encode (mkBlock "CERTIFICATE" certBytes) in
      let keyPEM :=
        pem_Encode (mkBlock "RSA PRIVATE KEY" (x509_MarshalPKCS1PrivateKey key)) in
      x509_CreateCertificate ca ca key key = inl certBytes
      /\ secrets w' !! name = Some s'
      /\ Data s' !!! "tls.crt" = certPEM ++ Data s !!! "tls.crt"
      /\ Data s' !!! "ca.crt" = certPEM
      /\ Data s' !!! "tls.key" = keyPEM
      /\ calls w' = calls w ++ [OpUpdate name]
      /\ (forall segs nb,
            Chain (Data s !!! "tls.crt") segs -> segs <> [] ->
            certPEM <> [] ->
            pem_Decode (certPEM ++ Data s !!! "tls.crt")
              = (Some nb, Data s !!! "tls.crt") ->
            Chain (Data s' !!! "tls.crt") ((certPEM, nb) :: segs)
            /\ (2 <= length ((certPEM, nb) :: segs))%nat).
Proof.
  intros Hget Hrun.
  unfold createCASecret, bind at 1, client_Get in Hrun.
  destruct (fault w (OpGet name)); [run_ends Hrun|].
  rewrite Hget in Hrun. cbn [negb Data] in Hrun.
  destruct (pem_Decode (Data s !!! "tls.key")) as [[blk|] restKey];
    [|unfold bind, lift in Hrun; cbn in Hrun; discriminate].
  unfold bind at 1, lift in Hrun. cbn [deref] in Hrun.
  unfold bind at 1 in Hrun.
  destruct (createCACertificate cn (x509_ParsePKCS1PrivateKey (Bytes blk)) w)
    as [[[[keyBytes certBytes]|err]| |] w1] eqn:Hca; try run_ends Hrun.
  destruct (createCACertificate_world _ _ _ _ _ Hca) as [e ->].
  destruct (createCACertificate_done _ _ _ _ _ _ Hca) as (sn & key & Hsign & -> & _).
  unfold pemEncode, bind, client_Update, withData, ret in Hrun.
  cbn [SName logCall setEntropy fault secrets Data Labels Owner] in Hrun.
  destruct (fault w (OpUpdate name)); [discriminate|].
  rewrite Hget in Hrun. injection Hrun as <- <-.
  split; [done|].
  eexists sn, key, certBytes, _. cbv zeta.
  split; [exact Hsign|]. cbn [secrets setSecrets calls].
  rewrite lookup_insert_eq. split; [reflexivity|]. cbn [Data].
  rewrite lookup_total_insert_ne, lookup_total_insert_eq by done.
  rewrite (lookup_total_insert_ne (Data s)) by done.
  split; [done|].
  rewrite !lookup_total_insert_ne, lookup_total_insert_eq by done.
  split; [done|].
  rewrite lookup_total_insert_eq.
  split; [done|]. split; [done|].
  intros segs nb Hchain Hsegs Hne Hdec. split.
  - by apply Chain_cons.
  - destruct segs; [done|]. cbn [length]. lia.
Qed.
(** C8: [createCASecret] without renewal, called where no bundle of
    that name exists and completing without error, makes exactly one
    store call, the creation, and reports [wasModified = true]; called
    again with the same arguments it returns [wasModified = false] and
    leaves the world as it is: no store call, the same stored bytes. *)
Theorem C8_ensure_ca_idempotent mco name cn w b w1 :
  secrets w !! name = None ->
  createCASecret mco false name cn w = (Done (None, b), w1) ->
  b = true
  /\ calls w1 = calls w ++ [OpCreate name]
  /\ (exists s, secrets w1 !! name = Some s
        /\ Data s !!! "tls.crt" = Data s !!! "ca.crt")
  /\ createCASecret mco false name cn w1 = (Done (None, false), w1).
Proof.
  intros Hget Hrun.
  unfold createCASecret, bind at 1, client_Get in Hrun.
  destruct (fault w (OpGet name)) eqn:Hfg; [run_ends Hrun|].
  rewrite Hget in Hrun. cbn [negb IsNotFound] in Hrun.
  unfold bind at 1 in Hrun.
  destruct (createCACertificate cn None w)
    as [[[[keyBytes certBytes]|err]| |] w0] eqn:Hca; try run_ends Hrun.
  destruct (createCACertificate_world _ _ _ _ _ Hca) as [e ->].
  unfold pemEncode in Hrun.
  set (certPEM := pem_Encode (mkBlock "CERTIFICATE" certBytes)) in *.
  set (keyPEM := pem_Encode (mkBlock "RSA PRIVATE KEY" keyBytes)) in *.
  set (fresh := mkSecret name _ None _) in Hrun.
  assert (Hown : forall s1, ownedBy mco fresh = inl s1 ->
            SName s1 = name /\ Labels s1 = Labels fresh /\ Data s1 = Data fresh).
  { unfold ownedBy. destruct mco as [m|]; [destruct (controllerReference m fresh)|];
      intros s1 [= <-]; done. }
  destruct (ownedBy mco fresh) as [s1|err]; [|run_ends Hrun].
  destruct (Hown s1 eq_refl) as (Hname & Hlabels & Hdata).
  unfold bind, client_Create, ret in Hrun. rewrite Hname in Hrun.
  cbn [SName logCall setEntropy fault secrets] in Hrun.
  destruct (fault w (OpCreate name)); [discriminate|].
  rewrite Hget in Hrun. injection Hrun as <- <-.
  split; [done|]. split; [done|]. cbn [secrets setSecrets]. split.
  - exists s1. rewrite lookup_insert_eq. split; [done|].
    rewrite Hdata. subst fresh. cbn [Data].
    rewrite lookup_total_insert_ne, lookup_total_insert_eq by done.
    by rewrite !lookup_total_insert_ne, lookup_total_singleton by done.
  - unfold createCASecret, bind at 1, client_Get.
    cbn [fault secrets setSecrets logCall setEntropy]. rewrite Hfg, lookup_insert_eq.
    cbn [negb]. unfold bind, AddBackupLabelToSecretObj. cbn [Labels].
    rewrite Hlabels. subst fresh. cbn [Labels].
    by rewrite lookup_singleton_eq.
Qed.

End CAFacts.

(** C3 on the example: the renewed chain is the new certificate in
    front of the one that was stored. *)
Lemma C3_ca_renewal_prepends_witness :
  exists w' s' certPEM,
    @createCASecret Toy.libs Toy.config (Some "mco") true
      "observability-server-ca-certs" "observability-server-ca-certificate" Toy.caWorld
      = (Done (None, true), w')
    /\ secrets w' !! "observability-server-ca-certs" = Some s'
    /\ Data s' !!! "tls.crt" = certPEM ++ Toy.encode Toy.caNew
    /\ Data s' !!! "ca.crt" = certPEM.
Proof.
  pose (run := @createCASecret Toy.libs Toy.config (Some "mco") true
                 "observability-server-ca-certs" "observability-server-ca-certificate"
                 Toy.caWorld).
  assert (Hrun : run = (Done (None, true), snd run)) by (vm_compute; reflexivity).
  destruct (@C3_ca_renewal_prepends Toy.libs Toy.config (Some "mco")
              "observability-server-ca-certs" "observability-server-ca-certificate"
              Toy.caWorld (Toy.serverCA (Toy.encode Toy.caNew)) true (snd run))
    as (_ & sn & key & certBytes & s' & _ & Hget & Hchain & Hca & _).
  - vm_compute. reflexivity.
  - exact Hrun.
  - exists (snd run), s', (Toy.encode (mkBlock "CERTIFICATE" certBytes)).
    split; [exact Hrun|]. split; [exact Hget|]. split; [|exact Hca].
    rewrite Hchain. f_equal.
Defined.

(** C8 on the example: in the empty namespace the first call creates
    the server CA bundle, the second finds it and does nothing. *)
Lemma C8_ensure_ca_idempotent_witness :
  exists w1,
    @createCASecret Toy.libs Toy.config (Some "mco") false
      "observability-server-ca-certs" "observability-server-ca-certificate" Toy.emptyWorld
      = (Done (None, true), w1)
    /\ calls w1 = [OpCreate "observability-server-ca-certs"]
    /\ @createCASecret Toy.libs Toy.config (Some "mco") false
         "observability-server-ca-certs" "observability-server-ca-certificate" w1
       = (Done (None, false), w1).
Proof.
  pose (run := @createCASecret Toy.libs Toy.config (Some "mco") false
                 "observability-server-ca-certs" "observability-server-ca-certificate"
                 Toy.emptyWorld).
  assert (Hrun : run = (Done (None, true), snd run)) by (vm_compute; reflexivity).
  destruct (@C8_ensure_ca_idempotent Toy.libs Toy.config (Some "mco")
              "observability-server-ca-certs" "observability-server-ca-certificate"
              Toy.emptyWorld true (snd run))
    as (_ & Hcalls & _ & Hagain).
  - reflexivity.
  - exact Hrun.
  - exists (snd run). split; [exact Hrun|]. split; [exact Hcalls|exact Hagain].
Defined.

(** ** Leaf certificate manager *)

Section LeafFacts.
Context `{Libraries} `{Config}.

Lemma getCA_world isServer w r w1 : getCA isServer w = (r, w1) -> w1 = w.
Proof.
  unfold getCA, bind at 1, client_Get.
  destruct (fault w (OpGet _)); [intros; run_ends H1|].
  destruct (secrets w !! _) as [sCA|]; [|intros; run_ends H1].
  cbn [Data]. destruct (pem_Decode (Data sCA !!! "tls.crt")) as [[b1|] r1];
    unfold bind at 1, lift; cbn [deref]; [|congruence].
  destruct (x509_ParseCertificates (Bytes b1)) as [certs|]; [|intros; run_ends H1].
  destruct (pem_Decode (Data sCA !!! "tls.key")) as [[b2|] r2];
    unfold bind at 1; cbn [deref]; [|congruence].
  destruct (x509_ParsePKCS1PrivateKey (Bytes b2)); [|intros; run_ends H1].
  unfold bind. destruct certs; cbn [index0]; intros; run_ends H1.
Qed.

Lemma getCA_done isServer w caCert caKey caCertBytes w1 :
  getCA isServer w = (Done (inl (caCert, caKey, caCertBytes)), w1) ->
  exists sCA,
    secrets w !! caNameOf isServer = Some sCA
    /\ issuerOf sCA caCert caKey
    /\ caCertBytes = firstBlockOf (Data sCA !!! "tls.crt").
Proof.
  unfold getCA, bind at 1, client_Get.
  replace (if negb isServer then ClientCACerts else ServerCACerts)
    with (caNameOf isServer) by (by destruct isServer).
  destruct (fault w (OpGet _)); [intros; run_ends H1|].
  destruct (secrets w !! _) as [sCA|]; [|intros; run_ends H1].
  cbn [Data]. unfold issuerOf, firstBlockOf. cbn [Data].
  destruct (pem_Decode (Data sCA !!! "tls.crt")) as [[b1|] r1] eqn:Hd1;
    unfold bind at 1, lift; cbn [deref]; [|congruence].
  destruct (x509_ParseCertificates (Bytes b1)) as [certs|] eqn:Hp1;
    [|intros; run_ends H1].
  destruct (pem_Decode (Data sCA !!! "tls.key")) as [[b2|] r2] eqn:Hd2;
    unfold bind at 1; cbn [deref]; [|congruence].
  destruct (x509_ParsePKCS1PrivateKey (Bytes b2)) as [k|] eqn:Hp2;
    [|intros; run_ends H1].
  unfold bind. destruct certs as [|c0 certs]; cbn [index0]; [congruence|].
  unfold ret. intros [= <- <- <- <-].
  exists sCA. split; [done|]. rewrite Hd1. split; [|done].
  by exists b1, r1, certs, b2, r2.
Qed.

Lemma leafTemplate_done isServer cn ou dns ips sn t1 t2 tmpl :
  leafTemplate isServer cn ou dns ips sn t1 t2 = Done tmpl ->
  SerialNumber tmpl = sn
  /\ (suppliedDNS dns -> DNSNames tmpl = cn :: rangeOf dns).
Proof.
  intros Hrun. split.
  - unfold leafTemplate in Hrun. destruct (leafDNSNames cn dns); cbn in Hrun; [|done..].
    by injection Hrun as <-.
  - intros Hdns.
    destruct (leafTemplate_names isServer cn ou dns ips sn t1 t2 Hdns)
      as (tmpl' & Hrun' & Hnames & _).
    congruence.
Qed.

Lemma createCertificate_world isServer cn ou dns ips caCert caKey key w r w1 :
  createCertificate isServer cn ou dns ips caCert caKey key w = (r, w1) ->
  exists e, w1 = setEntropy w e.
Proof.
  unfold createCertificate, bind, rand_Int, time_Now, lift, keyOrFresh,
    rsa_GenerateKey, ret.
  destruct (entropy w) as [|x e] eqn:He.
  { intros [= <- <-]. exists []. destruct w; cbn in *; by subst. }
  destruct (leafTemplate _ _ _ _ _ _ _ _) as [tmpl| |];
    [|intros [= <- <-]; by exists e..].
  destruct key as [k|]; cbn [entropy setEntropy].
  - destruct (x509_CreateCertificate _ _ _ _); intros [= <- <-]; by exists e.
  - destruct e as [|y e'].
    + intros [= <- <-]. by exists [].
    + destruct (x509_CreateCertificate _ _ _ _); intros [= <- <-]; by exists e'.
Qed.

Lemma createCertificate_done isServer cn ou dns ips caCert caKey key w keyBytes certBytes w1 :
  createCertificate isServer cn ou dns ips caCert caKey key w
    = (Done (inl (keyBytes, certBytes)), w1) ->
  exists x e tmpl k,
    entropy w = x :: e
    /\ leafTemplate isServer cn ou dns ips (x mod serialNumberLimit) (now w) (now w)
       = Done tmpl
    /\ x509_CreateCertificate tmpl caCert k caKey = inl certBytes
    /\ keyBytes = x509_MarshalPKCS1PrivateKey k
    /\ (forall k0, key = Some k0 -> k = k0).
Proof.
  unfold createCertificate, bind, rand_Int, time_Now, lift, keyOrFresh,
    rsa_GenerateKey, ret.
  destruct (entropy w) as [|x e] eqn:He; [discriminate|].
  cbn [now setEntropy].
  destruct (leafTemplate _ _ _ _ _ _ _ _) as [tmpl| |] eqn:Htmpl; [|discriminate..].
  destruct key as [k|]; cbn [entropy setEntropy].
  - destruct (x509_CreateCertificate _ _ _ _) as [bs|] eqn:Hsign; intros [= <- <- <-].
    exists x, e, tmpl, k. repeat split; [done..|congruence].
  - destruct e as [|y e']; [discriminate|].
    destruct (x509_CreateCertificate _ _ _ _) as [bs|] eqn:Hsign; intros [= <- <- <-].
    exists x, (y :: e'), tmpl, y. repeat split; [done..|congruence].
Qed.

(** A leaf bundle that is absent is created from the CA of its role. *)
Lemma createCertSecret_creates mco isRenew name isServer cn ou dns ips w w' :
  secrets w !! name = None ->
  createCertSecret mco isRenew name isServer cn ou dns ips w = (Done None, w') ->
  exists sCA sLeaf x e e' tmpl,
    secrets w !! caNameOf isServer = Some sCA
    /\ entropy w = x :: e
    /\ leafTemplate isServer cn ou dns ips (x mod serialNumberLimit) (now w) (now w)
       = Done tmpl
    /\ issuedWith sCA sLeaf tmpl
    /\ w' = setSecrets (logCall (setEntropy w e') (OpCreate name))
              (<[name := sLeaf]> (secrets w)).
Proof.
  intros Hget Hrun.
  unfold createCertSecret, bind at 1, client_Get in Hrun.
  destruct (fault w (OpGet name)) eqn:Hfg; [run_ends Hrun|].
  rewrite Hget in Hrun. cbn [negb IsNotFound] in Hrun.
  unfold bind at 1 in Hrun.
  destruct (getCA isServer w) as [[[[[caCert caKey] caBytes]|err]| |] w0] eqn:Hca;
    try run_ends Hrun.
  pose proof (getCA_world _ _ _ _ Hca) as ->.
  destruct (getCA_done _ _ _ _ _ _ Hca) as (sCA & HsCA & Hissuer & ->).
  unfold bind at 1 in Hrun.
  destruct (createCertificate isServer cn ou dns ips caCert caKey None w)
    as [[[[keyBytes certBytes]|err]| |] w0] eqn:Hcrt; try run_ends Hrun.
  destruct (createCertificate_world _ _ _ _ _ _ _ _ _ _ _ Hcrt) as [e' ->].
  destruct (createCertificate_done _ _ _ _ _ _ _ _ _ _ _ _ Hcrt)
    as (x & e & tmpl & k & He & Htmpl & Hsign & -> & _).
  unfold pemEncode in Hrun.
  set (fresh := mkSecret name _ None _) in Hrun.
  assert (Hown : forall s1, ownedBy mco fresh = inl s1 ->
            SName s1 = name /\ Data s1 = Data fresh).
  { unfold ownedBy. destruct mco as [m|]; [destruct (controllerReference m fresh)|];
      intros s1 [= <-]; done. }
  destruct (ownedBy mco fresh) as [s1|err]; [|run_ends Hrun].
  destruct (Hown s1 eq_refl) as (Hname & Hdata).
  unfold client_Create in Hrun. rewrite Hname in Hrun.
  cbn [SName logCall setEntropy fault secrets] in Hrun.
  destruct (fault w (OpCreate name)); [discriminate|].
  rewrite Hget in Hrun. injection Hrun as <-.
  exists sCA, s1, x, e, e', tmpl. repeat split; try done.
  exists k, caCert, caKey, certBytes. rewrite Hdata. subst fresh. cbn [Data].
  repeat split; done.
Qed.

(** A present leaf bundle marked for renewal is reissued from the CA
    of its role. *)
Lemma createCertSecret_renews mco isRenew name isServer cn ou dns ips w w' s :
  secrets w !! name = Some s ->
  driftCheck (mkSecret name (Labels s) (Owner s) (Data s)) dns isRenew = Done true ->
  createCertSecret mco isRenew name isServer cn ou dns ips w = (Done None, w') ->
  exists sCA sLeaf x e e' tmpl,
    secrets w !! caNameOf isServer = Some sCA
    /\ entropy w = x :: e
    /\ leafTemplate isServer cn ou dns ips (x mod serialNumberLimit) (now w) (now w)
       = Done tmpl
    /\ issuedWith sCA sLeaf tmpl
    /\ w' = setSecrets (logCall (setEntropy w e') (OpUpdate name))
              (<[name := sLeaf]> (secrets w)).
Proof.
  intros Hget Hdrift Hrun.
  unfold createCertSecret, bind at 1, client_Get in Hrun.
  destruct (fault w (OpGet name)) eqn:Hfg; [run_ends Hrun|].
  rewrite Hget in Hrun.
  unfold bind at 1, lift in Hrun. rewrite Hdrift in Hrun. cbn [negb] in Hrun.
  unfold bind at 1 in Hrun.
  destruct (getCA isServer w) as [[[[[caCert caKey] caBytes]|err]| |] w0] eqn:Hca;
    try run_ends Hrun.
  pose proof (getCA_world _ _ _ _ Hca) as ->.
  destruct (getCA_done _ _ _ _ _ _ Hca) as (sCA & HsCA & Hissuer & ->).
  cbn [Data] in Hrun.
  destruct (pem_Decode (Data s !!! "tls.key")) as [[blk|] restKey];
    [|unfold bind, lift in Hrun; cbn in Hrun; discriminate].
  unfold bind at 1, lift in Hrun. cbn [deref] in Hrun.
  unfold bind at 1 in Hrun.
  destruct (createCertificate isServer cn ou dns ips caCert caKey _ w)
    as [[[[keyBytes certBytes]|err]| |] w0] eqn:Hcrt; try run_ends Hrun.
  destruct (createCertificate_world _ _ _ _ _ _ _ _ _ _ _ Hcrt) as [e' ->].
  destruct (createCertificate_done _ _ _ _ _ _ _ _ _ _ _ _ Hcrt)
    as (x & e & tmpl & k & He & Htmpl & Hsign & -> & _).
  unfold pemEncode, client_Update, withData in Hrun.
  cbn [SName logCall setEntropy fault secrets Data Labels Owner] in Hrun.
  destruct (fault w (OpUpdate name)); [discriminate|].
  rewrite Hget in Hrun. injection Hrun as <-.
  eexists sCA, _, x, e, e', tmpl. repeat split; try done.
  exists k, caCert, caKey, certBytes. cbn [Data].
  repeat split; try done; by data_entry.
Qed.

(** A present leaf bundle that needs no renewal is only labelled. *)
Lemma createCertSecret_keeps mco isRenew name isServer cn ou dns ips w s :
  secrets w !! name = Some s ->
  fault w (OpGet name) = false ->
  driftCheck (mkSecret name (Labels s) (Owner s) (Data s)) dns isRenew = Done false ->
  createCertSecret mco isRenew name isServer cn ou dns ips w
  = AddBackupLabelToSecretObj (mkSecret name (Labels s) (Owner s) (Data s)) w.
Proof.
  intros Hget Hfg Hdrift.
  unfold createCertSecret, bind at 1, client_Get. rewrite Hfg, Hget.
  unfold bind, lift. by rewrite Hdrift.
Qed.

(** Labelling writes no data and draws no randomness. *)
Lemma AddBackupLabelToSecretObj_data s w r w' :
  AddBackupLabelToSecretObj s w = (r, w') ->
  entropy w' = entropy w
  /\ forall s0, secrets w !! SName s = Some s0 -> Data s0 = Data s ->
      exists s', secrets w' !! SName s = Some s' /\ Data s' = Data s0.
Proof.
  unfold AddBackupLabelToSecretObj.
  destruct (Labels s !! BackupLabelName).
  { unfold ret. intros [= <- <-]. eauto. }
  unfold client_Update, withLabels. cbn [SName logCall fault secrets].
  destruct (fault w _); [intros [= <- <-]; cbn; eauto|].
  destruct (secrets w !! SName s) as [s0|] eqn:Hget; intros [= <- <-].
  - cbn. split; [done|]. intros s1 [= <-] Hdata.
    rewrite lookup_insert_eq. eauto.
  - cbn. split; [done|]. intros s1 Hs1. congruence.
Qed.

Lemma driftLoop_covered crt dns b :
  covers crt dns -> driftLoop (Some crt) dns b = Done b.
Proof.
  unfold covers. induction 1 as [|d dns Hd Hrest IH]; [done|].
  cbn [driftLoop deref rbind]. by rewrite bool_decide_eq_true_2.
Qed.

Lemma driftLoop_missing crt dns b :
  ~ covers crt dns -> driftLoop (Some crt) dns b = Done true.
Proof.
  unfold covers. induction dns as [|d dns IH]; intros Hmiss.
  - destruct Hmiss. constructor.
  - cbn [driftLoop deref rbind].
    destruct (decide (d ∈ DNSNames crt)) as [Hd|Hd].
    + rewrite bool_decide_eq_true_2 by done. cbn [negb].
      apply IH. intros Hrest. apply Hmiss. by constructor.
    + by rewrite bool_decide_eq_false_2.
Qed.

(** The drift check of a server leaf whose certificate parses. *)
Lemma driftCheck_parsed labels owner data dns blk rest crt :
  pem_Decode (data !!! "tls.crt") = (Some blk, rest) ->
  x509_ParseCertificate (Bytes blk) = Some crt ->
  driftCheck (mkSecret ServerCerts labels owner data) dns false
  = Done (bool_decide (~ covers crt (rangeOf dns))).
Proof.
  intros Hdec Hparse. unfold driftCheck. cbn [SName Data negb].
  rewrite bool_decide_eq_true_2 by done. cbn [andb]. rewrite Hdec, Hparse.
  destruct (decide (covers crt (rangeOf dns))) as [Hc|Hc].
  - rewrite bool_decide_eq_false_2 by tauto. by apply driftLoop_covered.
  - rewrite bool_decide_eq_true_2 by done. by apply driftLoop_missing.
Qed.

(** C4 (amended): for a present server leaf whose stored certificate
    parses, processed without forced renewal. When the certificate's
    DNS names contain every required name, nothing is issued: no
    randomness is drawn and the stored data are unchanged. When a
    required name is missing, a call that completes has stored a new
    certificate, signed by the server CA, whose DNS names are the
    common name followed by the required names, and whose serial
    number is the next value of the random source modulo 2^128. *)
Theorem C4_san_drift mco cn ou dns ips w s blk rest crt :
  secrets w !! ServerCerts = Some s ->
  fault w (OpGet ServerCerts) = false ->
  pem_Decode (Data s !!! "tls.crt") = (Some blk, rest) ->
  x509_ParseCertificate (Bytes blk) = Some crt ->
  suppliedDNS dns ->
  let run := createCertSecret mco false ServerCerts true cn ou dns ips w in
  (covers crt (rangeOf dns) ->
     entropy (snd run) = entropy w
     /\ exists s', secrets (snd run) !! ServerCerts = Some s' /\ Data s' = Data s)
  /\ (~ covers crt (rangeOf dns) ->
      forall w', run = (Done None, w') ->
      exists sCA s' x e tmpl,
        secrets w !! ServerCACerts = Some sCA
        /\ entropy w = x :: e
        /\ secrets w' !! ServerCerts = Some s'
        /\ issuedWith sCA s' tmpl
        /\ DNSNames tmpl = cn :: rangeOf dns
        /\ covers tmpl (rangeOf dns)
        /\ SerialNumber tmpl = x mod serialNumberLimit).
Proof.
  intros Hget Hfg Hdec Hparse Hdns. cbv zeta.
  pose proof (driftCheck_parsed (Labels s) (Owner s) (Data s) dns blk rest crt
                Hdec Hparse) as Hdrift.
  split.
  - intros Hcov. rewrite bool_decide_eq_false_2 in Hdrift by tauto.
    rewrite (createCertSecret_keeps _ _ _ _ _ _ _ _ _ _ Hget Hfg Hdrift).
    destruct (AddBackupLabelToSecretObj _ w) as [r w'] eqn:Hlabel.
    destruct (AddBackupLabelToSecretObj_data _ _ _ _ Hlabel) as [He Hdata].
    split; [done|]. by apply (Hdata s).
  - intros Hmiss w' Hrun. rewrite bool_decide_eq_true_2 in Hdrift by done.
    destruct (createCertSecret_renews _ _ _ _ _ _ _ _ _ _ _ Hget Hdrift Hrun)
      as (sCA & sLeaf & x & e & e' & tmpl & HsCA & He & Htmpl & Hissued & ->).
    destruct (leafTemplate_done _ _ _ _ _ _ _ _ _ Htmpl) as [Hsn Hnames].
    specialize (Hnames Hdns).
    exists sCA, sLeaf, x, e, tmpl. cbn [secrets setSecrets].
    rewrite lookup_insert_eq. repeat split; try done.
    unfold covers. rewrite Hnames. apply Forall_forall. intros d Hd.
    by apply list_elem_of_further.
Qed.
End LeafFacts.

(** C4 as stated fails where it promises a different serial number:
    the stored leaf has serial number 11 and lacks the required name
    ["b"]; the renewal draws 11 from the random source again, and the
    new certificate, which has both required names, carries the serial
    number of the old one. *)
Lemma C4_serial_can_repeat :
  exists w' s' old new,
    @createCertSecret Toy.libs Toy.config (Some "mco") false
      "observability-server-certs" true "observability-server-certificate"
      None (Some (literal ["a"; "b"])) None Toy.driftWorld = (Done None, w')
    /\ Toy.storedCert Toy.leafA = Some old
    /\ ("b" ∉ DNSNames old)
    /\ secrets w' !! "observability-server-certs" = Some s'
    /\ Toy.storedCert s' = Some new
    /\ "a" ∈ DNSNames new
    /\ "b" ∈ DNSNames new
    /\ SerialNumber new = SerialNumber old.
Proof.
  eexists _, _, _, _.
  split; [vm_compute; reflexivity|].
  split; [vm_compute; reflexivity|].
  split; [decided|].
  split; [vm_compute; reflexivity|].
  split; [vm_compute; reflexivity|].
  split; [decided|].
  split; [decided|].
  reflexivity.
Qed.

(** C4 (amended) on the example: the missing name ["b"] makes the
    call reissue the leaf for the common name, ["a"] and ["b"], with
    the serial number the random source yields. *)
Lemma C4_san_drift_witness :
  exists w' s' tmpl,
    @createCertSecret Toy.libs Toy.config (Some "mco") false
      "observability-server-certs" true "observability-server-certificate"
      None (Some (literal ["a"; "b"])) None Toy.driftWorld = (Done None, w')
    /\ secrets w' !! "observability-server-certs" = Some s'
    /\ @issuedWith Toy.libs (Toy.serverCA (Toy.encode Toy.caNew)) s' tmpl
    /\ DNSNames tmpl = ["observability-server-certificate"; "a"; "b"]
    /\ SerialNumber tmpl = 11.
Proof.
  pose (run := @createCertSecret Toy.libs Toy.config (Some "mco") false
                 "observability-server-certs" true "observability-server-certificate"
                 None (Some (literal ["a"; "b"])) None Toy.driftWorld).
  assert (Hrun : run = (Done None, snd run)) by (vm_compute; reflexivity).
  edestruct (@C4_san_drift Toy.libs Toy.config (Some "mco")
               "observability-server-certificate" None (Some (literal ["a"; "b"])) None
               Toy.driftWorld Toy.leafA (Toy.certBlock Toy.leafACert 7) []
               Toy.leafACert) as [_ Hrenew].
  - vm_compute. reflexivity.
  - reflexivity.
  - vm_compute. reflexivity.
  - vm_compute. reflexivity.
  - split; [unfold wf, cap; simpl; lia | simpl; lia].
  - assert (Hmiss : ~ covers Toy.leafACert (rangeOf (Some (literal ["a"; "b"])))).
    { unfold covers. intros Hc.
      inversion Hc as [|? ? _ Hc']. inversion Hc' as [|? ? Hb _].
      revert Hb. decided. }
    destruct (Hrenew Hmiss (snd run) Hrun)
      as (sCA & s' & x & e & tmpl & HsCA & He & Hget & Hissued & Hnames & _ & Hsn).
    exists (snd run), s', tmpl.
    split; [exact Hrun|]. split; [exact Hget|].
    assert (sCA = Toy.serverCA (Toy.encode Toy.caNew)) as ->.
    { vm_compute in HsCA. by injection HsCA as <-. }
    split; [exact Hissued|]. split; [exact Hnames|].
    rewrite Hsn. vm_compute in He. by injection He as <- <-.
Defined.

(** ** What a call may write *)

Section Frames.
Context `{Libraries} `{Config}.

Lemma touchesOnly_refl names w : touchesOnly names w w.
Proof.
  repeat split; try done. exists []. by rewrite app_nil_r.
Qed.

Lemma touchesOnly_trans names w w1 w2 :
  touchesOnly names w w1 -> touchesOnly names w1 w2 -> touchesOnly names w w2.
Proof.
  intros ((ops1 & Hc1 & Hn1) & Hs1 & Hf1 & Ha1 & Ht1)
         ((ops2 & Hc2 & Hn2) & Hs2 & Hf2 & Ha2 & Ht2).
  repeat split; try congruence.
  - exists (ops1 ++ ops2). rewrite Hc2, Hc1, app_assoc. split; [done|].
    by apply Forall_app.
  - intros k Hk. by rewrite Hs2, Hs1.
Qed.

Lemma touchesOnly_mono names names' w w1 :
  names ⊆ names' -> touchesOnly names w w1 -> touchesOnly names' w w1.
Proof.
  intros Hsub ((ops & Hc & Hn) & Hs & Hrest).
  repeat split; try tauto.
  - exists ops. split; [done|]. eapply Forall_impl; [exact Hn|]. intros op. apply Hsub.
  - intros k Hk. apply Hs. intros Hin. apply Hk, Hsub, Hin.
Qed.

Lemma singleton_subseteq (x : string) (l : list string) : x ∈ l -> [x] ⊆ l.
Proof. intros Hx y Hy. by apply list_elem_of_singleton in Hy as ->. Qed.

Lemma touchesOnly_entropy names w e : touchesOnly names w (setEntropy w e).
Proof. apply (touchesOnly_refl names w). Qed.

Lemma touchesOnly_write names w s op :
  opName op ∈ names -> SName s = opName op ->
  touchesOnly names w (setSecrets (logCall w op) (<[SName s := s]> (secrets w))).
Proof.
  intros Hin Hname. repeat split; try done.
  - exists [op]. split; [done|]. by repeat constructor.
  - intros k Hk. cbn. rewrite lookup_insert_ne; [done|]. congruence.
Qed.

Lemma touchesOnly_call names w op :
  opName op ∈ names -> touchesOnly names w (logCall w op).
Proof.
  intros Hin. repeat split; try done.
  exists [op]. split; [done|]. by repeat constructor.
Qed.

Lemma Touches_ret {A} names (a : A) : Touches names (ret a).
Proof. intros w r w' [= <- <-]. apply touchesOnly_refl. Qed.

Lemma Touches_lift {A} names (r : Run A) : Touches names (lift r).
Proof. intros w r' w' [= <- <-]. apply touchesOnly_refl. Qed.

Lemma Touches_bind {A B} names (m : M A) (f : A -> M B) :
  Touches names m -> (forall a, Touches names (f a)) -> Touches names (bind m f).
Proof.
  intros Hm Hf w r w'. unfold bind.
  destruct (m w) as [[a|msg|] w1] eqn:Hrun; intros Hk.
  - eapply touchesOnly_trans; [by eapply Hm|by eapply Hf].
  - injection Hk as <- <-. by eapply Hm.
  - injection Hk as <- <-. by eapply Hm.
Qed.

Lemma Touches_mono {A} names names' (m : M A) :
  names ⊆ names' -> Touches names m -> Touches names' m.
Proof. intros Hsub Hm w r w' Hrun. eapply touchesOnly_mono; [done|by eapply Hm]. Qed.

Lemma Touches_Get names name : Touches names (client_Get name).
Proof.
  intros w r w'. unfold client_Get.
  destruct (fault w _); [|destruct (secrets w !! name)];
    intros [= <- <-]; apply touchesOnly_refl.
Qed.

Lemma Touches_Create names s : SName s ∈ names -> Touches names (client_Create s).
Proof.
  intros Hin w r w'. unfold client_Create. cbn [logCall fault secrets].
  destruct (fault w _); [|destruct (secrets w !! SName s)]; intros [= <- <-].
  - by apply touchesOnly_call.
  - by apply touchesOnly_call.
  - by apply (touchesOnly_write names w s (OpCreate (SName s))).
Qed.

Lemma Touches_Update names s : SName s ∈ names -> Touches names (client_Update s).
Proof.
  intros Hin w r w'. unfold client_Update. cbn [logCall fault secrets].
  destruct (fault w _); [|destruct (secrets w !! SName s)]; intros [= <- <-].
  - by apply touchesOnly_call.
  - by apply (touchesOnly_write names w s (OpUpdate (SName s))).
  - by apply touchesOnly_call.
Qed.

Lemma Touches_rand_Int names max : Touches names (rand_Int max).
Proof.
  intros w r w'. unfold rand_Int.
  destruct (entropy w); intros [= <- <-];
    [apply touchesOnly_refl|apply touchesOnly_entropy].
Qed.

Lemma Touches_rsa_GenerateKey names : Touches names rsa_GenerateKey.
Proof.
  intros w r w'. unfold rsa_GenerateKey.
  destruct (entropy w); intros [= <- <-];
    [apply touchesOnly_refl|apply touchesOnly_entropy].
Qed.

Lemma Touches_time_Now names : Touches names time_Now.
Proof. intros w r w' [= <- <-]. apply touchesOnly_refl. Qed.

Lemma Touches_GetObsAPIHost names : Touches names GetObsAPIHost.
Proof.
  intros w r w'. unfold GetObsAPIHost.
  destruct (apiHost w); intros [= <- <-]; apply touchesOnly_refl.
Qed.
End Frames.

Create HintDb touches.
#[global] Hint Resolve Touches_ret Touches_lift Touches_Get Touches_rand_Int
  Touches_rsa_GenerateKey Touches_time_Now Touches_GetObsAPIHost : touches.

(** Walks down a definition written with [bind], [match] and [if]. *)
Ltac touches :=
  repeat first
    [ solve [auto with touches]
    | apply Touches_bind; [|intros ?]
    | match goal with
      | |- Touches _ (match ?x with _ => _ end) => destruct x
      | |- Touches _ (panic _) => apply (Touches_lift _ (Panicked _))
      end ].

Section PackageFrames.
Context `{Libraries} `{Config}.

Lemma Touches_AddBackupLabelToSecretObj names s :
  SName s ∈ names -> Touches names (AddBackupLabelToSecretObj s).
Proof.
  intros Hin. unfold AddBackupLabelToSecretObj.
  destruct (Labels s !! BackupLabelName); [touches|].
  by apply Touches_Update.
Qed.

Lemma Touches_createCACertificate names cn caKey :
  Touches names (createCACertificate cn caKey).
Proof. unfold createCACertificate, keyOrFresh. touches. Qed.

Lemma Touches_createCertificate names isServer cn ou dns ips caCert caKey key :
  Touches names (createCertificate isServer cn ou dns ips caCert caKey key).
Proof. unfold createCertificate, keyOrFresh. touches. Qed.

Lemma Touches_getCA names isServer : Touches names (getCA isServer).
Proof. unfold getCA. touches. Qed.

Lemma ownedBy_name mco s s1 : ownedBy mco s = inl s1 -> SName s1 = SName s.
Proof.
  unfold ownedBy. destruct mco as [m|]; [destruct (controllerReference m s)|];
    by intros [= <-].
Qed.

(** After [client_Get name] the object at hand is named [name]. *)
Lemma Touches_bind_Get {A} names name (f : Secret + Error -> M A) :
  (forall s, SName s = name -> Touches names (f (inl s))) ->
  (forall err, Touches names (f (inr err))) ->
  Touches names (bind (client_Get name) f).
Proof.
  intros Hs Herr w r w'. unfold bind, client_Get.
  destruct (fault w _); [by apply Herr|].
  destruct (secrets w !! name); [by apply Hs|by apply Herr].
Qed.

Lemma Touches_createCASecret mco isRenew name cn :
  Touches [name] (createCASecret mco isRenew name cn).
Proof.
  assert (Hin : name ∈ [name]) by apply list_elem_of_here.
  unfold createCASecret. apply Touches_bind_Get.
  - intros caSecret Hname. destruct isRenew; cbn [negb].
    + destruct (pem_Decode _) as [block restKey].
      apply Touches_bind; [touches|]. intros blk.
      apply Touches_bind; [apply Touches_createCACertificate|].
      intros [[key cert]|err]; [|touches]. unfold pemEncode.
      apply Touches_bind; [|intros ?; touches].
      apply Touches_Update. cbn [withData SName]. by rewrite Hname.
    + apply Touches_bind; [|intros ?; touches].
      apply Touches_AddBackupLabelToSecretObj. cbn [withData SName]. by rewrite Hname.
  - intros err. destruct (negb (IsNotFound err)); [touches|].
    apply Touches_bind; [apply Touches_createCACertificate|].
    intros [[key cert]|err']; [|touches]. unfold pemEncode.
    destruct (ownedBy mco _) as [s1|err'] eqn:Hown; [|touches].
    apply ownedBy_name in Hown. cbn [SName] in Hown.
    apply Touches_bind; [|intros ?; touches].
    apply Touches_Create. by rewrite Hown.
Qed.

Lemma Touches_createCertSecret mco isRenew name isServer cn ou dns ips :
  Touches [name] (createCertSecret mco isRenew name isServer cn ou dns ips).
Proof.
  assert (Hin : name ∈ [name]) by apply list_elem_of_here.
  unfold createCertSecret. apply Touches_bind_Get.
  - intros crtSecret Hname.
    apply Touches_bind; [touches|]. intros renew. destruct renew; cbn [negb].
    + apply Touches_bind; [apply Touches_getCA|].
      intros [[[caCert caKey] caBytes]|err]; [|touches].
      destruct (pem_Decode _) as [block restKey].
      apply Touches_bind; [touches|]. intros blk.
      apply Touches_bind; [apply Touches_createCertificate|].
      intros [[key cert]|err]; [|touches]. unfold pemEncode.
      apply Touches_Update. cbn [withData SName]. by rewrite Hname.
    + apply Touches_AddBackupLabelToSecretObj. cbn [withData SName]. by rewrite Hname.
  - intros err. destruct (negb (IsNotFound err)); [touches|].
    apply Touches_bind; [apply Touches_getCA|].
    intros [[[caCert caKey] caBytes]|err']; [|touches].
    apply Touches_bind; [apply Touches_createCertificate|].
    intros [[key cert]|err']; [|touches]. unfold pemEncode.
    destruct (ownedBy mco _) as [s1|err'] eqn:Hown; [|touches].
    apply ownedBy_name in Hown. cbn [SName] in Hown.
    apply Touches_Create. by rewrite Hown.
Qed.

Lemma Touches_getHosts names ingressCtlCrdExists :
  Touches names (getHosts ingressCtlCrdExists).
Proof. unfold getHosts. destruct ingressCtlCrdExists; touches. Qed.
End PackageFrames.

(** ** Malformed stored material *)

(** C5, where the code falls short of it. A stored server certificate
    that is a PEM block without a certificate makes the drift check
    set [isRenew] and then read the DNS names of the nil certificate:
    the call and the whole pass panic. A stored key that is not PEM
    makes [block.Bytes] panic in the renewal of a CA and of a leaf. *)
Theorem C5_malformed_input_panics :
  fst (@createCertSecret Toy.libs Toy.config (Some "mco") false
         "observability-server-certs" true "observability-server-certificate"
         None (Some (literal ["observatorium-api"])) None Toy.brokenLeafWorld)
    = Panicked nilDeref
  /\ fst (@CreateObservabilityCerts Toy.libs Toy.config (Some "mco") true
            Toy.brokenLeafWorld)
     = Panicked nilDeref
  /\ fst (@createCASecret Toy.libs Toy.config (Some "mco") true
            "observability-server-ca-certs" "observability-server-ca-certificate"
            Toy.caNoKeyWorld)
     = Panicked nilDeref
  /\ fst (@createCertSecret Toy.libs Toy.config (Some "mco") true
            "observability-server-certs" true "observability-server-certificate"
            None (Some (literal ["observatorium-api"])) None Toy.leafNoKeyWorld)
     = Panicked nilDeref.
Proof. repeat split; vm_compute; reflexivity. Qed.

Section MalformedFacts.
Context `{Libraries} `{Config}.

(** The defect behind the first two runs above, for any PEM and x509
    library: a present server certificate that decodes and does not
    parse, checked against at least one required name. *)
Lemma driftCheck_unparsed_panics labels owner data dns blk rest :
  pem_Decode (data !!! "tls.crt") = (Some blk, rest) ->
  x509_ParseCertificate (Bytes blk) = None ->
  rangeOf dns <> [] ->
  driftCheck (mkSecret ServerCerts labels owner data) dns false = Panicked nilDeref.
Proof.
  intros Hdec Hparse Hdns. unfold driftCheck. cbn [SName Data negb].
  rewrite bool_decide_eq_true_2 by done. cbn [andb]. rewrite Hdec, Hparse.
  by destruct (rangeOf dns).
Qed.

(** A server certificate without a PEM block is skipped, not renewed. *)
Lemma driftCheck_no_block_skips labels owner data dns rest :
  pem_Decode (data !!! "tls.crt") = (None, rest) ->
  driftCheck (mkSecret ServerCerts labels owner data) dns false = Done false.
Proof.
  intros Hdec. unfold driftCheck. cbn [SName Data negb].
  rewrite bool_decide_eq_true_2 by done. cbn [andb]. by rewrite Hdec.
Qed.
End MalformedFacts.

(** ** The CA chain of a leaf bundle *)

Section LeafChainFacts.
Context `{Libraries} `{Config}.

Lemma driftCheck_forced crtSecret dns : driftCheck crtSecret dns true = Done true.
Proof. unfold driftCheck. cbn [negb]. by rewrite andb_false_r. Qed.

(** A leaf bundle that is absent, or present and due for renewal, be
    it forced by the caller or found by the drift check, is issued
    from the CA of its role by a call that completes. *)
Lemma createCertSecret_reissues mco isRenew name isServer cn ou dns ips w w' :
  match secrets w !! name with
  | Some s =>
      driftCheck (mkSecret name (Labels s) (Owner s) (Data s)) dns isRenew = Done true
  | None => True
  end ->
  createCertSecret mco isRenew name isServer cn ou dns ips w = (Done None, w') ->
  exists sCA sLeaf tmpl op e',
    secrets w !! caNameOf isServer = Some sCA
    /\ issuedWith sCA sLeaf tmpl
    /\ (op = OpCreate name \/ op = OpUpdate name)
    /\ w' = setSecrets (logCall (setEntropy w e') op) (<[name := sLeaf]> (secrets w)).
Proof.
  intros Hcase Hrun.
  destruct (secrets w !! name) as [s|] eqn:Hget.
  - destruct (createCertSecret_renews _ _ _ _ _ _ _ _ _ _ _ Hget Hcase Hrun)
      as (sCA & sLeaf & x & e & e' & tmpl & HsCA & _ & _ & Hissued & ->).
    exists sCA, sLeaf, tmpl, (OpUpdate name), e'. auto.
  - destruct (createCertSecret_creates _ _ _ _ _ _ _ _ _ _ Hget Hrun)
      as (sCA & sLeaf & x & e & e' & tmpl & HsCA & _ & _ & Hissued & ->).
    exists sCA, sLeaf, tmpl, (OpCreate name), e'. auto.
Qed.


Lemma firstBlockOf_chain chain seg blk segs :
  Chain chain ((seg, blk) :: segs) ->
  firstBlockOf chain = seg /\ (segs <> [] -> seg <> chain).
Proof.
  intros Hchain.
  destruct (Chain_cons_inv _ _ _ Hchain) as (rest & -> & Hne & Hdec & Hrest).
  cbn [fst snd] in *. unfold firstBlockOf. rewrite Hdec. cbn [snd]. split.
  - rewrite length_app. replace (length seg + length rest - length rest)%nat
      with (length seg) by lia. apply take_app_length.
  - intros Hsegs Heq. apply (f_equal length) in Heq. rewrite length_app in Heq.
    assert (rest <> []) by (intros ->; by apply Chain_nil_inv in Hrest).
    destruct rest; [done|]. cbn [length] in Heq. lia.
Qed.

(** C6 (amended): a leaf bundle created or renewed by a call that
    completes stores as its CA field ["ca.crt"] the byte range of the
    first PEM block of the issuing CA's chain, the current CA
    certificate; when that chain holds further certificates they are
    not copied, and the field differs from the chain. The bundle is
    created when it is absent, and renewed when it is present and the
    check of lines 254-272 ends with [isRenew] set: the caller forces
    the renewal, or the stored server certificate does not parse or
    lacks a required name. *)
Theorem C6_leaf_ca_is_first_block mco isRenew name isServer cn ou dns ips w w' :
  match secrets w !! name with
  | Some s =>
      driftCheck (mkSecret name (Labels s) (Owner s) (Data s)) dns isRenew = Done true
  | None => True
  end ->
  createCertSecret mco isRenew name isServer cn ou dns ips w = (Done None, w') ->
  exists sCA sLeaf,
    secrets w !! caNameOf isServer = Some sCA
    /\ secrets w' !! name = Some sLeaf
    /\ Data sLeaf !!! "ca.crt" = firstBlockOf (Data sCA !!! "tls.crt")
    /\ (forall seg blk segs,
          Chain (Data sCA !!! "tls.crt") ((seg, blk) :: segs) ->
          Data sLeaf !!! "ca.crt" = seg
          /\ (segs <> [] -> Data sLeaf !!! "ca.crt" <> Data sCA !!! "tls.crt")).
Proof.
  intros Hcase Hrun.
  destruct (createCertSecret_reissues _ _ _ _ _ _ _ _ _ _ Hcase Hrun)
    as (sCA & sLeaf & tmpl & op & e' & HsCA & Hissued & _ & ->).
  destruct Hissued as (key & caCert & caKey & certBytes & _ & _ & _ & _ & Hca).
  exists sCA, sLeaf. cbn [secrets setSecrets]. rewrite lookup_insert_eq.
  repeat split; try done.
  - rewrite Hca. by apply (firstBlockOf_chain _ seg blk segs).
  - rewrite Hca. destruct (firstBlockOf_chain _ seg blk segs ltac:(done)) as [-> Hne].
    done.
Qed.
End LeafChainFacts.

(** C6 as stated fails on a CA that has been renewed: the chain of the
    server CA holds two certificates, the leaf created from it stores
    the first one only. *)
Lemma C6_leaf_ca_not_whole_chain :
  exists w' sCA sLeaf,
    @createCertSecret Toy.libs Toy.config (Some "mco") false
      "observability-server-certs" true "observability-server-certificate"
      None (Some (literal ["observatorium-api"])) None Toy.twoCAWorld = (Done None, w')
    /\ secrets Toy.twoCAWorld !! "observability-server-ca-certs" = Some sCA
    /\ Data sCA !!! "tls.crt" = Toy.encode Toy.caNew ++ Toy.encode Toy.caOld
    /\ secrets w' !! "observability-server-certs" = Some sLeaf
    /\ Data sLeaf !!! "ca.crt" = Toy.encode Toy.caNew
    /\ Data sLeaf !!! "ca.crt" <> Data sCA !!! "tls.crt".
Proof.
  eexists _, _, _.
  split; [vm_compute; reflexivity|].
  split; [vm_compute; reflexivity|].
  split; [vm_compute; reflexivity|].
  split; [vm_compute; reflexivity|].
  split; [vm_compute; reflexivity|].
  intros Heq. apply (f_equal length) in Heq. vm_compute in Heq. discriminate.
Qed.

(** C6 (amended) on two examples: the leaf created on that namespace,
    and the leaf [Toy.leafA] renewed because it lacks the name of the
    service, without the caller forcing it. *)
Lemma C6_leaf_ca_is_first_block_witness :
  (exists w' sLeaf,
     @createCertSecret Toy.libs Toy.config (Some "mco") false
       "observability-server-certs" true "observability-server-certificate"
       None (Some (literal ["observatorium-api"])) None Toy.twoCAWorld = (Done None, w')
     /\ secrets w' !! "observability-server-certs" = Some sLeaf
     /\ Data sLeaf !!! "ca.crt"
        = @firstBlockOf Toy.libs (Toy.encode Toy.caNew ++ Toy.encode Toy.caOld))
  /\ (exists w' sLeaf,
        @createCertSecret Toy.libs Toy.config (Some "mco") false
          "observability-server-certs" true "observability-server-certificate"
          None (Some (literal ["observatorium-api"])) None Toy.twoCADriftWorld
        = (Done None, w')
        /\ secrets Toy.twoCADriftWorld !! "observability-server-certs" = Some Toy.leafA
        /\ secrets w' !! "observability-server-certs" = Some sLeaf
        /\ Data sLeaf !!! "ca.crt" = Toy.encode Toy.caNew).
Proof.
  split.
  - pose (run := @createCertSecret Toy.libs Toy.config (Some "mco") false
                   "observability-server-certs" true "observability-server-certificate"
                   None (Some (literal ["observatorium-api"])) None Toy.twoCAWorld).
    assert (Hrun : run = (Done None, snd run)) by (vm_compute; reflexivity).
    destruct (@C6_leaf_ca_is_first_block Toy.libs Toy.config (Some "mco") false
                "observability-server-certs" true "observability-server-certificate"
                None (Some (literal ["observatorium-api"])) None Toy.twoCAWorld (snd run))
      as (sCA & sLeaf & HsCA & Hget & Hca & _).
    + vm_compute. exact I.
    + exact Hrun.
    + exists (snd run), sLeaf. split; [exact Hrun|]. split; [exact Hget|].
      rewrite Hca. vm_compute in HsCA. injection HsCA as <-. reflexivity.
  - pose (run := @createCertSecret Toy.libs Toy.config (Some "mco") false
                   "observability-server-certs" true "observability-server-certificate"
                   None (Some (literal ["observatorium-api"])) None Toy.twoCADriftWorld).
    assert (Hrun : run = (Done None, snd run)) by (vm_compute; reflexivity).
    destruct (@C6_leaf_ca_is_first_block Toy.libs Toy.config (Some "mco") false
                "observability-server-certs" true "observability-server-certificate"
                None (Some (literal ["observatorium-api"])) None Toy.twoCADriftWorld
                (snd run))
      as (sCA & sLeaf & HsCA & Hget & Hca & _).
    + vm_compute. reflexivity.
    + exact Hrun.
    + exists (snd run), sLeaf. split; [exact Hrun|].
      split; [vm_compute; reflexivity|]. split; [exact Hget|].
      rewrite Hca. vm_compute in HsCA. injection HsCA as <-.
      vm_compute. reflexivity.
Defined.

(** ** The orchestration pass *)

Section Returning.
Context `{Libraries} `{Config}.

Lemma Returns_ret {A} (a : A) : Returns (ret a).
Proof. intros w. by exists a. Qed.

Lemma Returns_bind {A B} (m : M A) (f : A -> M B) :
  Returns m -> (forall a, Returns (f a)) -> Returns (bind m f).
Proof.
  intros Hm Hf w. unfold bind. destruct (Hm w) as [a Ha].
  destruct (m w) as [r w1]. cbn [fst] in Ha. subst r. apply Hf.
Qed.

Lemma Returns_Get name : Returns (client_Get name).
Proof.
  intros w. unfold client_Get.
  destruct (fault w _); [|destruct (secrets w !! name)]; by eexists.
Qed.

Lemma Returns_Create s : Returns (client_Create s).
Proof.
  intros w. unfold client_Create. cbn [logCall fault secrets].
  destruct (fault w _); [|destruct (secrets w !! SName s)]; by eexists.
Qed.

Lemma Returns_Update s : Returns (client_Update s).
Proof.
  intros w. unfold client_Update. cbn [logCall fault secrets].
  destruct (fault w _); [|destruct (secrets w !! SName s)]; by eexists.
Qed.

Lemma Returns_rand_Int max : Returns (rand_Int max).
Proof. intros w. unfold rand_Int. destruct (entropy w); by eexists. Qed.

Lemma Returns_rsa_GenerateKey : Returns rsa_GenerateKey.
Proof. intros w. unfold rsa_GenerateKey. destruct (entropy w); by eexists. Qed.

Lemma Returns_time_Now : Returns time_Now.
Proof. intros w. by eexists. Qed.
End Returning.

Create HintDb returns.
#[global] Hint Resolve Returns_ret Returns_Get Returns_Create Returns_Update
  Returns_rand_Int Returns_rsa_GenerateKey Returns_time_Now : returns.

Ltac returns :=
  repeat first
    [ solve [auto with returns]
    | apply Returns_bind; [|intros ?]
    | match goal with
      | |- Returns (match ?x with _ => _ end) => destruct x
      end ].

Section PassFacts.
Context `{Libraries} `{Config}.

(** Without renewal the CA manager reads no stored key: it returns. *)
Lemma Returns_createCASecret mco name cn : Returns (createCASecret mco false name cn).
Proof.
  unfold createCASecret, createCACertificate, keyOrFresh, AddBackupLabelToSecretObj.
  cbn [negb]. returns.
Qed.

Lemma createCASecret_step mco name cn w :
  exists e b w1,
    createCASecret mco false name cn w = (Done (e, b), w1)
    /\ touchesOnly [name] w w1.
Proof.
  destruct (Returns_createCASecret mco name cn w) as [[e b] Hret].
  destruct (createCASecret mco false name cn w) as [r w1] eqn:Hrun.
  cbn [fst] in Hret. subst r. exists e, b, w1. split; [done|].
  by apply (Touches_createCASecret _ _ _ _ _ _ _ Hrun).
Qed.

Lemma CreateObservabilityCerts_no_route m w r w' :
  apiHost w = None ->
  CreateObservabilityCerts (Some m) true w = (r, w') ->
  (exists err, r = Done (Some err))
  /\ touchesOnly [ServerCACerts; ClientCACerts] w w'
  /\ (forall u1 w1 u2 w2,
        createCASecret (Some m) false ServerCACerts serverCACertifcateCN w
          = (Done (None, u1), w1) ->
        createCASecret (Some m) false ClientCACerts clientCACertificateCN w1
          = (Done (None, u2), w2) ->
        r = Done (Some ErrHost) /\ w' = w2).
Proof.
  intros Hroute Hrun.
  unfold CreateObservabilityCerts, bind at 1, lift in Hrun. cbn [deref] in Hrun.
  unfold bind at 1 in Hrun.
  destruct (createCASecret_step (Some m) ServerCACerts serverCACertifcateCN w)
    as (e1 & u1 & w1 & H1 & T1).
  rewrite H1 in Hrun.
  apply (touchesOnly_mono _ [ServerCACerts; ClientCACerts]) in T1;
    [|apply singleton_subseteq, list_elem_of_here].
  destruct e1 as [err|].
  { injection Hrun as <- <-. split; [by eexists|]. split; [done|].
    intros ? ? ? ? H1'. congruence. }
  unfold bind at 1 in Hrun.
  destruct (createCASecret_step (Some m) ClientCACerts clientCACertificateCN w1)
    as (e2 & u2 & w2 & H2 & T2).
  rewrite H2 in Hrun.
  apply (touchesOnly_mono _ [ServerCACerts; ClientCACerts]) in T2;
    [|apply singleton_subseteq, list_elem_of_further, list_elem_of_here].
  pose proof (touchesOnly_trans _ _ _ _ T1 T2) as T12.
  destruct e2 as [err|].
  { injection Hrun as <- <-. split; [by eexists|]. split; [done|].
    intros ? ? ? ? H1' H2'. congruence. }
  assert (Hroute2 : apiHost w2 = None).
  { destruct T12 as (_ & _ & _ & Ha & _). congruence. }
  unfold bind at 1, getHosts, bind at 1, GetObsAPIHost in Hrun.
  rewrite Hroute2 in Hrun. injection Hrun as <- <-.
  split; [by eexists|]. split; [done|].
  intros ? ? ? ? H1' H2'. rewrite H1 in H1'. injection H1' as <- <-.
  rewrite H2 in H2'. by injection H2' as <- <-.
Qed.

(** C7 (amended): when host discovery fails the pass returns an
    error and has written no leaf bundle: the only store calls it made
    are on the two CA bundles, which are ensured before the hosts are
    looked up, and every other secret is as before. When both CA steps
    succeed the error is that of host discovery and the world is the
    one the CA steps left. *)
Theorem C7_host_failure_writes_no_leaf m w :
  apiHost w = None ->
  let out := CreateObservabilityCerts (Some m) true w in
  (exists err, fst out = Done (Some err))
  /\ touchesOnly [ServerCACerts; ClientCACerts] w (snd out)
  /\ (forall k, k <> ServerCACerts -> k <> ClientCACerts ->
        secrets (snd out) !! k = secrets w !! k)
  /\ (forall u1 w1 u2 w2,
        createCASecret (Some m) false ServerCACerts serverCACertifcateCN w
          = (Done (None, u1), w1) ->
        createCASecret (Some m) false ClientCACerts clientCACertificateCN w1
          = (Done (None, u2), w2) ->
        out = (Done (Some ErrHost), w2)).
Proof.
  intros Hroute. cbv zeta.
  destruct (CreateObservabilityCerts (Some m) true w) as [r w'] eqn:Hrun.
  destruct (CreateObservabilityCerts_no_route m w r w' Hroute Hrun)
    as (Herr & Htouch & Hsteps).
  cbn [fst snd]. split; [done|]. split; [done|]. split.
  - destruct Htouch as (_ & Hs & _). intros k Hk1 Hk2. apply Hs.
    rewrite !elem_of_cons, elem_of_nil. tauto.
  - intros u1 w1 u2 w2 H1 H2. destruct (Hsteps u1 w1 u2 w2 H1 H2) as [-> ->]. done.
Qed.
End PassFacts.

(** C7 as stated fails in the empty namespace: host discovery fails,
    the pass returns its error, and both CA bundles have been created. *)
Lemma C7_ca_written_before_hosts :
  exists w' sCA cCA,
    apiHost Toy.noRouteWorld = None
    /\ secrets Toy.noRouteWorld = ∅
    /\ @CreateObservabilityCerts Toy.libs Toy.config (Some "mco") true Toy.noRouteWorld
       = (Done (Some ErrHost), w')
    /\ calls w' = [OpCreate "observability-server-ca-certs";
                   OpCreate "observability-client-ca-certs"]
    /\ secrets w' !! "observability-server-ca-certs" = Some sCA
    /\ secrets w' !! "observability-client-ca-certs" = Some cCA.
Proof.
  eexists _, _, _.
  split; [reflexivity|].
  split; [reflexivity|].
  split; [vm_compute; reflexivity|].
  split; [vm_compute; reflexivity|].
  split; vm_compute; reflexivity.
Qed.

(** C7 (amended) on the same example. *)
Lemma C7_host_failure_writes_no_leaf_witness :
  (exists err,
      fst (@CreateObservabilityCerts Toy.libs Toy.config (Some "mco") true
             Toy.noRouteWorld) = Done (Some err))
  /\ secrets (snd (@CreateObservabilityCerts Toy.libs Toy.config (Some "mco") true
                     Toy.noRouteWorld)) !! "observability-server-certs" = None
  /\ secrets (snd (@CreateObservabilityCerts Toy.libs Toy.config (Some "mco") true
                     Toy.noRouteWorld)) !! "observability-grafana-certs" = None.
Proof.
  destruct (@C7_host_failure_writes_no_leaf Toy.libs Toy.config "mco" Toy.noRouteWorld)
    as (Herr & _ & Hframe & _).
  - reflexivity.
  - split; [exact Herr|]. split; rewrite Hframe; done.
Defined.

Section RenewalFlow.
Context `{Libraries} `{Config}.


(** The steps of a pass that completes. *)
Lemma CreateObservabilityCerts_done m ingress w w' :
  CreateObservabilityCerts (Some m) ingress w = (Done None, w') ->
  exists u1 w1 u2 w2 hosts w3,
    createCASecret (Some m) false ServerCACerts serverCACertifcateCN w
      = (Done (None, u1), w1)
    /\ createCASecret (Some m) false ClientCACerts clientCACertificateCN w1
       = (Done (None, u2), w2)
    /\ getHosts ingress w2 = (Done (inl hosts), w2)
    /\ createCertSecret (Some m) u1 ServerCerts true ServerCertCN None (Some hosts) None w2
       = (Done None, w3)
    /\ createCertSecret (Some m) u2 GrafanaCerts false GrafanaCN None None None w3
       = (Done None, w').
Proof.
  intros Hrun.
  unfold CreateObservabilityCerts, bind at 1, lift in Hrun. cbn [deref] in Hrun.
  unfold bind at 1 in Hrun.
  destruct (createCASecret (Some m) false ServerCACerts _ w)
    as [[[[err|] u1]| |] w1] eqn:H1; try run_ends Hrun.
  unfold bind at 1 in Hrun.
  destruct (createCASecret (Some m) false ClientCACerts _ w1)
    as [[[[err|] u2]| |] w2] eqn:H2; try run_ends Hrun.
  unfold bind at 1 in Hrun.
  destruct (getHosts ingress w2) as [[[hosts|err]| |] w2'] eqn:Hh; try run_ends Hrun.
  assert (w2' = w2) as ->.
  { unfold getHosts, bind, GetObsAPIHost, ret in Hh.
    destruct ingress; [destruct (apiHost w2)|]; congruence. }
  unfold bind at 1 in Hrun.
  destruct (createCertSecret (Some m) u1 ServerCerts true _ _ _ _ w2)
    as [[[err|]| |] w3] eqn:H3; try run_ends Hrun.
  by exists u1, w1, u2, w2, hosts, w3.
Qed.

Lemma four_distinct (a b c d : string) :
  NoDup [a; b; c; d] -> a <> b /\ a <> c /\ a <> d /\ b <> c /\ b <> d /\ c <> d.
Proof.
  intros Hnd.
  apply NoDup_cons in Hnd as [Ha Hnd].
  apply NoDup_cons in Hnd as [Hb Hnd].
  apply NoDup_cons in Hnd as [Hc _].
  apply not_elem_of_cons in Ha as [? Ha]. apply not_elem_of_cons in Ha as [? Ha].
  apply not_elem_of_cons in Ha as [? _].
  apply not_elem_of_cons in Hb as [? Hb]. apply not_elem_of_cons in Hb as [? _].
  apply not_elem_of_cons in Hc as [? _].
  done.
Qed.

Lemma touchesOnly_lookup names w w1 k :
  touchesOnly names w w1 -> k ∉ names -> secrets w1 !! k = secrets w !! k.
Proof. intros (_ & Hs & _) Hk. by apply Hs. Qed.


End RenewalFlow.



(** ** Keys on renewal *)

Section KeyFacts.
Context `{Libraries} `{Config}.

Lemma createCACertificate_run cn caKey w x e key e' certBytes :
  entropy w = x :: e ->
  match caKey with
  | Some k => key = k /\ e' = e
  | None => e = key :: e'
  end ->
  (let ca := caTemplate cn (x mod serialNumberLimit) (now w) (now w) in
   x509_CreateCertificate ca ca key key = inl certBytes) ->
  createCACertificate cn caKey w
  = (Done (inl (x509_MarshalPKCS1PrivateKey key, certBytes)), setEntropy w e').
Proof.
  intros He Hkey Hsign. cbv zeta in Hsign.
  unfold createCACertificate, bind, rand_Int, time_Now, keyOrFresh, rsa_GenerateKey, ret.
  rewrite He. cbn [now setEntropy entropy].
  destruct caKey as [k|].
  - destruct Hkey as [-> ->]. by rewrite Hsign.
  - rewrite Hkey. cbn [entropy setEntropy]. by rewrite Hsign.
Qed.

(** What a CA renewal does with the stored key, once the key is a PEM
    block: a key that parses is used again, one that does not parse is
    replaced by a key generated from the random source; either way the
    certificate is self-signed with the key that is stored beside it. *)
Theorem X1_ca_renewal_key mco name cn w s blk rest x e key e' certBytes :
  secrets w !! name = Some s ->
  fault w (OpGet name) = false ->
  fault w (OpUpdate name) = false ->
  pem_Decode (Data s !!! "tls.key") = (Some blk, rest) ->
  entropy w = x :: e ->
  match x509_ParsePKCS1PrivateKey (Bytes blk) with
  | Some k => key = k /\ e' = e
  | None => e = key :: e'
  end ->
  (let ca := caTemplate cn (x mod serialNumberLimit) (now w) (now w) in
   x509_CreateCertificate ca ca key key = inl certBytes) ->
  exists w' s',
    createCASecret mco true name cn w = (Done (None, true), w')
    /\ secrets w' !! name = Some s'
    /\ Data s' !!! "tls.key"
       = pem_Encode (mkBlock "RSA PRIVATE KEY" (x509_MarshalPKCS1PrivateKey key))
    /\ Data s' !!! "ca.crt" = pem_Encode (mkBlock "CERTIFICATE" certBytes)
    /\ entropy w' = e'.
Proof.
  intros Hget Hfg Hfu Hdec He Hkey Hsign.
  unfold createCASecret, bind at 1, client_Get. rewrite Hfg, Hget.
  cbn [negb Data]. rewrite Hdec.
  unfold bind at 1, lift. cbn [deref]. unfold bind at 1.
  rewrite (createCACertificate_run cn _ w x e key e' certBytes He Hkey Hsign).
  unfold pemEncode, bind, client_Update, withData, ret.
  cbn [SName logCall setEntropy fault secrets Data Labels Owner].
  rewrite Hfu, Hget.
  eexists _, _. split; [reflexivity|]. cbn [secrets setSecrets entropy].
  rewrite lookup_insert_eq. split; [reflexivity|]. cbn [Data].
  repeat split; by data_entry.
Qed.

(** Every leaf certificate that is issued has a serial number in
    [[0, 2^128)], the DNS names of C1, and the extended key usage of
    its role with the key usages digital signature and key
    encipherment. *)
Theorem X2_issued_leaf_fields isServer cn ou dns ips caCert caKey key w keyBytes certBytes w1 :
  createCertificate isServer cn ou dns ips caCert caKey key w
    = (Done (inl (keyBytes, certBytes)), w1) ->
  exists tmpl k,
    x509_CreateCertificate tmpl caCert k caKey = inl certBytes
    /\ keyBytes = x509_MarshalPKCS1PrivateKey k
    /\ 0 <= SerialNumber tmpl < 2 ^ 128
    /\ ExtKeyUsage tmpl
       = (if isServer then [ExtKeyUsageServerAuth] else [ExtKeyUsageClientAuth])
    /\ KeyUsage tmpl = 5
    /\ IsCA tmpl = false
    /\ CommonName (Subject tmpl) = cn.
Proof.
  intros Hrun.
  destruct (createCertificate_done _ _ _ _ _ _ _ _ _ _ _ _ Hrun)
    as (x & e & tmpl & k & He & Htmpl & Hsign & -> & _).
  exists tmpl, k. split; [done|]. split; [done|].
  unfold leafTemplate in Htmpl.
  destruct (leafDNSNames cn dns) as [names| |]; cbn [rbind] in Htmpl; [|done..].
  injection Htmpl as <-. cbn.
  split; [apply Z.mod_pos_bound; reflexivity|].
  split; [by destruct isServer|].
  repeat split; lia.
Qed.

(** A present bundle that is not the server leaf is never checked
    against the required names: without forced renewal it is only
    labelled, whatever names are required. *)
Theorem X3_drift_check_server_only mco name isServer cn ou dns ips w s :
  name <> ServerCerts ->
  secrets w !! name = Some s ->
  fault w (OpGet name) = false ->
  createCertSecret mco false name isServer cn ou dns ips w
  = AddBackupLabelToSecretObj (mkSecret name (Labels s) (Owner s) (Data s)) w.
Proof.
  intros Hname Hget Hfg.
  apply createCertSecret_keeps; [done..|].
  unfold driftCheck. cbn [SName]. by rewrite bool_decide_eq_false_2.
Qed.
End KeyFacts.

(** X1 on an example: the stored key is a PEM block that holds no
    key, and the renewal stores the key 12 that the random source
    yields after the serial number 11. *)
Lemma X1_ca_renewal_key_witness :
  exists w' s',
    @createCASecret Toy.libs Toy.config (Some "mco") true
      "observability-server-ca-certs" "observability-server-ca-certificate"
      Toy.caBadKeyWorld = (Done (None, true), w')
    /\ secrets w' !! "observability-server-ca-certs" = Some s'
    /\ Data s' !!! "tls.key" = Toy.encode (Toy.keyBlock 12).
Proof.
  edestruct (@X1_ca_renewal_key Toy.libs Toy.config (Some "mco")
               "observability-server-ca-certs" "observability-server-ca-certificate"
               Toy.caBadKeyWorld Toy.caBadKey
               (mkBlock "RSA PRIVATE KEY" []) [] 11 [12; 13; 14; 15; 16; 17; 18]
               12 [13; 14; 15; 16; 17; 18])
    as (w' & s' & Hrun & Hget & Hkey & _).
  - vm_compute. reflexivity.
  - reflexivity.
  - reflexivity.
  - vm_compute. reflexivity.
  - reflexivity.
  - vm_compute. reflexivity.
  - vm_compute. reflexivity.
  - exists w', s'. split; [exact Hrun|]. split; [exact Hget|]. exact Hkey.
Defined.

(** X2 on the example of C1. *)
Lemma X2_issued_leaf_fields_witness :
  exists tmpl,
    0 <= SerialNumber tmpl < 2 ^ 128
    /\ ExtKeyUsage tmpl = [ExtKeyUsageServerAuth]
    /\ CommonName (Subject tmpl) = "server-cn".
Proof.
  destruct (@createCertificate Toy.libs Toy.config true "server-cn" None
              (Some (literal ["host1"])) None
              (@caTemplate Toy.config "ca" 1 0 0) 7 None Toy.emptyWorld)
    as [[[[keyBytes certBytes]|err]| |] w1] eqn:Hrun;
    try (vm_compute in Hrun; discriminate Hrun).
  destruct (@X2_issued_leaf_fields Toy.libs Toy.config true "server-cn" None
              (Some (literal ["host1"])) None
              (@caTemplate Toy.config "ca" 1 0 0) 7 None Toy.emptyWorld
              keyBytes certBytes w1 Hrun)
    as (tmpl & k & _ & _ & Hsn & Heku & _ & _ & Hcn).
  exists tmpl. split; [exact Hsn|]. split; [exact Heku|exact Hcn].
Defined.

(** X3 on an example: the grafana leaf is left alone although a name
    it does not carry is required. *)
Lemma X3_drift_check_server_only_witness :
  @createCertSecret Toy.libs Toy.config (Some "mco") false
    "observability-grafana-certs" false "grafana" None (Some (literal ["b"])) None
    Toy.grafanaWorld
  = (Done None, Toy.grafanaWorld).
Proof.
  rewrite (@X3_drift_check_server_only Toy.libs Toy.config (Some "mco")
             "observability-grafana-certs" false "grafana" None
             (Some (literal ["b"])) None Toy.grafanaWorld Toy.grafanaLeaf).
  - vm_compute. reflexivity.
  - discriminate.
  - vm_compute. reflexivity.
  - reflexivity.
Defined.

(** ** Issued certificates and the names of the server leaf *)

Section IssuedFacts.
Context `{Libraries} `{Config}.

(** Every CA certificate that is issued is self-signed from a template
    with a serial number in [[0, 2^128)], [IsCA] and valid basic
    constraints, the key usages digital signature, key encipherment
    and certificate sign, the given common name and no DNS names. *)
Theorem X4_issued_ca_fields cn caKey w keyBytes certBytes w1 :
  createCACertificate cn caKey w = (Done (inl (keyBytes, certBytes)), w1) ->
  exists ca key,
    x509_CreateCertificate ca ca key key = inl certBytes
    /\ keyBytes = x509_MarshalPKCS1PrivateKey key
    /\ 0 <= SerialNumber ca < 2 ^ 128
    /\ IsCA ca = true
    /\ BasicConstraintsValid ca = true
    /\ KeyUsage ca = 37
    /\ CommonName (Subject ca) = cn
    /\ DNSNames ca = [].
Proof.
  unfold createCACertificate, bind, rand_Int, time_Now, keyOrFresh, rsa_GenerateKey, ret.
  destruct (entropy w) as [|x e] eqn:He; [discriminate|].
  assert (Hrange : 0 <= x mod serialNumberLimit < 2 ^ 128)
    by (apply Z.mod_pos_bound; reflexivity).
  destruct caKey as [k|]; cbn [entropy setEntropy now].
  - destruct (x509_CreateCertificate _ _ _ _) as [bs|] eqn:Hsign; intros [= <- <- <-].
    eexists _, k. split; [exact Hsign|]. split; [done|].
    cbn [caTemplate SerialNumber IsCA BasicConstraintsValid KeyUsage NotAfter
         NotBefore Subject CommonName DNSNames].
    repeat split; try done; lia.
  - destruct e as [|y e']; [discriminate|].
    destruct (x509_CreateCertificate _ _ _ _) as [bs|] eqn:Hsign; intros [= <- <- <-].
    eexists _, y. split; [exact Hsign|]. split; [done|].
    cbn [caTemplate SerialNumber IsCA BasicConstraintsValid KeyUsage NotAfter
         NotBefore Subject CommonName DNSNames].
    repeat split; try done; lia.
Qed.

(** The hosts of a pass: the internal service name first, then the
    route host when the ingress controller is there. *)
Lemma getHosts_done ingress w hosts w' :
  getHosts ingress w = (Done (inl hosts), w') ->
  wf hosts /\ (1 <= len hosts)%nat
  /\ elems hosts
     = GetObsAPISvc :: (if ingress then option_list (apiHost w) else []).
Proof.
  unfold getHosts, bind, GetObsAPIHost, ret.
  destruct ingress; [destruct (apiHost w) as [url|]|]; intros [= <- <-].
  - split; [apply wf_append, wf_literal|].
    rewrite len_append, elems_append by apply wf_literal.
    rewrite elems_literal. cbn [literal len length option_list]. split; [lia|done].
  - split; [apply wf_literal|]. rewrite elems_literal.
    cbn [literal len length]. split; [lia|done].
Qed.

(** In a pass that completes on a namespace without a server leaf,
    the server leaf the pass leaves behind is signed by the server CA
    bundle the pass leaves behind, and the DNS names of its
    certificate are the server common name, the internal service name
    and, when the ingress controller is there, the route host, in this
    order. *)
Theorem X5_pass_server_leaf_names m ingress w w' :
  NoDup [ServerCACerts; ClientCACerts; ServerCerts; GrafanaCerts] ->
  secrets w !! ServerCerts = None ->
  CreateObservabilityCerts (Some m) ingress w = (Done None, w') ->
  exists sCA sLeaf tmpl,
    secrets w' !! ServerCACerts = Some sCA
    /\ secrets w' !! ServerCerts = Some sLeaf
    /\ issuedWith sCA sLeaf tmpl
    /\ DNSNames tmpl
       = ServerCertCN :: GetObsAPISvc
           :: (if ingress then option_list (apiHost w) else []).
Proof.
  intros Hnames Hleaf Hrun.
  destruct (four_distinct _ _ _ _ Hnames) as (Hsc & Hsl & Hsg & Hcl & Hcg & Hlg).
  destruct (CreateObservabilityCerts_done _ _ _ _ Hrun)
    as (u1 & w1 & u2 & w2 & hosts & w3 & H1 & H2 & Hh & H3 & H4).
  pose proof (Touches_createCASecret _ _ _ _ _ _ _ H1) as T1.
  pose proof (Touches_createCASecret _ _ _ _ _ _ _ H2) as T2.
  pose proof (Touches_createCertSecret _ _ _ _ _ _ _ _ _ _ _ H4) as T4.
  destruct (getHosts_done _ _ _ _ Hh) as (Hwf & Hlen & Hel).
  assert (Hroute : apiHost w2 = apiHost w).
  { destruct T1 as (_ & _ & _ & R1 & _), T2 as (_ & _ & _ & R2 & _). congruence. }
  assert (Hleaf2 : secrets w2 !! ServerCerts = None).
  { rewrite (touchesOnly_lookup _ _ _ _ T2), (touchesOnly_lookup _ _ _ _ T1);
      [done|rewrite list_elem_of_singleton; congruence..]. }
  destruct (createCertSecret_creates _ _ _ _ _ _ _ _ _ _ Hleaf2 H3)
    as (sCA & sLeaf & x & e & e' & tmpl & HsCA & _ & Htmpl & Hissued & Hw3).
  destruct (leafTemplate_done _ _ _ _ _ _ _ _ _ Htmpl) as [_ Hdns].
  specialize (Hdns (conj Hwf Hlen)). cbn [rangeOf] in Hdns.
  cbn [caNameOf] in HsCA.
  exists sCA, sLeaf, tmpl.
  rewrite !(touchesOnly_lookup _ _ _ _ T4)
    by (rewrite list_elem_of_singleton; congruence).
  rewrite Hw3. cbn [secrets setSecrets].
  rewrite lookup_insert_ne, lookup_insert_eq by congruence.
  rewrite Hdns, Hel, Hroute. done.
Qed.
End IssuedFacts.

(** X4 on an example: the CA certificate made on the empty
    namespace. *)
Lemma X4_issued_ca_fields_witness :
  exists ca,
    0 <= SerialNumber ca < 2 ^ 128
    /\ KeyUsage ca = 37
    /\ IsCA ca = true
    /\ CommonName (Subject ca) = "observability-server-ca-certificate".
Proof.
  destruct (@createCACertificate Toy.libs Toy.config
              "observability-server-ca-certificate" None Toy.emptyWorld)
    as [[[[keyBytes certBytes]|err]| |] w1] eqn:Hrun;
    try (vm_compute in Hrun; discriminate Hrun).
  destruct (@X4_issued_ca_fields Toy.libs Toy.config
              "observability-server-ca-certificate" None Toy.emptyWorld
              keyBytes certBytes w1 Hrun)
    as (ca & key & _ & _ & Hsn & Hca & _ & Hku & Hcn & _).
  exists ca. split; [exact Hsn|]. split; [exact Hku|]. split; [exact Hca|exact Hcn].
Defined.

(** X5 on an example: a pass on the empty namespace with a route. *)
Lemma X5_pass_server_leaf_names_witness :
  exists w' sCA sLeaf tmpl,
    @CreateObservabilityCerts Toy.libs Toy.config (Some "mco") true Toy.emptyWorld
      = (Done None, w')
    /\ secrets w' !! "observability-server-certs" = Some sLeaf
    /\ @issuedWith Toy.libs sCA sLeaf tmpl
    /\ DNSNames tmpl
       = ["observability-server-certificate"; "observatorium-api"; "api.example.com"].
Proof.
  pose (run := @CreateObservabilityCerts Toy.libs Toy.config (Some "mco") true
                 Toy.emptyWorld).
  assert (Hrun : run = (Done None, snd run)) by (vm_compute; reflexivity).
  destruct (@X5_pass_server_leaf_names Toy.libs Toy.config "mco" true
              Toy.emptyWorld (snd run))
    as (sCA & sLeaf & tmpl & _ & Hleaf & Hissued & Hdns).
  - decided.
  - reflexivity.
  - exact Hrun.
  - exists (snd run), sCA, sLeaf, tmpl. split; [exact Hrun|]. split; [exact Hleaf|].
    split; [exact Hissued|exact Hdns].
Defined.

(** * Further properties of package [certificates] *)

(** ** Failing steps *)

Section FailingSteps.
Context `{Libraries} `{Config}.

Lemma client_Create_failed s w err w' :
  client_Create s w = (Done (Some err), w') -> secrets w' = secrets w.
Proof.
  unfold client_Create. cbn [logCall fault secrets].
  destruct (fault w _); [by intros [= <- <-]|].
  destruct (secrets w !! SName s); by intros [= <- <-].
Qed.

Lemma client_Update_failed s w err w' :
  client_Update s w = (Done (Some err), w') -> secrets w' = secrets w.
Proof.
  unfold client_Update. cbn [logCall fault secrets].
  destruct (fault w _); [by intros [= <- <-]|].
  destruct (secrets w !! SName s); by intros [= <- <-].
Qed.

Lemma AddBackupLabelToSecretObj_failed s w err w' :
  AddBackupLabelToSecretObj s w = (Done (Some err), w') -> secrets w' = secrets w.
Proof.
  unfold AddBackupLabelToSecretObj.
  destruct (Labels s !! BackupLabelName); [by intros [= <- <-]|].
  apply client_Update_failed.
Qed.

Lemma createCASecret_failed mco isRenew name cn w err b w' :
  createCASecret mco isRenew name cn w = (Done (Some err, b), w') ->
  b = false /\ secrets w' = secrets w.
Proof.
  intros Hrun. unfold createCASecret, bind at 1, client_Get in Hrun.
  destruct (fault w (OpGet name)); [by injection Hrun as <- <- <-|].
  destruct (secrets w !! name) as [s|].
  - destruct isRenew; cbn [negb Data] in Hrun.
    + destruct (pem_Decode (Data s !!! "tls.key")) as [[blk|] restKey];
        unfold bind at 1, lift in Hrun; cbn [deref] in Hrun; [|discriminate].
      unfold bind at 1 in Hrun.
      destruct (createCACertificate cn _ w) as [[[[key cert]|err']| |] w0] eqn:Hca;
        try discriminate.
      * destruct (createCACertificate_world _ _ _ _ _ Hca) as [e ->].
        unfold pemEncode, bind in Hrun.
        destruct (client_Update _ _) as [[[err'|]| |] w1] eqn:Hup; try discriminate.
        injection Hrun as <- <- <-. split; [done|].
        by rewrite (client_Update_failed _ _ _ _ Hup).
      * destruct (createCACertificate_world _ _ _ _ _ Hca) as [e ->].
        by injection Hrun as <- <- <-.
    + unfold bind in Hrun.
      destruct (AddBackupLabelToSecretObj _ w) as [[[err'|]| |] w1] eqn:Hlabel;
        try discriminate.
      injection Hrun as <- <- <-. split; [done|].
      by apply (AddBackupLabelToSecretObj_failed _ _ _ _ Hlabel).
  - cbn [negb IsNotFound] in Hrun. unfold bind at 1 in Hrun.
    destruct (createCACertificate cn None w) as [[[[key cert]|err']| |] w0] eqn:Hca;
      try discriminate.
    + destruct (createCACertificate_world _ _ _ _ _ Hca) as [e ->].
      unfold pemEncode in Hrun.
      destruct (ownedBy mco _) as [s1|err']; [|by injection Hrun as <- <- <-].
      unfold bind in Hrun.
      destruct (client_Create _ _) as [[[err'|]| |] w1] eqn:Hcr; try discriminate.
      injection Hrun as <- <- <-. split; [done|].
      by rewrite (client_Create_failed _ _ _ _ Hcr).
    + destruct (createCACertificate_world _ _ _ _ _ Hca) as [e ->].
      by injection Hrun as <- <- <-.
Qed.

Lemma createCertSecret_failed mco isRenew name isServer cn ou dns ips w err w' :
  createCertSecret mco isRenew name isServer cn ou dns ips w = (Done (Some err), w') ->
  secrets w' = secrets w.
Proof.
  intros Hrun. unfold createCertSecret, bind at 1, client_Get in Hrun.
  destruct (fault w (OpGet name)); [by injection Hrun as <- <-|].
  destruct (secrets w !! name) as [s|].
  - unfold bind at 1, lift in Hrun.
    destruct (driftCheck _ dns isRenew) as [[|]| |]; try discriminate; cbn [negb] in Hrun.
    + unfold bind at 1 in Hrun.
      destruct (getCA isServer w) as [[[[[caCert caKey] caBytes]|err']| |] w0] eqn:Hca;
        try discriminate; pose proof (getCA_world _ _ _ _ Hca) as ->;
        [|by injection Hrun as <- <-].
      cbn [Data] in Hrun.
      destruct (pem_Decode (Data s !!! "tls.key")) as [[blk|] restKey];
        unfold bind at 1, lift in Hrun; cbn [deref] in Hrun; [|discriminate].
      unfold bind at 1 in Hrun.
      destruct (createCertificate _ _ _ _ _ _ _ _ w) as [[[[key cert]|err']| |] w0] eqn:Hcrt;
        try discriminate;
        destruct (createCertificate_world _ _ _ _ _ _ _ _ _ _ _ Hcrt) as [e ->];
        [|by injection Hrun as <- <-].
      unfold pemEncode in Hrun.
      by rewrite (client_Update_failed _ _ _ _ Hrun).
    + by apply (AddBackupLabelToSecretObj_failed _ _ _ _ Hrun).
  - cbn [negb IsNotFound] in Hrun. unfold bind at 1 in Hrun.
    destruct (getCA isServer w) as [[[[[caCert caKey] caBytes]|err']| |] w0] eqn:Hca;
      try discriminate; pose proof (getCA_world _ _ _ _ Hca) as ->;
      [|by injection Hrun as <- <-].
    unfold bind at 1 in Hrun.
    destruct (createCertificate _ _ _ _ _ _ _ _ w) as [[[[key cert]|err']| |] w0] eqn:Hcrt;
      try discriminate;
      destruct (createCertificate_world _ _ _ _ _ _ _ _ _ _ _ Hcrt) as [e ->];
      [|by injection Hrun as <- <-].
    unfold pemEncode in Hrun.
    destruct (ownedBy mco _) as [s1|err']; [|by injection Hrun as <- <-].
    by rewrite (client_Create_failed _ _ _ _ Hrun).
Qed.
End FailingSteps.

Section FailedSteps.
Context `{Libraries} `{Config}.

(** A step that returns an error has written no secret: the CA
    manager then reports [wasModified = false] and the namespace holds
    what it held, and so for the leaf manager. *)
Theorem X6_failed_step_writes_nothing :
  (forall mco isRenew name cn w err b w',
      createCASecret mco isRenew name cn w = (Done (Some err, b), w') ->
      b = false /\ secrets w' = secrets w)
  /\ (forall mco isRenew name isServer cn ou dns ips w err w',
        createCertSecret mco isRenew name isServer cn ou dns ips w = (Done (Some err), w') ->
        secrets w' = secrets w).
Proof.
  split.
  - intros *. apply createCASecret_failed.
  - intros *. apply createCertSecret_failed.
Qed.

(** Pruning a chain whose first block is followed by bytes that hold
    no PEM block panics on [block.Bytes], and so does pruning a chain
    that holds no block at all; a later block that parses to no
    certificate makes [certs[0]] panic. Nothing is written. *)
Theorem X7_prune_panics_on_stray_bytes name w s pre rest b :
  secrets w !! name = Some s ->
  fault w (OpGet name) = false ->
  Data s !!! "tls.crt" = pre ++ rest ->
  pem_Decode (pre ++ rest) = (b, rest) ->
  rest <> [] ->
  match pem_Decode rest with
  | (None, _) => removeExpiredCA name w = (Panicked nilDeref, w)
  | (Some blk, _) =>
      x509_ParseCertificates (Bytes blk) = Some [] ->
      removeExpiredCA name w = (Panicked outOfRange, w)
  end.
Proof.
  intros Hget Hfg Hdata Hdec Hrest.
  assert (Hne : Data s <> ∅).
  { intros Hempty. rewrite Hempty, lookup_total_empty in Hdata.
    destruct pre; [|done]. by destruct rest. }
  assert (Hprune : forall r,
    pruneLoop (length (pre ++ rest)) (now w) (length (pre ++ rest))
      (mkPrune (pre ++ rest)
         (Slice (pre ++ rest) (length (pre ++ rest) - length rest)) true)
      (length rest) = r ->
    removeExpiredCA name w
    = match r with
      | Done st' =>
          (chain <- lift (Done (kept st'));;
           if negb (length (pre ++ rest) =? len chain)%nat then
             _ <- client_Update
                    (withData (mkSecret name (Labels s) (Owner s) (Data s))
                       (<["tls.crt" := elems chain]> (Data s)));;
             ret tt
           else ret tt) w
      | Panicked msg => (Panicked msg, w)
      | Spinning => (Spinning, w)
      end).
  { intros r Hr. unfold removeExpiredCA, bind at 1, client_Get. rewrite Hfg, Hget.
    cbn [Data]. rewrite bool_decide_eq_false_2 by done.
    unfold bind at 1, time_Now. unfold bind at 1, lift.
    unfold pruneChain. rewrite Hdata, elems_literal, Hdec. cbn [literal len arr].
    assert (Hpos : (0 <? length rest)%nat = true) by (by destruct rest).
    rewrite Hpos, Hr. by destruct r. }
  assert (Hview : drop (length (pre ++ rest) - length rest)
                    (take (length (pre ++ rest)) (pre ++ rest)) = rest).
  { rewrite firstn_all, length_app.
    replace (length pre + length rest - length rest)%nat with (length pre) by lia.
    apply drop_app_length. }
  destruct (pem_Decode rest) as [[blk|] rest'] eqn:Hnext.
  - intros Hparse. rewrite (Hprune (Panicked outOfRange)); [done|].
    destruct (length (pre ++ rest)) as [|n] eqn:Hlen.
    { rewrite length_app in Hlen. destruct rest; [done|]. cbn [length] in Hlen. lia. }
    cbn [pruneLoop dataArr]. rewrite Hview, Hnext. cbn [deref rbind]. unfold removeFlagOf. by rewrite Hparse.
  - rewrite (Hprune (Panicked nilDeref)); [done|].
    destruct (length (pre ++ rest)) as [|n] eqn:Hlen.
    { rewrite length_app in Hlen. destruct rest; [done|]. cbn [length] in Hlen. lia. }
    cbn [pruneLoop dataArr]. by rewrite Hview, Hnext.
Qed.

(** Whatever a pass does, it writes only the four bundles it manages:
    every [Create] and [Update] it issues names one of them, every
    other secret of the namespace is as it was, and so are the route
    and the clock. *)
Theorem X8_pass_writes_four_bundles mco ingress :
  Touches [ServerCACerts; ClientCACerts; ServerCerts; GrafanaCerts]
    (CreateObservabilityCerts mco ingress).
Proof.
  unfold CreateObservabilityCerts.
  apply Touches_bind; [touches|]. intros _.
  apply Touches_bind.
  { eapply Touches_mono; [|apply Touches_createCASecret].
    apply singleton_subseteq, list_elem_of_here. }
  intros [[err|] u1]; [touches|].
  apply Touches_bind.
  { eapply Touches_mono; [|apply Touches_createCASecret].
    apply singleton_subseteq, list_elem_of_further, list_elem_of_here. }
  intros [[err|] u2]; [touches|].
  apply Touches_bind; [apply Touches_getHosts|].
  intros [hosts|err]; [|touches].
  apply Touches_bind.
  { eapply Touches_mono; [|apply Touches_createCertSecret].
    apply singleton_subseteq. do 2 apply list_elem_of_further. apply list_elem_of_here. }
  intros [err|]; [touches|].
  eapply Touches_mono; [|apply Touches_createCertSecret].
  apply singleton_subseteq. do 3 apply list_elem_of_further. apply list_elem_of_here.
Qed.
End FailedSteps.

(** X6 on an example: the store refuses the [Create] of the server
    CA bundle. *)
Lemma X6_failed_step_writes_nothing_witness :
  exists w',
    @createCASecret Toy.libs Toy.config (Some "mco") false
      "observability-server-ca-certs" "observability-server-ca-certificate"
      Cases.readOnlyWorld = (Done (Some ErrAPI, false), w')
    /\ secrets w' = ∅.
Proof.
  pose (run := @createCASecret Toy.libs Toy.config (Some "mco") false
                 "observability-server-ca-certs" "observability-server-ca-certificate"
                 Cases.readOnlyWorld).
  assert (Hrun : run = (Done (Some ErrAPI, false), snd run)) by (vm_compute; reflexivity).
  destruct (@X6_failed_step_writes_nothing Toy.libs Toy.config) as [Hca _].
  destruct (Hca (Some "mco") false "observability-server-ca-certs"
              "observability-server-ca-certificate" Cases.readOnlyWorld ErrAPI false
              (snd run) Hrun) as [_ Hsame].
  exists (snd run). split; [exact Hrun|]. rewrite Hsame. reflexivity.
Defined.

(** X7 on two examples: a line feed after the certificate, and a
    second block without bytes. *)
Lemma X7_prune_panics_on_stray_bytes_witness :
  @removeExpiredCA Toy.libs "observability-server-ca-certs" Cases.trailingWorld
    = (Panicked nilDeref, Cases.trailingWorld)
  /\ @removeExpiredCA Toy.libs "observability-server-ca-certs" Cases.hollowWorld
     = (Panicked outOfRange, Cases.hollowWorld).
Proof.
  split.
  - refine (@X7_prune_panics_on_stray_bytes Toy.libs "observability-server-ca-certs"
              Cases.trailingWorld
              (Toy.serverCA (Toy.encode Toy.caNew ++ [Byte.x0a]))
              (Toy.encode Toy.caNew) [Byte.x0a] (Some Toy.caNew) _ _ _ _ _).
    + vm_compute. reflexivity.
    + reflexivity.
    + vm_compute. reflexivity.
    + vm_compute. reflexivity.
    + discriminate.
  - refine (@X7_prune_panics_on_stray_bytes Toy.libs "observability-server-ca-certs"
              Cases.hollowWorld
              (Toy.serverCA (Toy.encode Toy.caNew
                               ++ Toy.encode (mkBlock "CERTIFICATE" [])))
              (Toy.encode Toy.caNew) (Toy.encode (mkBlock "CERTIFICATE" []))
              (Some Toy.caNew) _ _ _ _ _ _).
    + vm_compute. reflexivity.
    + reflexivity.
    + vm_compute. reflexivity.
    + vm_compute. reflexivity.
    + discriminate.
    + reflexivity.
Defined.

(** X8 on an example: the pass on the empty namespace. *)
Lemma X8_pass_writes_four_bundles_witness :
  touchesOnly
    ["observability-server-ca-certs"; "observability-client-ca-certs";
     "observability-server-certs"; "observability-grafana-certs"]
    Toy.emptyWorld
    (snd (@CreateObservabilityCerts Toy.libs Toy.config (Some "mco") true Toy.emptyWorld)).
Proof.
  exact (@X8_pass_writes_four_bundles Toy.libs Toy.config (Some "mco") true
           Toy.emptyWorld _ _ (surjective_pairing _)).
Defined.

(** ** A namespace that is settled *)

Section SettledPass.
Context `{Libraries} `{Config}.

Lemma createCASecret_settled mco name cn w s :
  secrets w !! name = Some s ->
  fault w (OpGet name) = false ->
  is_Some (Labels s !! BackupLabelName) ->
  createCASecret mco false name cn w = (Done (None, false), w).
Proof.
  intros Hget Hfg [l Hl].
  unfold createCASecret, bind at 1, client_Get. rewrite Hfg, Hget. cbn [negb].
  unfold bind, AddBackupLabelToSecretObj. cbn [Labels]. by rewrite Hl.
Qed.

Lemma createCertSecret_settled mco name isServer cn ou dns ips w s :
  secrets w !! name = Some s ->
  fault w (OpGet name) = false ->
  is_Some (Labels s !! BackupLabelName) ->
  driftCheck (mkSecret name (Labels s) (Owner s) (Data s)) dns false = Done false ->
  createCertSecret mco false name isServer cn ou dns ips w = (Done None, w).
Proof.
  intros Hget Hfg [l Hl] Hdrift.
  rewrite (createCertSecret_keeps _ _ _ _ _ _ _ _ _ _ Hget Hfg Hdrift).
  unfold AddBackupLabelToSecretObj. cbn [Labels]. by rewrite Hl.
Qed.

Lemma CreateObservabilityCerts_settled m ingress w sCA cCA sL gL :
  ServerCerts <> GrafanaCerts ->
  secrets w !! ServerCACerts = Some sCA ->
  secrets w !! ClientCACerts = Some cCA ->
  secrets w !! ServerCerts = Some sL ->
  secrets w !! GrafanaCerts = Some gL ->
  Forall (fun s => is_Some (Labels s !! BackupLabelName)) [sCA; cCA; sL; gL] ->
  Forall (fun n => fault w (OpGet n) = false)
    [ServerCACerts; ClientCACerts; ServerCerts; GrafanaCerts] ->
  (ingress = true -> is_Some (apiHost w)) ->
  match pem_Decode (Data sL !!! "tls.crt") with
  | (Some blk, _) =>
      exists crt,
        x509_ParseCertificate (Bytes blk) = Some crt
        /\ covers crt (GetObsAPISvc :: (if ingress then option_list (apiHost w) else []))
  | (None, _) => True
  end ->
  CreateObservabilityCerts (Some m) ingress w = (Done None, w).
Proof.
  intros Hne HsCA HcCA HsL HgL Hlabels Hfaults Hroute Hcrt.
  apply Forall_cons in Hlabels as [L1 Hlabels]. apply Forall_cons in Hlabels as [L2 Hlabels].
  apply Forall_cons in Hlabels as [L3 Hlabels]. apply Forall_cons in Hlabels as [L4 _].
  apply Forall_cons in Hfaults as [F1 Hfaults]. apply Forall_cons in Hfaults as [F2 Hfaults].
  apply Forall_cons in Hfaults as [F3 Hfaults]. apply Forall_cons in Hfaults as [F4 _].
  unfold CreateObservabilityCerts, bind at 1, lift. cbn [deref].
  unfold bind at 1. rewrite (createCASecret_settled _ _ _ _ _ HsCA F1 L1).
  unfold bind at 1. rewrite (createCASecret_settled _ _ _ _ _ HcCA F2 L2).
  unfold bind at 1.
  destruct (getHosts ingress w) as [[[hosts|err]| |] w0] eqn:Hh.
  2-4: unfold getHosts, bind, GetObsAPIHost, ret in Hh;
       destruct ingress; [destruct (Hroute eq_refl) as [url Hurl]; rewrite Hurl in Hh|];
       discriminate.
  assert (w0 = w) as ->.
  { unfold getHosts, bind, GetObsAPIHost, ret in Hh.
    destruct ingress; [destruct (apiHost w)|]; congruence. }
  destruct (getHosts_done _ _ _ _ Hh) as (Hwf & Hlen & Hel).
  unfold bind at 1.
  rewrite (createCertSecret_settled _ _ _ _ _ (Some hosts) _ _ _ HsL F3 L3).
  - rewrite (createCertSecret_settled _ _ _ _ _ None _ _ _ HgL F4 L4); [done|].
    unfold driftCheck. cbn [SName]. by rewrite bool_decide_eq_false_2.
  - destruct (pem_Decode (Data sL !!! "tls.crt")) as [[blk|] rest] eqn:Hdec.
    + destruct Hcrt as (crt & Hparse & Hcov).
      rewrite (driftCheck_parsed _ _ _ _ _ _ _ Hdec Hparse). cbn [rangeOf].
      rewrite Hel. by rewrite bool_decide_eq_false_2 by tauto.
    + by apply (driftCheck_no_block_skips _ _ _ _ rest).
Qed.

(** A pass over a namespace that is settled does nothing: when the
    four bundles are there and carry the backup label, the route
    lookup (if it is made) succeeds, and the server certificate
    either holds no PEM block or parses and carries the internal
    service name and the route host, the pass returns [nil] and
    leaves the world as it was: nothing is written and no randomness
    is drawn. The CA bundles and the grafana leaf are not parsed. *)
Theorem X9_settled_pass_is_idle m ingress w sCA cCA sL gL :
  ServerCerts <> GrafanaCerts ->
  secrets w !! ServerCACerts = Some sCA ->
  secrets w !! ClientCACerts = Some cCA ->
  secrets w !! ServerCerts = Some sL ->
  secrets w !! GrafanaCerts = Some gL ->
  Forall (fun s => is_Some (Labels s !! BackupLabelName)) [sCA; cCA; sL; gL] ->
  Forall (fun n => fault w (OpGet n) = false)
    [ServerCACerts; ClientCACerts; ServerCerts; GrafanaCerts] ->
  (ingress = true -> is_Some (apiHost w)) ->
  match pem_Decode (Data sL !!! "tls.crt") with
  | (Some blk, _) =>
      exists crt,
        x509_ParseCertificate (Bytes blk) = Some crt
        /\ covers crt (GetObsAPISvc :: (if ingress then option_list (apiHost w) else []))
  | (None, _) => True
  end ->
  CreateObservabilityCerts (Some m) ingress w = (Done None, w).
Proof. apply CreateObservabilityCerts_settled. Qed.
End SettledPass.

(** X9 on an example: a second pass over the namespace that the first
    pass made. *)
Lemma X9_settled_pass_is_idle_witness :
  @CreateObservabilityCerts Toy.libs Toy.config (Some "mco") true Settled.world
  = (Done None, Settled.world).
Proof.
  apply (@X9_settled_pass_is_idle Toy.libs Toy.config "mco" true Settled.world
           (Settled.bundleOf "observability-server-ca-certs")
           (Settled.bundleOf "observability-client-ca-certs")
           (Settled.bundleOf "observability-server-certs")
           (Settled.bundleOf "observability-grafana-certs")).
  - discriminate.
  - vm_compute. reflexivity.
  - vm_compute. reflexivity.
  - vm_compute. reflexivity.
  - vm_compute. reflexivity.
  - decided.
  - repeat constructor.
  - intros _. by eexists.
  - destruct (pem_Decode _) as [[blk|] rest] eqn:Hdec; [|exact I].
    vm_compute in Hdec. injection Hdec as <- <-.
    eexists. split; [vm_compute; reflexivity|]. decided.
Defined.

(** ** Runs that complete *)

Section ForwardRuns.
Context `{Libraries} `{Config}.

Lemma getCA_run isServer w sCA caCert caKey :
  secrets w !! caNameOf isServer = Some sCA ->
  fault w (OpGet (caNameOf isServer)) = false ->
  issuerOf sCA caCert caKey ->
  getCA isServer w
  = (Done (inl (caCert, caKey, firstBlockOf (Data sCA !!! "tls.crt"))), w).
Proof.
  intros Hget Hfg (b1 & r1 & certs & b2 & r2 & Hd1 & Hp1 & Hd2 & Hp2).
  unfold getCA, bind at 1, client_Get.
  replace (if negb isServer then ClientCACerts else ServerCACerts)
    with (caNameOf isServer) by (by destruct isServer).
  rewrite Hfg, Hget. cbn [Data]. rewrite Hd1.
  unfold bind at 1, lift. cbn [deref]. rewrite Hp1, Hd2.
  unfold bind at 1. cbn [deref]. rewrite Hp2.
  unfold bind, lift, ret. cbn [index0].
  unfold firstBlockOf. by rewrite Hd1.
Qed.

Lemma createCertificate_run isServer cn ou dns ips caCert caKey stored w x e key e'
    tmpl certBytes :
  entropy w = x :: e ->
  match stored with
  | Some k => key = k /\ e' = e
  | None => e = key :: e'
  end ->
  leafTemplate isServer cn ou dns ips (x mod serialNumberLimit) (now w) (now w)
    = Done tmpl ->
  x509_CreateCertificate tmpl caCert key caKey = inl certBytes ->
  createCertificate isServer cn ou dns ips caCert caKey stored w
  = (Done (inl (x509_MarshalPKCS1PrivateKey key, certBytes)), setEntropy w e').
Proof.
  intros He Hkey Htmpl Hsign.
  unfold createCertificate, bind, rand_Int, time_Now, lift, keyOrFresh,
    rsa_GenerateKey, ret.
  rewrite He. cbn [now setEntropy entropy]. rewrite Htmpl.
  destruct stored as [k|].
  - destruct Hkey as [-> ->]. by rewrite Hsign.
  - rewrite Hkey. cbn [entropy setEntropy]. by rewrite Hsign.
Qed.

(** What the renewal of a leaf bundle does with the stored key and
    with the rest of the bundle. A key that is a PEM block and parses
    is used again, so the new certificate carries the public key of
    the old one and only the serial number is drawn; a key that does
    not parse is replaced by a fresh one. The three entries
    ["ca.crt"], ["tls.crt"] and ["tls.key"] are replaced; the other
    entries, the labels and the owner of the stored bundle stay. *)
Theorem X10_leaf_renewal_key mco name isServer cn ou dns ips w s sCA caCert caKey
    blk rest x e key e' tmpl certBytes :
  secrets w !! name = Some s ->
  fault w (OpGet name) = false ->
  fault w (OpUpdate name) = false ->
  secrets w !! caNameOf isServer = Some sCA ->
  fault w (OpGet (caNameOf isServer)) = false ->
  issuerOf sCA caCert caKey ->
  pem_Decode (Data s !!! "tls.key") = (Some blk, rest) ->
  entropy w = x :: e ->
  match x509_ParsePKCS1PrivateKey (Bytes blk) with
  | Some k => key = k /\ e' = e
  | None => e = key :: e'
  end ->
  leafTemplate isServer cn ou dns ips (x mod serialNumberLimit) (now w) (now w)
    = Done tmpl ->
  x509_CreateCertificate tmpl caCert key caKey = inl certBytes ->
  exists w' s',
    createCertSecret mco true name isServer cn ou dns ips w = (Done None, w')
    /\ secrets w' !! name = Some s'
    /\ Data s' !!! "tls.key"
       = pem_Encode (mkBlock "RSA PRIVATE KEY" (x509_MarshalPKCS1PrivateKey key))
    /\ Data s' !!! "tls.crt" = pem_Encode (mkBlock "CERTIFICATE" certBytes)
    /\ Data s' !!! "ca.crt" = firstBlockOf (Data sCA !!! "tls.crt")
    /\ (forall f, f ∉ ["ca.crt"; "tls.crt"; "tls.key"] -> Data s' !! f = Data s !! f)
    /\ Labels s' = Labels s /\ Owner s' = Owner s
    /\ entropy w' = e'.
Proof.
  intros Hget Hfg Hfu HsCA Hfca Hissuer Hdec He Hkey Htmpl Hsign.
  unfold createCertSecret, bind at 1, client_Get. rewrite Hfg, Hget.
  unfold bind at 1, lift. rewrite driftCheck_forced. cbn [negb].
  unfold bind at 1. rewrite (getCA_run _ _ _ _ _ HsCA Hfca Hissuer).
  cbn [Data]. rewrite Hdec. unfold bind at 1, lift. cbn [deref].
  unfold bind at 1.
  rewrite (createCertificate_run _ _ _ _ _ _ _ _ _ _ _ _ _ _ _ He Hkey Htmpl Hsign).
  unfold pemEncode, client_Update, withData.
  cbn [SName logCall setEntropy fault secrets Data Labels Owner].
  rewrite Hfu, Hget.
  eexists _, _. split; [reflexivity|]. cbn [secrets setSecrets entropy].
  rewrite lookup_insert_eq. split; [reflexivity|]. cbn [Data Labels Owner].
  repeat split; try (by data_entry).
  intros f Hf. apply not_elem_of_cons in Hf as [? Hf].
  apply not_elem_of_cons in Hf as [? Hf]. apply not_elem_of_cons in Hf as [? _].
  by rewrite !lookup_insert_ne.
Qed.
End ForwardRuns.

(** X10 on an example: the server leaf of [Toy.driftWorld] is renewed
    with its key 21, and the serial number 11 is the one value drawn. *)
Lemma X10_leaf_renewal_key_witness :
  exists w' s',
    @createCertSecret Toy.libs Toy.config (Some "mco") true
      "observability-server-certs" true "observability-server-certificate"
      None (Some (literal ["a"])) None Toy.driftWorld = (Done None, w')
    /\ secrets w' !! "observability-server-certs" = Some s'
    /\ Data s' !!! "tls.key" = Toy.encode (Toy.keyBlock 21)
    /\ entropy w' = [12; 13; 14; 15; 16; 17; 18].
Proof.
  destruct (@leafTemplate_names Toy.config true "observability-server-certificate"
              None (Some (literal ["a"])) None (11 mod serialNumberLimit) 5 5)
    as (tmpl & Htmpl & _).
  { split; [apply wf_literal|]. cbn. lia. }
  edestruct (@X10_leaf_renewal_key Toy.libs Toy.config (Some "mco")
               "observability-server-certs" true "observability-server-certificate"
               None (Some (literal ["a"])) None Toy.driftWorld Toy.leafA
               (Toy.serverCA (Toy.encode Toy.caNew)) (Toy.cert true "ca" 3 90 []) 7
               (Toy.keyBlock 21) [] 11 [12; 13; 14; 15; 16; 17; 18] 21
               [12; 13; 14; 15; 16; 17; 18] tmpl (Toy.der tmpl 7))
    as (w' & s' & Hrun & Hget & Hkey & _ & _ & _ & _ & _ & He).
  - vm_compute. reflexivity.
  - reflexivity.
  - reflexivity.
  - vm_compute. reflexivity.
  - reflexivity.
  - eexists _, _, _, _, _. repeat split; vm_compute; reflexivity.
  - vm_compute. reflexivity.
  - reflexivity.
  - vm_compute. split; reflexivity.
  - exact Htmpl.
  - reflexivity.
  - exists w', s'. split; [exact Hrun|]. split; [exact Hget|]. split; [exact Hkey|exact He].
Defined.

(** ** Pruning again *)

Section PruneAgain.
Context `{Libraries} `{Config}.

Lemma survivors_survivors t segs : survivors t (survivors t segs) = survivors t segs.
Proof.
  unfold survivors. induction segs as [|sb segs IH]; [done|].
  cbn [List.filter]. destruct (negb (dropped t (snd sb))) eqn:Hkeep; [|done].
  cbn [List.filter]. by rewrite Hkeep, IH.
Qed.

Lemma survivors_hold t segs :
  Forall holdsCertificate segs -> Forall holdsCertificate (survivors t segs).
Proof.
  unfold survivors. induction 1 as [|sb segs Hsb Hsegs IH]; [constructor|].
  cbn [List.filter]. destruct (negb (dropped t (snd sb))); [by constructor|done].
Qed.

(** The run of the pruner on a chain of PEM blocks. *)
Lemma removeExpiredCA_pruned name w s seg0 b0 segs :
  secrets w !! name = Some s ->
  fault w (OpGet name) = false ->
  fault w (OpUpdate name) = false ->
  Chain (Data s !!! "tls.crt") ((seg0, b0) :: segs) ->
  Forall holdsCertificate segs ->
  exists w' s',
    removeExpiredCA name w = (Done tt, w')
    /\ secrets w' !! name = Some s'
    /\ Data s' !!! "tls.crt" = seg0 ++ concat (fst <$> survivors (now w) segs)
    /\ now w' = now w /\ fault w' = fault w
    /\ (length (Data s' !!! "tls.crt") = length (Data s !!! "tls.crt") -> w' = w).
Proof.
  intros Hget Hfg Hfu Hchain Hcert.
  assert (Hdata : Data s <> ∅).
  { intros Hempty.
    destruct (Chain_cons_inv _ _ _ Hchain) as (rest & Happ & Hne & _).
    rewrite Hempty, lookup_total_empty in Happ. cbn [fst] in *.
    destruct seg0; [done|discriminate]. }
  destruct (pruneChain_chain (now w) (literal (Data s !!! "tls.crt")) seg0 b0 segs)
    as (chain & Hprune & Hel & Hlen).
  { apply wf_literal. }
  { by rewrite elems_literal. }
  { done. }
  rewrite (removeExpiredCA_run name w s chain Hget Hfg Hdata Hprune), Hfu.
  destruct (length (Data s !!! "tls.crt") =? len chain)%nat eqn:Hsame.
  - exists w, s. repeat split; try done.
    apply Nat.eqb_eq in Hsame.
    destruct (Chain_cons_inv _ _ _ Hchain) as (rest & Happ & Hne & _ & Hrest).
    cbn [fst] in *. rewrite Happ in *. rewrite length_app in Hsame.
    pose proof (survivors_length (now w) rest segs Hrest) as Hle.
    rewrite length_app in Hlen.
    rewrite (survivors_all (now w) rest segs Hrest) by lia.
    by rewrite <- (Chain_concat rest segs Hrest).
  - eexists _, _. split; [reflexivity|]. cbn [secrets setSecrets now fault logCall].
    rewrite lookup_insert_eq. split; [reflexivity|].
    cbn [Data]. rewrite lookup_total_insert_eq. repeat split; try done.
    intros Heq. apply Nat.eqb_neq in Hsame. rewrite Hel, <- Hlen in Heq. lia.
Qed.

(** Pruning is idempotent while the clock stands: after one run over
    a chain of PEM blocks, when what is left is again a chain of these
    blocks, a second run returns without a write and leaves the world
    of the first. *)
Theorem X11_prune_twice_is_prune_once name w s seg0 b0 segs :
  secrets w !! name = Some s ->
  fault w (OpGet name) = false ->
  fault w (OpUpdate name) = false ->
  Chain (Data s !!! "tls.crt") ((seg0, b0) :: segs) ->
  Forall holdsCertificate segs ->
  Chain (seg0 ++ concat (fst <$> survivors (now w) segs))
    ((seg0, b0) :: survivors (now w) segs) ->
  exists w',
    removeExpiredCA name w = (Done tt, w')
    /\ removeExpiredCA name w' = (Done tt, w').
Proof.
  intros Hget Hfg Hfu Hchain Hcert Hchain'.
  destruct (removeExpiredCA_pruned _ _ _ _ _ _ Hget Hfg Hfu Hchain Hcert)
    as (w' & s' & Hrun & Hget' & Hdata' & Hnow & Hfault & _).
  exists w'. split; [done|].
  destruct (removeExpiredCA_pruned name w' s' seg0 b0 (survivors (now w) segs))
    as (w'' & s'' & Hrun' & Hget'' & Hdata'' & _ & _ & Hsame); try done.
  - by rewrite Hfault.
  - by rewrite Hfault.
  - by rewrite Hdata'.
  - by apply survivors_hold.
  - rewrite Hrun'. f_equal. apply Hsame.
    by rewrite Hdata'', Hdata', Hnow, survivors_survivors.
Qed.
End PruneAgain.

(** X11 on the example of pruning. *)
Lemma X11_prune_twice_is_prune_once_witness :
  exists w',
    @removeExpiredCA Toy.libs "observability-server-ca-certs" Toy.pruneWorld
      = (Done tt, w')
    /\ @removeExpiredCA Toy.libs "observability-server-ca-certs" w' = (Done tt, w').
Proof.
  apply (@X11_prune_twice_is_prune_once Toy.libs "observability-server-ca-certs"
           Toy.pruneWorld
           (Toy.serverCA (Toy.encode Toy.caLapsed ++ Toy.encode Toy.caOld
                            ++ Toy.encode Toy.caOlder))
           (Toy.encode Toy.caLapsed) Toy.caLapsed
           [(Toy.encode Toy.caOld, Toy.caOld); (Toy.encode Toy.caOlder, Toy.caOlder)]).
  - vm_compute. reflexivity.
  - reflexivity.
  - reflexivity.
  - replace (Data _ !!! "tls.crt")
      with (Toy.encode Toy.caLapsed ++ Toy.encode Toy.caOld ++ Toy.encode Toy.caOlder ++ [])
      by (vm_compute; reflexivity).
    exact pruneWorld_chain.
  - repeat constructor; unfold holdsCertificate; vm_compute; discriminate.
  - replace (survivors _ _) with [(Toy.encode Toy.caOlder, Toy.caOlder)]
      by (vm_compute; reflexivity).
    replace (Toy.encode Toy.caLapsed ++ concat _)
      with (Toy.encode Toy.caLapsed ++ Toy.encode Toy.caOlder ++ [])
      by (vm_compute; reflexivity).
    repeat (apply (@Chain_cons Toy.libs); [discriminate | vm_compute; reflexivity |]).
    apply Chain_nil.
Defined.

(** ** From an empty namespace *)

Section Bootstrap.
Context `{Libraries} `{Config}.

(** The data of a CA bundle and of a leaf bundle as they are created. *)
Lemma createCASecret_fresh m name cn w x k e certBytes o :
  let certPEM := pem_Encode (mkBlock "CERTIFICATE" certBytes) in
  let keyPEM := pem_Encode (mkBlock "RSA PRIVATE KEY" (x509_MarshalPKCS1PrivateKey k)) in
  let data := <["tls.key" := keyPEM]> (<["tls.crt" := certPEM]> {[ "ca.crt" := certPEM ]}) in
  let labels : gmap string string := {[ BackupLabelName := BackupLabelValue ]} in
  secrets w !! name = None ->
  fault w (OpGet name) = false ->
  fault w (OpCreate name) = false ->
  entropy w = x :: k :: e ->
  (let ca := caTemplate cn (x mod serialNumberLimit) (now w) (now w) in
   x509_CreateCertificate ca ca k k = inl certBytes) ->
  controllerReference m (mkSecret name labels None data) = inl o ->
  createCASecret (Some m) false name cn w
  = (Done (None, true),
     setSecrets (logCall (setEntropy w e) (OpCreate name))
       (<[name := mkSecret name labels (Some o) data]> (secrets w))).
Proof.
  intros certPEM keyPEM data labels Hget Hfg Hfc He Hsign Hown.
  unfold createCASecret, bind at 1, client_Get. rewrite Hfg, Hget.
  cbn [negb IsNotFound]. unfold bind at 1.
  rewrite (createCACertificate_run cn (@None Key) w x (k :: e) k e certBytes He eq_refl
             Hsign).
  unfold pemEncode, ownedBy. fold certPEM keyPEM data labels. rewrite Hown.
  unfold bind, client_Create, withOwner, ret.
  cbn [SName logCall setEntropy fault secrets Data Labels Owner].
  by rewrite Hfc, Hget.
Qed.

Lemma createCertSecret_fresh m isRenew name isServer cn ou dns ips w sCA caCert caKey
    x k e tmpl certBytes o :
  let certPEM := pem_Encode (mkBlock "CERTIFICATE" certBytes) in
  let keyPEM := pem_Encode (mkBlock "RSA PRIVATE KEY" (x509_MarshalPKCS1PrivateKey k)) in
  let data :=
    <["tls.key" := keyPEM]>
      (<["tls.crt" := certPEM]> {[ "ca.crt" := firstBlockOf (Data sCA !!! "tls.crt") ]}) in
  let labels : gmap string string := {[ BackupLabelName := BackupLabelValue ]} in
  secrets w !! name = None ->
  fault w (OpGet name) = false ->
  fault w (OpCreate name) = false ->
  secrets w !! caNameOf isServer = Some sCA ->
  fault w (OpGet (caNameOf isServer)) = false ->
  issuerOf sCA caCert caKey ->
  entropy w = x :: k :: e ->
  leafTemplate isServer cn ou dns ips (x mod serialNumberLimit) (now w) (now w)
    = Done tmpl ->
  x509_CreateCertificate tmpl caCert k caKey = inl certBytes ->
  controllerReference m (mkSecret name labels None data) = inl o ->
  createCertSecret (Some m) isRenew name isServer cn ou dns ips w
  = (Done None,
     setSecrets (logCall (setEntropy w e) (OpCreate name))
       (<[name := mkSecret name labels (Some o) data]> (secrets w))).
Proof.
  intros certPEM keyPEM data labels Hget Hfg Hfc HsCA Hfca Hissuer He Htmpl Hsign Hown.
  unfold createCertSecret, bind at 1, client_Get. rewrite Hfg, Hget.
  cbn [negb IsNotFound]. unfold bind at 1.
  rewrite (getCA_run _ _ _ _ _ HsCA Hfca Hissuer).
  unfold bind at 1.
  rewrite (createCertificate_run isServer cn ou dns ips caCert caKey (@None Key) w x
             (k :: e) k e tmpl certBytes He eq_refl Htmpl Hsign).
  unfold pemEncode, ownedBy. fold certPEM keyPEM data labels. rewrite Hown.
  unfold client_Create, withOwner.
  cbn [SName logCall setEntropy fault secrets Data Labels Owner].
  by rewrite Hfc, Hget.
Qed.

(** A CA bundle as [createCASecret] creates it is read back as the
    issuer it holds. *)
Lemma fresh_issuer name labels o certBytes crt k :
  pemRoundTrip -> keyRoundTrip ->
  x509_ParseCertificates certBytes = Some [crt] ->
  let certPEM := pem_Encode (mkBlock "CERTIFICATE" certBytes) in
  let keyPEM := pem_Encode (mkBlock "RSA PRIVATE KEY" (x509_MarshalPKCS1PrivateKey k)) in
  issuerOf
    (mkSecret name labels o
       (<["tls.key" := keyPEM]> (<["tls.crt" := certPEM]> {[ "ca.crt" := certPEM ]})))
    crt k.
Proof.
  intros Hpem Hkey Hparse certPEM keyPEM.
  exists (mkBlock "CERTIFICATE" certBytes), [], [],
    (mkBlock "RSA PRIVATE KEY" (x509_MarshalPKCS1PrivateKey k)), [].
  cbn [Data Bytes]. repeat split.
  - rewrite lookup_total_insert_ne, lookup_total_insert_eq by done.
    apply Hpem. apply list_elem_of_here.
  - done.
  - rewrite lookup_total_insert_eq. apply Hpem.
    apply list_elem_of_further, list_elem_of_here.
  - apply Hkey.
Qed.
End Bootstrap.

Section BootstrapPass.
Context `{Libraries} `{Config}.

Lemma getHosts_run ingress w :
  (ingress = true -> is_Some (apiHost w)) ->
  exists hosts, getHosts ingress w = (Done (inl hosts), w).
Proof.
  intros Hroute. unfold getHosts, bind, GetObsAPIHost, ret.
  destruct ingress; [|by eexists].
  destruct (Hroute eq_refl) as [url ->]. by eexists.
Qed.

(** The first pass over a namespace that holds none of the four
    bundles, with a store that takes the reads and the creations, a
    route when one is looked up, and libraries that keep the laws
    above: the pass returns [nil] after four [Create] calls, the CA
    bundles first; it draws eight values from the random source, a
    serial number and a key for each bundle; the four bundles are
    there; and the namespace is settled, a second pass over it
    returns [nil] and changes nothing. *)
Theorem X12_first_pass_bootstraps m ingress w x1 k1 x2 k2 x3 k3 x4 k4 e :
  pemRoundTrip -> keyRoundTrip -> signs -> owns m ->
  NoDup [ServerCACerts; ClientCACerts; ServerCerts; GrafanaCerts] ->
  Forall (fun n => secrets w !! n = None
                   /\ fault w (OpGet n) = false /\ fault w (OpCreate n) = false)
    [ServerCACerts; ClientCACerts; ServerCerts; GrafanaCerts] ->
  (ingress = true -> is_Some (apiHost w)) ->
  entropy w = x1 :: k1 :: x2 :: k2 :: x3 :: k3 :: x4 :: k4 :: e ->
  exists w',
    CreateObservabilityCerts (Some m) ingress w = (Done None, w')
    /\ calls w' = calls w ++ [OpCreate ServerCACerts; OpCreate ClientCACerts;
                              OpCreate ServerCerts; OpCreate GrafanaCerts]
    /\ entropy w' = e
    /\ Forall (fun n => is_Some (secrets w' !! n))
         [ServerCACerts; ClientCACerts; ServerCerts; GrafanaCerts]
    /\ CreateObservabilityCerts (Some m) ingress w' = (Done None, w').
Proof.
  intros Hpem Hkey Hsigns Howns Hnames Hfresh Hroute He.
  destruct (four_distinct _ _ _ _ Hnames) as (Hsc & Hsl & Hsg & Hcl & Hcg & Hlg).
  apply Forall_cons in Hfresh as [(G1 & F1 & C1) Hfresh].
  apply Forall_cons in Hfresh as [(G2 & F2 & C2) Hfresh].
  apply Forall_cons in Hfresh as [(G3 & F3 & C3) Hfresh].
  apply Forall_cons in Hfresh as [(G4 & F4 & C4) _].
  (* the server CA *)
  destruct (Hsigns (caTemplate serverCACertifcateCN (x1 mod serialNumberLimit) (now w) (now w))
              (caTemplate serverCACertifcateCN (x1 mod serialNumberLimit) (now w) (now w))
              k1 k1) as (cb1 & crt1 & Hs1 & Hp1 & _ & _).
  destruct (Howns (mkSecret ServerCACerts {[ BackupLabelName := BackupLabelValue ]} None
              (<["tls.key" := pem_Encode (mkBlock "RSA PRIVATE KEY"
                                             (x509_MarshalPKCS1PrivateKey k1))]>
                 (<["tls.crt" := pem_Encode (mkBlock "CERTIFICATE" cb1)]>
                    {[ "ca.crt" := pem_Encode (mkBlock "CERTIFICATE" cb1) ]}))))
    as [o1 Ho1].
  pose proof (createCASecret_fresh m ServerCACerts serverCACertifcateCN w x1 k1 _ cb1 o1
                G1 F1 C1 He Hs1 Ho1) as R1.
  pose proof (fresh_issuer ServerCACerts {[ BackupLabelName := BackupLabelValue ]}
                (Some o1) cb1 crt1 k1 Hpem Hkey Hp1) as I1.
  cbv zeta in R1, I1.
  set (sCA := mkSecret ServerCACerts _ (Some o1) _) in R1, I1.
  set (w1 := setSecrets _ _) in R1.
  (* the client CA *)
  destruct (Hsigns (caTemplate clientCACertificateCN (x2 mod serialNumberLimit) (now w1) (now w1))
              (caTemplate clientCACertificateCN (x2 mod serialNumberLimit) (now w1) (now w1))
              k2 k2) as (cb2 & crt2 & Hs2 & Hp2 & _ & _).
  destruct (Howns (mkSecret ClientCACerts {[ BackupLabelName := BackupLabelValue ]} None
              (<["tls.key" := pem_Encode (mkBlock "RSA PRIVATE KEY"
                                             (x509_MarshalPKCS1PrivateKey k2))]>
                 (<["tls.crt" := pem_Encode (mkBlock "CERTIFICATE" cb2)]>
                    {[ "ca.crt" := pem_Encode (mkBlock "CERTIFICATE" cb2) ]}))))
    as [o2 Ho2].
  assert (G2' : secrets w1 !! ClientCACerts = None)
    by (subst w1; cbn [secrets setSecrets]; by rewrite lookup_insert_ne).
  pose proof (createCASecret_fresh m ClientCACerts clientCACertificateCN w1 x2 k2 _ cb2 o2
                G2' F2 C2 eq_refl Hs2 Ho2) as R2.
  pose proof (fresh_issuer ClientCACerts {[ BackupLabelName := BackupLabelValue ]}
                (Some o2) cb2 crt2 k2 Hpem Hkey Hp2) as I2.
  cbv zeta in R2, I2.
  set (cCA := mkSecret ClientCACerts _ (Some o2) _) in R2, I2.
  set (w2 := setSecrets _ _) in R2.
  (* the hosts *)
  destruct (getHosts_run ingress w2 Hroute) as [hosts Hh].
  destruct (getHosts_done _ _ _ _ Hh) as (Hwf & Hlen & Hel).
  (* the server leaf *)
  destruct (leafTemplate_names true ServerCertCN None (Some hosts) None
              (x3 mod serialNumberLimit) (now w2) (now w2) (conj Hwf Hlen))
    as (t3 & Ht3 & Hdns3 & _).
  destruct (Hsigns t3 crt1 k3 k1) as (cb3 & crt3 & Hs3 & _ & Hp3 & Hn3).
  destruct (Howns (mkSecret ServerCerts {[ BackupLabelName := BackupLabelValue ]} None
              (<["tls.key" := pem_Encode (mkBlock "RSA PRIVATE KEY"
                                             (x509_MarshalPKCS1PrivateKey k3))]>
                 (<["tls.crt" := pem_Encode (mkBlock "CERTIFICATE" cb3)]>
                    {[ "ca.crt" := firstBlockOf (Data sCA !!! "tls.crt") ]}))))
    as [o3 Ho3].
  assert (G3' : secrets w2 !! ServerCerts = None)
    by (subst w2 w1; cbn [secrets setSecrets]; by rewrite !lookup_insert_ne).
  assert (A3 : secrets w2 !! caNameOf true = Some sCA).
  { subst w2 w1. cbn [secrets setSecrets caNameOf].
    by rewrite lookup_insert_ne, lookup_insert_eq. }
  pose proof (createCertSecret_fresh m true ServerCerts true ServerCertCN None (Some hosts)
                None w2 sCA crt1 k1 x3 k3 _ t3 cb3 o3
                G3' F3 C3 A3 F1 I1 eq_refl Ht3 Hs3 Ho3) as R3.
  cbv zeta in R3.
  set (sL := mkSecret ServerCerts _ (Some o3) _) in R3.
  set (w3 := setSecrets _ _) in R3.
  (* the grafana leaf *)
  destruct (leafTemplate_names false GrafanaCN None None None
              (x4 mod serialNumberLimit) (now w3) (now w3) I)
    as (t4 & Ht4 & _).
  destruct (Hsigns t4 crt2 k4 k2) as (cb4 & crt4 & Hs4 & _).
  destruct (Howns (mkSecret GrafanaCerts {[ BackupLabelName := BackupLabelValue ]} None
              (<["tls.key" := pem_Encode (mkBlock "RSA PRIVATE KEY"
                                             (x509_MarshalPKCS1PrivateKey k4))]>
                 (<["tls.crt" := pem_Encode (mkBlock "CERTIFICATE" cb4)]>
                    {[ "ca.crt" := firstBlockOf (Data cCA !!! "tls.crt") ]}))))
    as [o4 Ho4].
  assert (G4' : secrets w3 !! GrafanaCerts = None)
    by (subst w3 w2 w1; cbn [secrets setSecrets]; by rewrite !lookup_insert_ne).
  assert (A4 : secrets w3 !! caNameOf false = Some cCA).
  { subst w3 w2 w1. cbn [secrets setSecrets caNameOf].
    by rewrite lookup_insert_ne, lookup_insert_eq. }
  pose proof (createCertSecret_fresh m true GrafanaCerts false GrafanaCN None None
                None w3 cCA crt2 k2 x4 k4 _ t4 cb4 o4
                G4' F4 C4 A4 F2 I2 eq_refl Ht4 Hs4 Ho4) as R4.
  cbv zeta in R4.
  set (gL := mkSecret GrafanaCerts _ (Some o4) _) in R4.
  set (w4 := setSecrets _ _) in R4.
  (* the pass *)
  exists w4. split.
  { unfold CreateObservabilityCerts, bind at 1, lift. cbn [deref].
    unfold bind at 1. rewrite R1. unfold bind at 1. rewrite R2.
    unfold bind at 1. rewrite Hh. unfold bind at 1. rewrite R3. exact R4. }
  split; [subst w4 w3 w2 w1; cbn; by rewrite <- !app_assoc|].
  split; [done|].
  assert (L1 : secrets w4 !! ServerCACerts = Some sCA).
  { subst w4 w3 w2 w1. cbn [secrets setSecrets].
    by rewrite 3 lookup_insert_ne, lookup_insert_eq by done. }
  assert (L2 : secrets w4 !! ClientCACerts = Some cCA).
  { subst w4 w3 w2 w1. cbn [secrets setSecrets].
    by rewrite 2 lookup_insert_ne, lookup_insert_eq by done. }
  assert (L3 : secrets w4 !! ServerCerts = Some sL).
  { subst w4 w3 w2 w1. cbn [secrets setSecrets].
    by rewrite lookup_insert_ne, lookup_insert_eq. }
  assert (L4 : secrets w4 !! GrafanaCerts = Some gL).
  { subst w4. cbn [secrets setSecrets]. by rewrite lookup_insert_eq. }
  split; [repeat constructor; by eexists|].
  apply (CreateObservabilityCerts_settled m ingress w4 sCA cCA sL gL);
    [done|exact L1|exact L2|exact L3|exact L4|..].
  - assert (Hlab : forall n o d,
              is_Some (Labels (mkSecret n {[ BackupLabelName := BackupLabelValue ]} o d)
                         !! BackupLabelName))
      by (intros; cbn [Labels]; rewrite lookup_singleton_eq; by eexists).
    repeat (apply Forall_cons; split; [apply Hlab|]). constructor.
  - by repeat constructor.
  - exact Hroute.
  - subst sL. cbn [Data]. rewrite lookup_total_insert_ne, lookup_total_insert_eq by done.
    rewrite Hpem by apply list_elem_of_here. cbn [Bytes].
    exists crt3. split; [done|]. unfold covers. rewrite Hn3, Hdns3. cbn [rangeOf].
    change (apiHost w4) with (apiHost w2). rewrite <- Hel.
    apply Forall_forall. intros d Hd. by apply list_elem_of_further.
Qed.
End BootstrapPass.

(** The instance [Lawful.libs] keeps the laws. *)

Lemma b2p_p2b p : Lawful.b2p (Lawful.p2b p) = Some p.
Proof. induction p as [q IH|q IH|]; cbn; by rewrite ?IH. Qed.

Lemma count_unary n r : Lawful.count (Lawful.unary n ++ r) = Some (n, r).
Proof. induction n as [|n IH]; cbn; [done|]. by rewrite IH. Qed.

Lemma unframe_frame xs r : Lawful.unframe (Lawful.frame xs ++ r) = Some (xs, r).
Proof.
  unfold Lawful.unframe, Lawful.frame. rewrite <- app_assoc, count_unary.
  rewrite length_app.
  replace (length xs <=? length xs + length r)%nat with true
    by (symmetry; apply Nat.leb_le; lia).
  by rewrite take_app_length, drop_app_length.
Qed.

Lemma Lawful_decode_encode b rest :
  Lawful.decode (Lawful.encode b ++ rest) = (Some b, rest).
Proof.
  unfold Lawful.decode, Lawful.encode.
  rewrite <- app_assoc, unframe_frame, unframe_frame.
  rewrite String.string_of_list_byte_of_string. by destruct b.
Qed.

Lemma Lawful_pem : @pemRoundTrip Lawful.libs.
Proof.
  intros ty bs _. cbn [pem_Decode pem_Encode Lawful.libs].
  rewrite <- (app_nil_r (Lawful.encode _)). apply Lawful_decode_encode.
Qed.

Lemma Lawful_key : @keyRoundTrip Lawful.libs.
Proof.
  intros k. cbn [x509_ParsePKCS1PrivateKey x509_MarshalPKCS1PrivateKey Lawful.libs].
  unfold Lawful.parseKey, Lawful.marshalKey. rewrite b2p_p2b. cbn [mbind option_bind].
  apply decode_encode.
Qed.

Lemma Lawful_parse_der c :
  exists crt, Lawful.parse (Lawful.der c) = Some crt /\ DNSNames crt = DNSNames c.
Proof.
  unfold Lawful.parse, Lawful.der. rewrite b2p_p2b. cbn [mbind option_bind].
  rewrite decode_encode. unfold Lawful.fields. by eexists.
Qed.

Lemma Lawful_signs : @signs Lawful.libs.
Proof.
  intros tmpl parent pub priv.
  destruct (Lawful_parse_der tmpl) as (crt & Hparse & Hdns).
  exists (Byte.x30 :: Lawful.der tmpl), crt.
  cbn [x509_CreateCertificate x509_ParseCertificates x509_ParseCertificate Lawful.libs].
  rewrite Hparse. done.
Qed.

Lemma Lawful_owns m : @owns Lawful.libs m.
Proof. intros s. by exists m. Qed.

(** X12 on an example: the operator's names, the lawful instance and
    the empty namespace with a route and eight values to draw. *)
Lemma X12_first_pass_bootstraps_witness :
  exists w',
    @CreateObservabilityCerts Lawful.libs Toy.config (Some "mco") true Toy.emptyWorld
      = (Done None, w')
    /\ calls w' = [OpCreate "observability-server-ca-certs";
                   OpCreate "observability-client-ca-certs";
                   OpCreate "observability-server-certs";
                   OpCreate "observability-grafana-certs"]
    /\ entropy w' = []
    /\ @CreateObservabilityCerts Lawful.libs Toy.config (Some "mco") true w'
       = (Done None, w').
Proof.
  destruct (@X12_first_pass_bootstraps Lawful.libs Toy.config "mco" true Toy.emptyWorld
              11 12 13 14 15 16 17 18 [])
    as (w' & Hrun & Hcalls & He & _ & Hagain).
  - exact Lawful_pem.
  - exact Lawful_key.
  - exact Lawful_signs.
  - exact (Lawful_owns "mco").
  - decided.
  - repeat constructor.
  - intros _. by eexists.
  - reflexivity.
  - exists w'. split; [exact Hrun|]. split; [exact Hcalls|]. split; [exact He|exact Hagain].
Defined.

(** * The client certificate of the hub metrics collector *)

Section HubFacts.
Context `{Libraries} `{HubImports}.

Lemma CreateCSR_run w (k : Key) e r :
  entropy w = k :: e ->
  x509_CreateCertificateRequest csrTemplate (Some k) = Done r ->
  CreateCSR w
  = (Done (pem_Encode (mkBlock "CERTIFICATE REQUEST"
                         (match r with inl der => der | inr _ => [] end)),
           pem_Encode (mkBlock "RSA PRIVATE KEY" (x509_MarshalPKCS1PrivateKey k))),
     setEntropy w e).
Proof.
  intros He Hreq. unfold CreateCSR, bind, rsa_GenerateKey, lift, ret. rewrite He.
  cbv beta iota. by rewrite Hreq.
Qed.

(** [CreateCSR] reports no error. With a key from the random source
    it returns the PEM of the request and of that key; when the
    request cannot be made it still returns, with the PEM of an empty
    request beside the key. When key generation fails it does not
    return: it panics on the nil key. *)
Theorem X13_csr_hides_errors w :
  (entropy w = [] -> forall pair, fst (CreateCSR w) <> Done pair)
  /\ (forall (k : Key) e err,
        entropy w = k :: e ->
        x509_CreateCertificateRequest csrTemplate (Some k) = Done (inr err) ->
        CreateCSR w
        = (Done (pem_Encode (mkBlock "CERTIFICATE REQUEST" []),
                 pem_Encode (mkBlock "RSA PRIVATE KEY" (x509_MarshalPKCS1PrivateKey k))),
           setEntropy w e))
  /\ (forall (k : Key) e der,
        entropy w = k :: e ->
        x509_CreateCertificateRequest csrTemplate (Some k) = Done (inl der) ->
        CreateCSR w
        = (Done (pem_Encode (mkBlock "CERTIFICATE REQUEST" der),
                 pem_Encode (mkBlock "RSA PRIVATE KEY" (x509_MarshalPKCS1PrivateKey k))),
           setEntropy w e)).
Proof.
  split; [|split].
  - intros He pair. unfold CreateCSR, bind, rsa_GenerateKey, lift, ret. rewrite He.
    cbv beta iota.
    by destruct (x509_CreateCertificateRequest csrTemplate None) as [r| |].
  - intros k e err He Hreq. by rewrite (CreateCSR_run w k e _ He Hreq).
  - intros k e der He Hreq. by rewrite (CreateCSR_run w k e _ He Hreq).
Qed.

(** When the signer returns nil, the function returns the bad-request
    error and makes no call of the store after the signer: the world
    is the one the signer left. A [Create] that fails for another
    reason than an existing secret is returned as it is, and no
    update is tried. *)
Theorem X14_hub_secret_failures updateMtlsCert w csrBytes keyBytes w0 :
  CreateCSR w = (Done (csrBytes, keyBytes), w0) ->
  let csr := mkCSR csrBytes [UsageDigitalSignature; UsageClientAuth] in
  let name := operatorconfig_HubMetricsCollectorMtlsCert in
  (forall w1,
      Sign csr w0 = (Done None, w1) ->
      CreateUpdateMtlsCertSecretForHubCollector updateMtlsCert w
      = (Done (Some (BadRequest "failed to sign CSR")), w1))
  /\ (forall cert w1,
        Sign csr w0 = (Done (Some cert), w1) ->
        fault w1 (OpCreate name) = true ->
        CreateUpdateMtlsCertSecretForHubCollector updateMtlsCert w
        = (Done (Some (StoreError ErrAPI)), logCall w1 (OpCreate name))).
Proof.
  intros Hcsr csr name. split.
  - intros w1 Hsign.
    unfold CreateUpdateMtlsCertSecretForHubCollector, bind at 1. rewrite Hcsr.
    unfold bind at 1. fold csr. by rewrite Hsign.
  - intros cert w1 Hsign Hfault.
    unfold CreateUpdateMtlsCertSecretForHubCollector, bind at 1. rewrite Hcsr.
    unfold bind at 1. fold csr. rewrite Hsign.
    unfold bind at 1, client_Create. cbn [SName logCall fault]. fold name.
    by rewrite Hfault.
Qed.

(** What the function leaves in the store when the signer returns a
    certificate and the store works. An absent secret is created with
    the certificate and the key of the request and nothing else: no
    label and no owner. A present secret is kept as it is when
    [updateMtlsCert] is false, and the new key and certificate are
    dropped although the [Create] was tried; when [updateMtlsCert] is
    true its two entries are replaced by one [Update] and its other
    entries, labels and owner stay. *)
Theorem X15_hub_secret_outcomes updateMtlsCert w csrBytes keyBytes w0 cert w1 :
  CreateCSR w = (Done (csrBytes, keyBytes), w0) ->
  Sign (mkCSR csrBytes [UsageDigitalSignature; UsageClientAuth]) w0 = (Done (Some cert), w1) ->
  let name := operatorconfig_HubMetricsCollectorMtlsCert in
  fault w1 (OpCreate name) = false ->
  let run := CreateUpdateMtlsCertSecretForHubCollector updateMtlsCert w in
  match secrets w1 !! name with
  | None =>
      run = (Done None,
             setSecrets (logCall w1 (OpCreate name))
               (<[name := mkSecret name ∅ None
                            (<["tls.key" := keyBytes]> {[ "tls.crt" := cert ]})]>
                  (secrets w1)))
  | Some s =>
      if updateMtlsCert then
        fault w1 (OpGet name) = false ->
        fault w1 (OpUpdate name) = false ->
        Data s <> ∅ ->
        run = (Done None,
               setSecrets (logCall (logCall w1 (OpCreate name)) (OpUpdate name))
                 (<[name := mkSecret name (Labels s) (Owner s)
                              (<["tls.key" := keyBytes]>
                                 (<["tls.crt" := cert]> (Data s)))]>
                    (secrets w1)))
      else run = (Done None, logCall w1 (OpCreate name))
  end.
Proof.
  intros Hcsr Hsign name Hfc run.
  assert (Hrun : run =
            (err <- client_Create
                      (mkSecret name ∅ None
                         (<["tls.key" := keyBytes]> {[ "tls.crt" := cert ]}));;
             match err with
             | None => ret None
             | Some e =>
                 if negb (IsAlreadyExists e) then ret (Some (StoreError e))
                 else if updateMtlsCert then
                   r <- client_Get name;;
                   match r with
                   | inr e => ret (Some (StoreError e))
                   | inl HubMtlsSecret =>
                       if bool_decide (Data HubMtlsSecret = ∅) then panic nilMap
                       else
                         err <- client_Update
                                  (withData HubMtlsSecret
                                     (<["tls.key" := keyBytes]>
                                        (<["tls.crt" := cert]> (Data HubMtlsSecret))));;
                         match err with
                         | Some e => ret (Some (StoreError e))
                         | None => ret None
                         end
                   end
                 else ret None
             end) w1).
  { subst run. unfold CreateUpdateMtlsCertSecretForHubCollector, bind at 1.
    rewrite Hcsr. unfold bind at 1. by rewrite Hsign. }
  clearbody run.
  unfold bind at 1, client_Create in Hrun. cbn [SName logCall fault secrets] in Hrun.
  rewrite Hfc in Hrun.
  destruct (secrets w1 !! name) as [s|] eqn:Hget; [|by rewrite Hrun].
  cbn [negb IsAlreadyExists] in Hrun. destruct updateMtlsCert; [|by rewrite Hrun].
  intros Hfg Hfu Hdata. rewrite Hrun.
  unfold bind at 1, client_Get. cbn [fault secrets logCall]. rewrite Hfg, Hget. cbn [Data].
  rewrite bool_decide_eq_false_2 by done.
  unfold bind, client_Update, withData, ret.
  cbn [SName logCall fault secrets Labels Owner Data]. by rewrite Hfu, Hget.
Qed.
End HubFacts.

(** X13 on an example: the toy request library has no request for a
    nil key, and the empty random source yields none. *)
Lemma X13_csr_hides_errors_witness :
  fst (@CreateCSR Toy.libs (ToyHub.imports ToyHub.signer) (setEntropy Toy.emptyWorld []))
    = Panicked nilDeref
  /\ exists csr,
       fst (@CreateCSR Toy.libs (ToyHub.imports ToyHub.signer) Toy.emptyWorld)
       = Done (csr, Toy.encode (Toy.keyBlock 11)).
Proof.
  destruct (@X13_csr_hides_errors Toy.libs (ToyHub.imports ToyHub.signer) Toy.emptyWorld)
    as (_ & _ & Hok).
  split; [vm_compute; reflexivity|].
  eexists. erewrite (Hok 11 [12; 13; 14; 15; 16; 17; 18]); [reflexivity|reflexivity|].
  vm_compute. reflexivity.
Defined.

(** X14 on an example: the signer refuses. *)
Lemma X14_hub_secret_failures_witness :
  @CreateUpdateMtlsCertSecretForHubCollector Toy.libs (ToyHub.imports ToyHub.refuser)
    true Toy.emptyWorld
  = (Done (Some (BadRequest "failed to sign CSR")),
     setEntropy Toy.emptyWorld [12; 13; 14; 15; 16; 17; 18]).
Proof.
  pose (csr := @CreateCSR Toy.libs (ToyHub.imports ToyHub.refuser) Toy.emptyWorld).
  assert (Hcsr : csr = (Done (fst (default ([], []) (match fst csr with
                                                      | Done p => Some p
                                                      | _ => None
                                                      end)),
                              snd (default ([], []) (match fst csr with
                                                      | Done p => Some p
                                                      | _ => None
                                                      end))),
                        setEntropy Toy.emptyWorld [12; 13; 14; 15; 16; 17; 18]))
    by (vm_compute; reflexivity).
  destruct (@X14_hub_secret_failures Toy.libs (ToyHub.imports ToyHub.refuser) true
              Toy.emptyWorld _ _ _ Hcsr) as [Hrefused _].
  apply Hrefused. reflexivity.
Defined.

(** X15 on an example: the secret is there and is updated; the entry
    ["note"], the label and the owner stay. *)
Lemma X15_hub_secret_outcomes_witness :
  exists w' s',
    @CreateUpdateMtlsCertSecretForHubCollector Toy.libs (ToyHub.imports ToyHub.signer)
      true ToyHub.oldWorld = (Done None, w')
    /\ secrets w' !! SName ToyHub.oldSecret = Some s'
    /\ Data s' !!! "note" = [Byte.x6e]
    /\ Data s' !!! "tls.key" = Toy.encode (Toy.keyBlock 11)
    /\ Labels s' = Toy.backupLabel /\ Owner s' = Some "mco".
Proof.
  pose (csr := @CreateCSR Toy.libs (ToyHub.imports ToyHub.signer) ToyHub.oldWorld).
  pose (pair := default ([], []) (match fst csr with Done p => Some p | _ => None end)).
  assert (Hcsr : csr = (Done (fst pair, snd pair),
                        setEntropy ToyHub.oldWorld [12; 13; 14; 15; 16; 17; 18]))
    by (vm_compute; reflexivity).
  pose proof (@X15_hub_secret_outcomes Toy.libs (ToyHub.imports ToyHub.signer) true
                ToyHub.oldWorld (fst pair) (snd pair) _
                (Toy.encode (mkBlock "CERTIFICATE" (fst pair))) _
                Hcsr eq_refl eq_refl) as Hrun.
  cbv zeta in Hrun.
  replace (secrets _ !! _) with (Some ToyHub.oldSecret) in Hrun by (vm_compute; reflexivity).
  cbv iota in Hrun.
  eexists _, _. split; [apply Hrun; [reflexivity|reflexivity|done]|].
  cbn [secrets setSecrets]. split; [apply lookup_insert_eq|].
  cbn [Data Labels Owner]. repeat split; vm_compute; reflexivity.
Defined.

(** * Package [status] *)

Section PodFacts.
Context `{mcov1beta2.Constants} `{ControllerConfig} `{StatusHelpers}.

Lemma containersReady_cases statuses :
  (containersReady statuses = mcov1beta2.PodReady
   /\ Forall (fun c => corev1.Ready c = true) statuses)
  \/ (containersReady statuses = mcov1beta2.PodRunning
      /\ Exists (fun c => corev1.Ready c = false) statuses).
Proof.
  induction statuses as [|c rest IH]; cbn [containersReady].
  - left. by split.
  - destruct (corev1.Ready c) eqn:Hc; cbn [negb].
    + destruct IH as [[-> Hall]|[-> Hsome]].
      * left. split; [done|]. by constructor.
      * right. split; [done|]. by apply Exists_cons_tl.
    + right. split; [done|]. by apply Exists_cons_hd.
Qed.

Lemma five_distinct (a b c d e : string) :
  NoDup [a; b; c; d; e] ->
  a <> b /\ a <> c /\ a <> d /\ a <> e /\ b <> c /\ b <> d /\ b <> e
  /\ c <> d /\ c <> e /\ d <> e.
Proof.
  intros Hnd.
  repeat split; intros ->;
    [ pose proof (NoDup_lookup _ 0 1 _ Hnd eq_refl eq_refl)
    | pose proof (NoDup_lookup _ 0 2 _ Hnd eq_refl eq_refl)
    | pose proof (NoDup_lookup _ 0 3 _ Hnd eq_refl eq_refl)
    | pose proof (NoDup_lookup _ 0 4 _ Hnd eq_refl eq_refl)
    | pose proof (NoDup_lookup _ 1 2 _ Hnd eq_refl eq_refl)
    | pose proof (NoDup_lookup _ 1 3 _ Hnd eq_refl eq_refl)
    | pose proof (NoDup_lookup _ 1 4 _ Hnd eq_refl eq_refl)
    | pose proof (NoDup_lookup _ 2 3 _ Hnd eq_refl eq_refl)
    | pose proof (NoDup_lookup _ 2 4 _ Hnd eq_refl eq_refl)
    | pose proof (NoDup_lookup _ 3 4 _ Hnd eq_refl eq_refl) ];
    discriminate.
Qed.

Lemma podStatus_classes pod :
  NoDup [mcov1beta2.PodFailed; mcov1beta2.PodPending; mcov1beta2.PodRunning;
         mcov1beta2.PodReady; mcov1beta2.PodStatusUnknown] ->
  let phase := corev1.Phase pod in
  let statuses := corev1.ContainerStatuses pod in
  (podStatus pod = mcov1beta2.PodFailed <-> phase = corev1.PodFailed)
  /\ (podStatus pod = mcov1beta2.PodPending <-> phase = corev1.PodPending)
  /\ (podStatus pod = mcov1beta2.PodReady
      <-> phase = corev1.PodRunning /\ Forall (fun c => corev1.Ready c = true) statuses)
  /\ (podStatus pod = mcov1beta2.PodRunning
      <-> phase = corev1.PodRunning /\ Exists (fun c => corev1.Ready c = false) statuses)
  /\ (podStatus pod = mcov1beta2.PodStatusUnknown
      <-> phase ∉ [corev1.PodFailed; corev1.PodPending; corev1.PodRunning]).
Proof.
  intros Hnd phase statuses. subst phase statuses.
  destruct (five_distinct _ _ _ _ _ Hnd) as (? & ? & ? & ? & ? & ? & ? & ? & ? & ?).
  assert (Hmix : forall c : corev1.ContainerStatus,
            corev1.Ready c = true -> corev1.Ready c = false -> False) by congruence.
  assert (Hclash : Forall (fun c => corev1.Ready c = true) (corev1.ContainerStatuses pod) ->
            Exists (fun c => corev1.Ready c = false) (corev1.ContainerStatuses pod) ->
            False).
  { intros Hall Hsome. apply Exists_exists in Hsome as (c & Hin & Hc).
    rewrite Forall_forall in Hall. specialize (Hall c Hin). congruence. }
  assert (Hother : corev1.Phase pod ∉
                     [corev1.PodFailed; corev1.PodPending; corev1.PodRunning]
                   <-> corev1.Phase pod <> corev1.PodFailed
                       /\ corev1.Phase pod <> corev1.PodPending
                       /\ corev1.Phase pod <> corev1.PodRunning).
  { rewrite !elem_of_cons, elem_of_nil. tauto. }
  rewrite Hother. clear Hother. unfold podStatus.
  destruct (decide (corev1.Phase pod = corev1.PodFailed)) as [Hf|Hf].
  { rewrite bool_decide_eq_true_2 by done. rewrite Hf.
    split; [done|]. split; [split; [congruence|discriminate]|].
    split; [split; [congruence|by intros [? _]]|].
    split; [split; [congruence|by intros [? _]]|].
    split; [congruence|by intros [? _]]. }
  rewrite (bool_decide_eq_false_2 _ Hf).
  destruct (decide (corev1.Phase pod = corev1.PodPending)) as [Hp|Hp].
  { rewrite bool_decide_eq_true_2 by done. rewrite Hp.
    split; [split; [congruence|discriminate]|]. split; [done|].
    split; [split; [congruence|by intros [? _]]|].
    split; [split; [congruence|by intros [? _]]|].
    split; [congruence|by intros (_ & ? & _)]. }
  rewrite (bool_decide_eq_false_2 _ Hp).
  destruct (decide (corev1.Phase pod = corev1.PodRunning)) as [Hr|Hr].
  { rewrite bool_decide_eq_true_2 by done.
    destruct (containersReady_cases (corev1.ContainerStatuses pod))
      as [[-> Hall]|[-> Hsome]].
    - split; [split; [congruence|done]|]. split; [split; [congruence|done]|].
      split; [done|]. split; [split; [congruence|intros [_ Hsome]; by destruct Hclash]|].
      split; [congruence|by intros (_ & _ & ?)].
    - split; [split; [congruence|done]|]. split; [split; [congruence|done]|].
      split; [split; [congruence|intros [_ Hall]; by destruct Hclash]|].
      split; [done|]. split; [congruence|by intros (_ & _ & ?)]. }
  rewrite (bool_decide_eq_false_2 _ Hr).
  split; [split; [congruence|done]|]. split; [split; [congruence|done]|].
  split; [split; [congruence|by intros [? _]]|].
  split; [split; [congruence|by intros [? _]]|]. done.
Qed.

(** The status of a pod, when the five statuses are distinct: a
    failed and a pending pod keep their phase; a running pod is ready
    when every container is ready, also when it has none, and running
    when some container is not ready; a pod in any other phase, also
    one that has succeeded, is unknown. *)
Theorem X16_pod_status_classes pod :
  NoDup [mcov1beta2.PodFailed; mcov1beta2.PodPending; mcov1beta2.PodRunning;
         mcov1beta2.PodReady; mcov1beta2.PodStatusUnknown] ->
  let phase := corev1.Phase pod in
  let statuses := corev1.ContainerStatuses pod in
  (podStatus pod = mcov1beta2.PodFailed <-> phase = corev1.PodFailed)
  /\ (podStatus pod = mcov1beta2.PodPending <-> phase = corev1.PodPending)
  /\ (podStatus pod = mcov1beta2.PodReady
      <-> phase = corev1.PodRunning /\ Forall (fun c => corev1.Ready c = true) statuses)
  /\ (podStatus pod = mcov1beta2.PodRunning
      <-> phase = corev1.PodRunning /\ Exists (fun c => corev1.Ready c = false) statuses)
  /\ (podStatus pod = mcov1beta2.PodStatusUnknown
      <-> phase ∉ [corev1.PodFailed; corev1.PodPending; corev1.PodRunning]).
Proof. apply podStatus_classes. Qed.

(** The status map that the loop of [appendPodStatus] builds. *)
Lemma groupPods_lookup items psm status :
  groupPods items psm !!! status
  = psm !!! status
    ++ (corev1.Name <$> List.filter (fun p => bool_decide (podStatus p = status)) items).
Proof.
  revert psm. induction items as [|pod rest IH]; intros psm; cbn [groupPods List.filter].
  - by rewrite app_nil_r.
  - rewrite IH. destruct (decide (podStatus pod = status)) as [<-|Hne].
    + rewrite bool_decide_eq_true_2 by done. rewrite lookup_total_insert_eq.
      cbn [fmap list_fmap]. by rewrite <- app_assoc.
    + rewrite bool_decide_eq_false_2 by done. by rewrite lookup_total_insert_ne.
Qed.

Lemma groupPods_keys items psm status :
  groupPods items psm !! status = None
  <-> psm !! status = None /\ Forall (fun p => podStatus p <> status) items.
Proof.
  revert psm. induction items as [|pod rest IH]; intros psm; cbn [groupPods].
  - split; [by intros ?; split|by intros [? _]].
  - rewrite IH. destruct (decide (podStatus pod = status)) as [<-|Hne].
    + rewrite lookup_insert_eq. split; [by intros [? _]|].
      intros [_ Hall]. apply Forall_cons in Hall as [Hbad _]. done.
    + rewrite lookup_insert_ne by done. rewrite Forall_cons. tauto.
Qed.

(** [appendPodStatus] makes one [List] call. When it fails, the error
    is wrapped and no map is returned. Otherwise the map holds, under
    each status, the names of the pods of the default namespace that
    carry the labels of the component and have that status, in the
    order of the list; a status that no such pod has is not a key of
    the map, and every name is under exactly one status. *)
Theorem X17_pods_grouped_by_status component instanceName c :
  let listed :=
    List.filter (selected (ComponentLabels component instanceName) GetDefaultNamespace)
      (pods c) in
  let c' := mkCluster (instances c) (pods c) (crds c) (objSecrets c)
              (trace c ++ [ListPods]) (failing c) in
  match failing c (length (trace c)) ListPods with
  | Some err =>
      appendPodStatus component instanceName c
      = (Done (inr (Wrapped "failed to list pods for MultiClusterObservability component"
                      (ApiErr err))), c')
  | None =>
      exists psm,
        appendPodStatus component instanceName c = (Done (inl psm), c')
        /\ (forall status,
              psm !!! status
              = corev1.Name
                  <$> List.filter (fun p => bool_decide (podStatus p = status)) listed)
        /\ (forall status,
              psm !! status = None <-> Forall (fun p => podStatus p <> status) listed)
        /\ (forall pod, pod ∈ listed ->
              corev1.Name pod ∈ psm !!! podStatus pod)
  end.
Proof.
  intros listed c'. unfold appendPodStatus, sbind at 1, client_ListPods, sbind, call.
  destruct (failing c (length (trace c)) ListPods) as [err|]; [done|].
  exists (groupPods listed ∅). split; [done|].
  assert (Hlookup : forall status,
            groupPods listed ∅ !!! status
            = corev1.Name
                <$> List.filter (fun p => bool_decide (podStatus p = status)) listed).
  { intros status. by rewrite groupPods_lookup, lookup_total_empty. }
  split; [done|]. split.
  - intros status. rewrite groupPods_keys, lookup_empty. tauto.
  - intros pod Hin. rewrite Hlookup. apply list_elem_of_fmap. exists pod. split; [done|].
    apply list_elem_of_In, filter_In. split; [by apply list_elem_of_In|].
    by apply bool_decide_eq_true_2.
Qed.
End PodFacts.

(** ** Conditions *)

(** One branch of [generateCondition]: the condition is at hand, and
    what is said of its type follows from the tests made so far. *)
Ltac condition_case :=
  eexists; split; [reflexivity|];
  unfold conditionFailed, conditionPending, conditionRunning, conditionReady,
    conditionMetricsDisabled;
  cbn [metav1.Status metav1.LastTransitionTime metav1.Type_];
  repeat split;
  intuition (try congruence; try lia; try discriminate;
             try (right; repeat split; lia); try (left; lia)).

Section ConditionFacts.
Context `{mcov1beta2.Constants} `{ControllerConfig} `{StatusHelpers}.

(** The condition that [generateCondition] returns: it returns no
    error, and the condition has no status and no transition time.
    When the four condition types are distinct, it is of type
    [Degraded] exactly when a degraded error is passed; of type
    [Ready] exactly when none is passed and either the instance has
    switched metrics off, whatever the pods do, or no pod is failed,
    pending or running without being ready; of type [Failed] exactly
    when, with metrics on, some pod is failed; and of type [Pending]
    when none is failed and some pod is pending or is running without
    being ready. *)
Theorem X18_condition_type cs stack degradedErr :
  NoDup [mcov1beta2.ConditionReady; mcov1beta2.ConditionPending;
         mcov1beta2.ConditionFailed; mcov1beta2.ConditionDegraded] ->
  let failed := podsIn mcov1beta2.PodFailed cs in
  let pending := podsIn mcov1beta2.PodPending cs in
  let running := podsIn mcov1beta2.PodRunning cs in
  exists c,
    generateCondition cs stack degradedErr = inl c
    /\ metav1.Status c = "" /\ metav1.LastTransitionTime c = None
    /\ (metav1.Type_ c = mcov1beta2.ConditionDegraded <-> degradedErr <> None)
    /\ (metav1.Type_ c = mcov1beta2.ConditionReady
        <-> degradedErr = None
            /\ (metricsDisabled stack
                \/ (failed = 0 /\ pending = 0 /\ running = 0)%nat))
    /\ (metav1.Type_ c = mcov1beta2.ConditionFailed
        <-> degradedErr = None /\ ~ metricsDisabled stack /\ failed <> 0%nat)
    /\ (metav1.Type_ c = mcov1beta2.ConditionPending
        <-> degradedErr = None /\ ~ metricsDisabled stack /\ failed = 0%nat
            /\ (pending <> 0 \/ running <> 0)%nat).
Proof.
  intros Hnd failed pending running.
  destruct (four_distinct _ _ _ _ Hnd) as (Hrp & Hrf & Hrd & Hpf & Hpd & Hfd).
  unfold generateCondition, metricsDisabled.
  destruct degradedErr as [d|]; [condition_case|].
  destruct (mcov1beta2.ObservabilityAddonSpec (mcov1beta2.Spec stack)) as [a|].
  - destruct (shared.EnableMetrics a) eqn:Hm; cbn [negb]; [|condition_case].
    fold failed pending running.
    destruct (Nat.eqb_spec failed 0) as [Hf|Hf]; cbn [negb]; [|condition_case].
    destruct (Nat.eqb_spec pending 0) as [Hp|Hp]; cbn [negb]; [|condition_case].
    destruct (Nat.ltb_spec 0 running) as [Hr|Hr]; condition_case.
  - fold failed pending running.
    destruct (Nat.eqb_spec failed 0) as [Hf|Hf]; cbn [negb]; [|condition_case].
    destruct (Nat.eqb_spec pending 0) as [Hp|Hp]; cbn [negb]; [|condition_case].
    destruct (Nat.ltb_spec 0 running) as [Hr|Hr]; condition_case.
Qed.
End ConditionFacts.

Section AddonCondition.
Context `{mcov1beta2.Constants} `{ControllerConfig} `{StatusHelpers}.

Lemma filter_none {A} (f : A -> bool) (l : list A) :
  (length (List.filter f l) =? 0)%nat = negb (existsb f l).
Proof.
  induction l as [|x l IH]; [done|]. cbn [List.filter existsb].
  destruct (f x); [done|]. by rewrite IH.
Qed.

Lemma forallb_Exists (l : list corev1.ContainerStatus) :
  Exists (fun c => corev1.Ready c = false) l <-> forallb corev1.Ready l = false.
Proof.
  induction l as [|c l IH]; cbn [forallb].
  - split; [by intros ?%Exists_nil|done].
  - rewrite Exists_cons, IH. destruct (corev1.Ready c); cbn [andb]; intuition congruence.
Qed.

Lemma generateComponentStatus_run instance c :
  failing c (length (trace c)) ListPods = None ->
  generateComponentStatus instance c
  = (Done (inl (mcov1beta2.mkComponents ∅ ∅ ∅ ∅ ∅ ∅ ∅ ∅ ∅ ∅ ∅ ∅ ∅
                  (groupPods
                     (List.filter
                        (selected (ComponentLabels config_MultiClusterObservabilityAddon
                                     (mcov1beta2.Name instance)) GetDefaultNamespace)
                        (pods c)) ∅))),
     logged c ListPods).
Proof.
  intros Hok.
  unfold generateComponentStatus, sbind at 1, appendPodStatus, sbind at 1,
    client_ListPods, sbind, call.
  by rewrite Hok.
Qed.

Lemma podsIn_addon status psm :
  podsIn status (mcov1beta2.mkComponents ∅ ∅ ∅ ∅ ∅ ∅ ∅ ∅ ∅ ∅ ∅ ∅ ∅ psm)
  = length (psm !!! status).
Proof. unfold podsIn. cbn. by rewrite !lookup_total_empty. Qed.

(** The condition that the pods of the addon lead to. The component
    status that [generateComponentStatus] returns holds the pods of
    the addon alone, so with metrics on and no degraded error the
    condition is: failed when a listed pod has failed; else pending
    when one is pending; else the pending condition with the message
    on readiness checks when one is running with a container that is
    not ready; else ready, also when no pod is listed and when the
    listed pods have succeeded or are in a phase that is not known.
    Pods of the other components play no part. *)
Theorem X19_condition_from_addon_pods instance c :
  NoDup [mcov1beta2.PodFailed; mcov1beta2.PodPending; mcov1beta2.PodRunning;
         mcov1beta2.PodReady; mcov1beta2.PodStatusUnknown] ->
  failing c (length (trace c)) ListPods = None ->
  ~ metricsDisabled instance ->
  let listed :=
    List.filter
      (selected (ComponentLabels config_MultiClusterObservabilityAddon
                   (mcov1beta2.Name instance)) GetDefaultNamespace)
      (pods c) in
  exists cs,
    generateComponentStatus instance c = (Done (inl cs), logged c ListPods)
    /\ generateCondition cs instance None
       = inl (if existsb (fun p => bool_decide (corev1.Phase p = corev1.PodFailed)) listed
              then conditionFailed
              else if existsb (fun p => bool_decide (corev1.Phase p = corev1.PodPending))
                        listed
              then conditionPending
              else if existsb runningUnready listed then conditionRunning
              else conditionReady).
Proof.
  intros Hnd Hok Hmetrics listed.
  eexists. split; [by apply generateComponentStatus_run|]. fold listed.
  assert (Hcount : forall status,
            (length (groupPods listed ∅ !!! status) =? 0)%nat
            = negb (existsb (fun p => bool_decide (podStatus p = status)) listed)).
  { intros status. rewrite groupPods_lookup, lookup_total_empty.
    change (@inhabitant (list string) _) with (@nil string). cbn [app].
    rewrite length_fmap. apply filter_none. }
  assert (Hsame : forall f g : corev1.Pod -> bool,
            (forall p, f p = g p) -> existsb f listed = existsb g listed).
  { intros f g Hfg. generalize listed. intros l. induction l as [|p l IH]; [done|].
    cbn [existsb]. by rewrite Hfg, IH. }
  assert (Hfailed : forall p, bool_decide (podStatus p = mcov1beta2.PodFailed)
                              = bool_decide (corev1.Phase p = corev1.PodFailed)).
  { intros p. apply bool_decide_ext. apply (podStatus_classes p Hnd). }
  assert (Hpending : forall p, bool_decide (podStatus p = mcov1beta2.PodPending)
                               = bool_decide (corev1.Phase p = corev1.PodPending)).
  { intros p. apply bool_decide_ext. apply (podStatus_classes p Hnd). }
  assert (Hrunning : forall p, bool_decide (podStatus p = mcov1beta2.PodRunning)
                               = runningUnready p).
  { intros p. unfold runningUnready.
    destruct (podStatus_classes p Hnd) as (_ & _ & _ & Hr & _). cbv zeta in Hr.
    rewrite forallb_Exists in Hr.
    destruct (forallb corev1.Ready (corev1.ContainerStatuses p)); cbn [negb].
    - rewrite andb_false_r. apply bool_decide_eq_false_2. rewrite Hr. by intros [_ ?].
    - rewrite andb_true_r. apply bool_decide_ext. rewrite Hr. tauto. }
  unfold generateCondition.
  assert (Hon : match mcov1beta2.ObservabilityAddonSpec (mcov1beta2.Spec instance) with
                | Some a => negb (shared.EnableMetrics a)
                | None => false
                end = false).
  { unfold metricsDisabled in Hmetrics.
    destruct (mcov1beta2.ObservabilityAddonSpec _) as [a|]; [|done].
    by destruct (shared.EnableMetrics a). }
  rewrite Hon, !podsIn_addon.
  assert (Hlt : forall n, (0 <? n)%nat = negb (n =? 0)%nat) by (by intros []).
  rewrite Hlt, !Hcount, (Hsame _ _ Hfailed), (Hsame _ _ Hpending), (Hsame _ _ Hrunning).
  rewrite !negb_involutive.
  destruct (existsb _ listed); [done|].
  destruct (existsb _ listed); [done|].
  by destruct (existsb runningUnready listed).
Qed.
End AddonCondition.

(** X16 on an example: a running pod without containers is ready. *)
Lemma X16_pod_status_classes_witness :
  @podStatus ToyStatus.constants (ToyStatus.addonPod "addon-c" "Running" []) = "Ready".
Proof.
  destruct (@X16_pod_status_classes ToyStatus.constants
              (ToyStatus.addonPod "addon-c" "Running" []))
    as (_ & _ & Hready & _).
  - decided.
  - apply Hready. split; [reflexivity|constructor].
Defined.

(** X19 on an example: of the addon pods of [ToyStatus.cluster] one
    is running with a container that is not ready, and the failed pod
    of another component is not counted. *)
Lemma X19_condition_from_addon_pods_witness :
  exists cs c',
    @generateComponentStatus ToyStatus.constants ToyStatus.controllerConfig
      (ToyStatus.instance true None) (ToyStatus.cluster ToyStatus.never)
    = (Done (inl cs), c')
    /\ @generateCondition ToyStatus.constants cs (ToyStatus.instance true None) None
       = inl (@conditionRunning ToyStatus.constants)
    /\ mcov1beta2.MultiClusterObservabilityAddon cs !!! "Ready" = ["addon-a"]
    /\ mcov1beta2.MultiClusterObservabilityAddon cs !!! "Unknown" = ["addon-c"].
Proof.
  destruct (@X19_condition_from_addon_pods ToyStatus.constants ToyStatus.controllerConfig
              (ToyStatus.instance true None) (ToyStatus.cluster ToyStatus.never))
    as (cs & Hrun & Hcond).
  - decided.
  - reflexivity.
  - unfold metricsDisabled. cbn. discriminate.
  - exists cs, (logged (ToyStatus.cluster ToyStatus.never) ListPods).
    split; [exact Hrun|]. split; [rewrite Hcond; vm_compute; reflexivity|].
    vm_compute in Hrun. injection Hrun as <-. split; vm_compute; reflexivity.
Defined.

(** X17 on an example: the addon pods of [ToyStatus.cluster]. *)
Lemma X17_pods_grouped_by_status_witness :
  exists psm c',
    @appendPodStatus ToyStatus.constants ToyStatus.controllerConfig
      "multicluster-observability-addon" "observability"
      (ToyStatus.cluster ToyStatus.never) = (Done (inl psm), c')
    /\ psm !!! "Running" = ["addon-b"]
    /\ psm !! "Failed" = None.
Proof.
  pose proof (@X17_pods_grouped_by_status ToyStatus.constants ToyStatus.controllerConfig
                "multicluster-observability-addon" "observability"
                (ToyStatus.cluster ToyStatus.never)) as Hx.
  cbv zeta in Hx.
  change (failing _ _ _) with (@None ApiError) in Hx. cbv iota in Hx.
  destruct Hx as (psm & Hrun & Hlookup & Hkeys & _).
  eexists psm, _. split; [exact Hrun|]. split.
  - rewrite Hlookup. vm_compute. reflexivity.
  - apply Hkeys. repeat constructor; vm_compute; discriminate.
Defined.

(** X18 on an example: with metrics switched off the condition is of
    type [Ready] although a pod of grafana has failed. *)
Lemma X18_condition_type_witness :
  exists c,
    @generateCondition ToyStatus.constants
      (mcov1beta2.mkComponents {[ "Failed" := ["grafana-0"] ]} ∅ ∅ ∅ ∅ ∅ ∅ ∅ ∅ ∅ ∅ ∅ ∅ ∅)
      (ToyStatus.instance false None) None = inl c
    /\ metav1.Type_ c = "Ready".
Proof.
  destruct (@X18_condition_type ToyStatus.constants
              (mcov1beta2.mkComponents {[ "Failed" := ["grafana-0"] ]}
                 ∅ ∅ ∅ ∅ ∅ ∅ ∅ ∅ ∅ ∅ ∅ ∅ ∅)
              (ToyStatus.instance false None) None)
    as (c & Hrun & _ & _ & _ & Hready & _).
  - decided.
  - exists c. split; [exact Hrun|]. apply Hready. split; [done|]. left. reflexivity.
Defined.

(** ** Writing the status *)

Section RefreshFacts.
Context `{mcov1beta2.Constants} `{ControllerConfig} `{StatusHelpers}.

Lemma client_GetInstance_run key c :
  client_GetInstance key c
  = (Done match failing c (length (trace c)) (GetInstance key) with
          | Some err => inr err
          | None =>
              match instances c !! key with
              | Some i => inl (mcov1beta2.mkMCO key (mcov1beta2.Spec i) (mcov1beta2.Status i))
              | None => inr NotFound
              end
          end,
     logged c (GetInstance key)).
Proof.
  unfold client_GetInstance, sbind, call.
  destruct (failing c _ _); [done|]. cbn [instances].
  by destruct (instances c !! key).
Qed.

Lemma client_StatusUpdate_run instance c :
  let name := mcov1beta2.Name instance in
  let c1 := logged c (UpdateStatus name) in
  client_StatusUpdate instance c
  = match failing c (length (trace c)) (UpdateStatus name) with
    | Some err => (Done (Some err), c1)
    | None =>
        match instances c !! name with
        | Some stored =>
            (Done None,
             setInstances c1
               (<[name := mcov1beta2.mkMCO name (mcov1beta2.Spec stored)
                            (mcov1beta2.Status instance)]> (instances c)))
        | None => (Done (Some NotFound), c1)
        end
    end.
Proof.
  cbv zeta. unfold client_StatusUpdate, sbind, call.
  destruct (failing c _ _); [done|]. cbn [instances].
  by destruct (instances c !! mcov1beta2.Name instance).
Qed.

(** Without the instance there is nothing to refresh: when the lookup
    finds no instance, [RefreshStatus] returns [nil] after that one
    call, and when the lookup fails otherwise it returns the wrapped
    error after that one call; no pods are listed and no status is
    written. *)
Theorem X20_refresh_without_instance req now degradedErr c :
  match failing c (length (trace c)) (GetInstance req) with
  | Some err =>
      RefreshStatus req now degradedErr c
      = (Done (if apierrors_IsNotFound err then None
               else Some (Wrapped "failed to lookup instance " (ApiErr err))),
         logged c (GetInstance req))
  | None =>
      instances c !! req = None ->
      RefreshStatus req now degradedErr c = (Done None, logged c (GetInstance req))
  end.
Proof.
  destruct (failing c _ _) as [err|] eqn:Hfail.
  - unfold RefreshStatus, sbind at 1. rewrite client_GetInstance_run, Hfail.
    by destruct err.
  - intros Habsent. unfold RefreshStatus, sbind at 1.
    by rewrite client_GetInstance_run, Hfail, Habsent.
Qed.
End RefreshFacts.

(** X20 on an example: a cluster without the instance. *)
Lemma X20_refresh_without_instance_witness :
  fst (@RefreshStatus ToyStatus.constants ToyStatus.controllerConfig ToyStatus.helpers
         "another" 7 None (ToyStatus.cluster ToyStatus.never))
  = Done None.
Proof.
  pose proof (@X20_refresh_without_instance ToyStatus.constants
                ToyStatus.controllerConfig ToyStatus.helpers "another" 7 None
                (ToyStatus.cluster ToyStatus.never)) as Hx.
  change (failing _ _ _) with (@None ApiError) in Hx. cbv iota in Hx.
  rewrite Hx; [reflexivity|]. vm_compute. reflexivity.
Defined.

Section ClusterFrames.

Lemma extends_refl c : extends c c [].
Proof. unfold extends. by rewrite app_nil_r. Qed.

Lemma extends_trans c c1 c2 ops1 ops2 :
  extends c c1 ops1 -> extends c1 c2 ops2 -> extends c c2 (ops1 ++ ops2).
Proof.
  intros (T1 & P1 & D1 & S1 & F1) (T2 & P2 & D2 & S2 & F2).
  unfold extends. rewrite T2, T1, app_assoc. repeat split; congruence.
Qed.

Lemma extends_logged c op : extends c (logged c op) [op].
Proof. by unfold extends. Qed.

Lemma extends_written c op m : extends c (setInstances (logged c op) m) [op].
Proof. by unfold extends. Qed.

Lemma client_GetInstance_extends key c r c1 :
  client_GetInstance key c = (r, c1) ->
  extends c c1 [GetInstance key] /\ instances c1 = instances c /\ exists a, r = Done a.
Proof.
  rewrite client_GetInstance_run. intros [= <- <-].
  split; [apply extends_logged|]. split; [done|]. by eexists.
Qed.

Lemma client_StatusUpdate_extends instance c r c1 :
  client_StatusUpdate instance c = (r, c1) ->
  extends c c1 [UpdateStatus (mcov1beta2.Name instance)]
  /\ (exists e, r = Done e)
  /\ (forall k, k <> mcov1beta2.Name instance -> instances c1 !! k = instances c !! k).
Proof.
  rewrite client_StatusUpdate_run.
  destruct (failing c _ _) as [err|]; [|destruct (instances c !! _) as [stored|]];
    intros [= <- <-].
  - split; [apply extends_logged|]. split; [by eexists|done].
  - split; [apply extends_written|]. split; [by eexists|].
    intros k Hk. cbn [instances setInstances]. by rewrite lookup_insert_ne.
  - split; [apply extends_logged|]. split; [by eexists|done].
Qed.
End ClusterFrames.

(** What every run of the retry loop keeps, from what every run of
    its body keeps. *)
Section Retry.
Variable fn : St Cluster (option error).
Variable req : string.
Hypothesis fn_step :
  forall c0, exists r c1 ops,
    fn c0 = (Done r, c1) /\ extends c0 c1 ops
    /\ (length (List.filter isStatusUpdate ops) <= 1)%nat
    /\ length (List.filter isListPods ops) = 0%nat
    /\ (length ops <= 2)%nat
    /\ (forall k, k <> req -> instances c1 !! k = instances c0 !! k).

Lemma retry_bounded steps retriable last c0 :
  exists r c1 ops,
    retry_OnError steps retriable fn last c0 = (Done r, c1) /\ extends c0 c1 ops
    /\ (length (List.filter isStatusUpdate ops) <= steps)%nat
    /\ length (List.filter isListPods ops) = 0%nat
    /\ (length ops <= 2 * steps)%nat
    /\ (forall k, k <> req -> instances c1 !! k = instances c0 !! k).
Proof.
  revert last c0. induction steps as [|steps IH]; intros last c0; cbn [retry_OnError].
  - exists last, c0, []. split; [done|]. split; [apply extends_refl|]. cbn. by repeat split.
  - unfold sbind.
    destruct (fn_step c0) as (r & c1 & ops & -> & Hext & Hu & Hl & Hn & Hframe).
    destruct r as [err|].
    2: { exists None, c1, ops. split; [done|]. split; [done|].
         split; [lia|]. split; [done|]. split; [lia|done]. }
    destruct (retriable err).
    2: { exists (Some err), c1, ops. split; [done|]. split; [done|].
         split; [lia|]. split; [done|]. split; [lia|done]. }
    destruct (IH (Some err) c1) as (r' & c2 & ops' & -> & Hext' & Hu' & Hl' & Hn' & Hframe').
    exists r', c2, (ops ++ ops'). split; [done|].
    split; [by eapply extends_trans|].
    rewrite !List.filter_app, !length_app.
    split; [lia|]. split; [lia|]. split; [lia|].
    intros k Hk. by rewrite Hframe', Hframe.
Qed.
End Retry.

Section RefreshBounds.
Context `{mcov1beta2.Constants} `{ControllerConfig} `{StatusHelpers}.

(** One run of the body of the retry loop of [RefreshStatus]. *)
Lemma attempt_step req cs activeConditions now c0 :
  exists r c1 ops,
    (r <<- client_GetInstance req;;
     match r with
     | inr err => sret (Some (ApiErr err))
     | inl instance =>
         e <<- client_StatusUpdate (statusUpdater cs activeConditions now instance);;
         sret (ApiErr <$> e)
     end) c0 = (Done r, c1)
    /\ extends c0 c1 ops
    /\ (length (List.filter isStatusUpdate ops) <= 1)%nat
    /\ length (List.filter isListPods ops) = 0%nat
    /\ (length ops <= 2)%nat
    /\ (forall k, k <> req -> instances c1 !! k = instances c0 !! k).
Proof.
  unfold sbind at 1. rewrite client_GetInstance_run.
  assert (Hfail : forall err,
            exists r' c1 ops,
              sret (Some (ApiErr err)) (logged c0 (GetInstance req)) = (Done r', c1)
              /\ extends c0 c1 ops
              /\ (length (List.filter isStatusUpdate ops) <= 1)%nat
              /\ length (List.filter isListPods ops) = 0%nat
              /\ (length ops <= 2)%nat
              /\ (forall k, k <> req -> instances c1 !! k = instances c0 !! k)).
  { intros err. eexists _, _, [GetInstance req]. split; [reflexivity|].
    split; [apply extends_logged|]. cbn. repeat split; lia. }
  destruct (failing c0 _ _) as [err|]; [apply Hfail|].
  destruct (instances c0 !! req) as [stored|]; [|apply Hfail].
  unfold sbind.
  destruct (client_StatusUpdate _ (logged c0 (GetInstance req))) as [r c1] eqn:Hup.
  destruct (client_StatusUpdate_extends _ _ _ _ Hup) as (Hext & [e ->] & Hframe).
  cbn [statusUpdater mcov1beta2.Name] in Hext, Hframe.
  eexists _, c1, ([GetInstance req] ++ [UpdateStatus req]). split; [reflexivity|].
  split; [eapply extends_trans; [apply extends_logged|exact Hext]|].
  cbn. repeat split; try lia. intros k Hk. by rewrite Hframe.
Qed.

Lemma generateComponentStatus_extends instance c :
  exists r, generateComponentStatus instance c = (Done r, logged c ListPods).
Proof.
  unfold generateComponentStatus, sbind at 1, appendPodStatus, sbind at 1,
    client_ListPods, sbind, call.
  destruct (failing c _ _); by eexists.
Qed.

(** Every run of [RefreshStatus] returns, without a panic. It lists
    the pods at most once and tries at most six status updates, one
    and five retries, among at most thirteen calls; it writes no
    instance but the one it was asked for, and leaves the pods, the
    definitions and the secrets alone. *)
Theorem X21_refresh_is_bounded req now degradedErr c :
  exists r c' ops,
    RefreshStatus req now degradedErr c = (Done r, c')
    /\ extends c c' ops
    /\ (length (List.filter isListPods ops) <= 1)%nat
    /\ (length (List.filter isStatusUpdate ops) <= 6)%nat
    /\ (length ops <= 13)%nat
    /\ (forall k, k <> req -> instances c' !! k = instances c !! k).
Proof.
  unfold RefreshStatus, sbind at 1. rewrite client_GetInstance_run.
  assert (Hstop : forall (r : option error),
            exists r' c' ops,
              sret r (logged c (GetInstance req)) = (Done r', c')
              /\ extends c c' ops
              /\ (length (List.filter isListPods ops) <= 1)%nat
              /\ (length (List.filter isStatusUpdate ops) <= 6)%nat
              /\ (length ops <= 13)%nat
              /\ (forall k, k <> req -> instances c' !! k = instances c !! k)).
  { intros r. eexists _, _, [GetInstance req]. split; [reflexivity|].
    split; [apply extends_logged|]. cbn. repeat split; lia. }
  destruct (failing c _ _) as [err|].
  { destruct (apierrors_IsNotFound err); apply Hstop. }
  destruct (instances c !! req) as [stored|]; [|apply Hstop].
  set (instance := mcov1beta2.mkMCO req _ _).
  set (c1 := logged c (GetInstance req)).
  unfold sbind at 1.
  destruct (generateComponentStatus_extends instance c1) as [r1 ->].
  set (c2 := logged c1 ListPods).
  assert (Hext2 : extends c c2 ([GetInstance req] ++ [ListPods]))
    by (eapply extends_trans; apply extends_logged).
  destruct r1 as [cs|err].
  2: { eexists _, c2, _. split; [reflexivity|]. split; [exact Hext2|].
       cbn. repeat split; lia. }
  destruct (generateConditions cs instance degradedErr) as [activeConditions|err].
  2: { eexists _, c2, _. split; [reflexivity|]. split; [exact Hext2|].
       cbn. repeat split; lia. }
  unfold sbind at 1.
  destruct (client_StatusUpdate _ c2) as [r3 c3] eqn:Hup.
  destruct (client_StatusUpdate_extends _ _ _ _ Hup) as (Hext3 & [e ->] & Hframe3).
  cbn [statusUpdater mcov1beta2.Name instance] in Hext3, Hframe3.
  pose proof (extends_trans _ _ _ _ _ Hext2 Hext3) as Hext.
  destruct e as [err|].
  2: { eexists _, c3, _. split; [reflexivity|]. split; [exact Hext|].
       cbn. repeat split; try lia. intros k Hk. by rewrite Hframe3. }
  destruct (apierrors_IsConflict (ApiErr err)).
  2: { eexists _, c3, _. split; [reflexivity|]. split; [exact Hext|].
       cbn. repeat split; try lia. intros k Hk. by rewrite Hframe3. }
  unfold retry_RetryOnConflict.
  destruct (retry_bounded _ req (attempt_step req cs activeConditions now)
              DefaultRetry_Steps apierrors_IsConflict None c3)
    as (r' & c4 & ops & -> & Hext4 & Hu & Hl & Hn & Hframe4).
  eexists r', c4, _. split; [reflexivity|].
  split; [exact (extends_trans _ _ _ _ _ Hext Hext4)|].
  rewrite !List.filter_app, !length_app. cbn. unfold DefaultRetry_Steps in *.
  split; [lia|]. split; [lia|]. split; [lia|].
  intros k Hk. by rewrite Hframe4, Hframe3.
Qed.
End RefreshBounds.

(** What the retry loop has written when it returns [nil], from what
    its body writes. *)
Section RetryWrites.
Variable fn : St Cluster (option error).
Variables before after : gmap string mcov1beta2.MultiClusterObservability.
Hypothesis fn_effect :
  forall c0, instances c0 = before ->
    exists r c1, fn c0 = (Done r, c1)
      /\ (r = None -> instances c1 = after)
      /\ (r <> None -> instances c1 = before).

Lemma retry_written steps retriable last c0 c1 :
  instances c0 = before ->
  steps <> 0%nat \/ last <> None ->
  retry_OnError steps retriable fn last c0 = (Done None, c1) ->
  instances c1 = after.
Proof.
  revert last c0. induction steps as [|steps IH]; intros last c0 Hc0 Hlive;
    cbn [retry_OnError].
  - intros [= -> _]. by destruct Hlive.
  - unfold sbind. destruct (fn_effect c0 Hc0) as (r & c' & -> & Hdone & Hkept).
    destruct r as [err|].
    + destruct (retriable err); [|discriminate].
      apply IH; [by apply Hkept|by right].
    + intros [= <-]. by apply Hdone.
Qed.
End RetryWrites.

Section RefreshWrites.
Context `{mcov1beta2.Constants} `{ControllerConfig} `{StatusHelpers}.

Lemma generateCondition_blank cs stack degradedErr :
  exists c,
    generateCondition cs stack degradedErr = inl c
    /\ metav1.Status c = "" /\ metav1.LastTransitionTime c = None.
Proof.
  unfold generateCondition.
  destruct degradedErr as [d|]; [by eexists|].
  destruct (match mcov1beta2.ObservabilityAddonSpec _ with Some _ => _ | None => _ end);
    [by eexists|].
  destruct (negb _); [by eexists|]. destruct (negb _); [by eexists|].
  destruct (_ <? _)%nat; by eexists.
Qed.

Lemma attempt_effect req cs activeConditions now before stored c0 :
  before !! req = Some stored ->
  instances c0 = before ->
  exists r c1,
    (r <<- client_GetInstance req;;
     match r with
     | inr err => sret (Some (ApiErr err))
     | inl instance =>
         e <<- client_StatusUpdate (statusUpdater cs activeConditions now instance);;
         sret (ApiErr <$> e)
     end) c0 = (Done r, c1)
    /\ (r = None ->
        instances c1
        = <[req := statusUpdater cs activeConditions now
                     (mcov1beta2.mkMCO req (mcov1beta2.Spec stored)
                        (mcov1beta2.Status stored))]> before)
    /\ (r <> None -> instances c1 = before).
Proof.
  intros Hstored Hc0. unfold sbind at 1. rewrite client_GetInstance_run, Hc0, Hstored.
  destruct (failing c0 _ _) as [err|].
  { eexists _, _. split; [reflexivity|]. split; [done|]. by intros _. }
  unfold sbind. rewrite client_StatusUpdate_run.
  cbn [statusUpdater mcov1beta2.Name logged trace failing instances].
  destruct (failing c0 _ _) as [err|].
  { eexists _, _. split; [reflexivity|]. split; [done|]. by intros _. }
  rewrite Hc0, Hstored.
  eexists _, _. split; [reflexivity|]. split; [|done].
  intros _. by cbn [instances setInstances mcov1beta2.Spec].
Qed.

(** What [RefreshStatus] has written when it returns [nil] for an
    instance that the first lookup found, at once or after retries.
    The stored instance keeps its spec; its component status is the
    one made from the pods listed in this run, once; its conditions
    are [mergeConditions] of the conditions it had, the one condition
    of [generateCondition] and the time handed in. That condition is
    passed on as [generateCondition] made it, without status and
    without transition time: what the loop over the active conditions
    assigns is lost. *)
Theorem X22_refresh_writes_status req now degradedErr c stored c' :
  failing c (length (trace c)) (GetInstance req) = None ->
  instances c !! req = Some stored ->
  RefreshStatus req now degradedErr c = (Done None, c') ->
  let instance :=
    mcov1beta2.mkMCO req (mcov1beta2.Spec stored) (mcov1beta2.Status stored) in
  exists cs condition,
    generateComponentStatus instance (logged c (GetInstance req))
      = (Done (inl cs), logged (logged c (GetInstance req)) ListPods)
    /\ generateCondition cs instance degradedErr = inl condition
    /\ metav1.Status condition = "" /\ metav1.LastTransitionTime condition = None
    /\ instances c'
       = <[req := mcov1beta2.mkMCO req (mcov1beta2.Spec stored)
                    (mcov1beta2.mkStatus
                       (mergeConditions
                          (mcov1beta2.Conditions (mcov1beta2.Status stored))
                          [condition] now)
                       cs)]> (instances c).
Proof.
  intros Hfail Hstored Hrun instance.
  unfold RefreshStatus, sbind at 1 in Hrun.
  rewrite client_GetInstance_run, Hfail, Hstored in Hrun. fold instance in Hrun.
  set (c1 := logged c (GetInstance req)) in *.
  unfold sbind at 1 in Hrun.
  destruct (generateComponentStatus_extends instance c1) as [r1 Hcs].
  rewrite Hcs in Hrun. destruct r1 as [cs|err]; [|discriminate].
  set (c2 := logged c1 ListPods) in *.
  destruct (generateCondition_blank cs instance degradedErr)
    as (condition & Hcond & Hstatus & Htime).
  unfold generateConditions in Hrun. rewrite Hcond in Hrun. cbn [app] in Hrun.
  exists cs, condition. split; [done|]. split; [done|]. split; [done|]. split; [done|].
  assert (Hc2 : instances c2 = instances c) by done.
  unfold sbind at 1 in Hrun. rewrite client_StatusUpdate_run in Hrun.
  cbn [statusUpdater mcov1beta2.Name instance] in Hrun.
  destruct (failing c2 _ _) as [err|] eqn:Hf2.
  - destruct (apierrors_IsConflict (ApiErr err)); [|discriminate].
    unfold retry_RetryOnConflict in Hrun.
    apply (retry_written _ (instances c) _
             (fun c0 => attempt_effect req cs [condition] now (instances c) stored c0
                          Hstored)) in Hrun; [done|done|].
    left. unfold DefaultRetry_Steps. lia.
  - rewrite Hc2, Hstored in Hrun. by injection Hrun as <-.
Qed.
End RefreshWrites.

(** X21 on an example: when every status update meets a conflict,
    the run ends with the conflict after six updates and thirteen
    calls, and the instance is as it was. *)
Lemma X21_refresh_is_bounded_witness :
  exists c' ops,
    @RefreshStatus ToyStatus.constants ToyStatus.controllerConfig ToyStatus.helpers
      "observability" 7 None (ToyStatus.cluster ToyStatus.alwaysConflict)
    = (Done (Some (ApiErr Conflict)), c')
    /\ trace c' = ops
    /\ length (List.filter isStatusUpdate ops) = 6%nat /\ length ops = 13%nat
    /\ instances c' = instances (ToyStatus.cluster ToyStatus.alwaysConflict).
Proof.
  destruct (@X21_refresh_is_bounded ToyStatus.constants ToyStatus.controllerConfig
              ToyStatus.helpers "observability" 7 None
              (ToyStatus.cluster ToyStatus.alwaysConflict))
    as (r & c' & ops & Hrun & _).
  exists c', (trace c'). vm_compute in Hrun. injection Hrun as <- <-.
  repeat split; vm_compute; reflexivity.
Defined.

(** X22 on an example: the first two status updates meet a conflict,
    the third is taken; the condition of the instance is the one that
    [ToyStatus.helpers] stamps. *)
Lemma X22_refresh_writes_status_witness :
  exists c' instance,
    @RefreshStatus ToyStatus.constants ToyStatus.controllerConfig ToyStatus.helpers
      "observability" 7 None (ToyStatus.cluster ToyStatus.twoConflicts)
    = (Done None, c')
    /\ instances c' !! "observability" = Some instance
    /\ mcov1beta2.Conditions (mcov1beta2.Status instance)
       = [metav1.mkCondition "Pending" "True" (Some 7) "PendingComponents"
            "All components are running, but some readiness checks are failing"]
    /\ length (List.filter isStatusUpdate (trace c')) = 3%nat.
Proof.
  pose (run := @RefreshStatus ToyStatus.constants ToyStatus.controllerConfig
                 ToyStatus.helpers "observability" 7 None
                 (ToyStatus.cluster ToyStatus.twoConflicts)).
  assert (Hrun : run = (Done None, snd run)) by (vm_compute; reflexivity).
  destruct (@X22_refresh_writes_status ToyStatus.constants ToyStatus.controllerConfig
              ToyStatus.helpers "observability" 7 None
              (ToyStatus.cluster ToyStatus.twoConflicts)
              (ToyStatus.instance true None) (snd run))
    as (cs & condition & Hcs & Hcond & _ & _ & Hwritten).
  - reflexivity.
  - reflexivity.
  - exact Hrun.
  - vm_compute in Hcs. injection Hcs as <-.
    vm_compute in Hcond. injection Hcond as <-.
    eexists (snd run), _. split; [exact Hrun|]. rewrite Hwritten.
    split; [apply lookup_insert_eq|]. split; vm_compute; reflexivity.
Defined.

(** * The readiness checks of the controller *)

Section ReadinessFacts.
Context `{mcov1beta2.Constants} `{ControllerConfig}.

Lemma servedAt_existsb version versions :
  servedAt version versions
  = existsb (fun v => bool_decide (apiextensionsv1.Name v = version)
                      && apiextensionsv1.Served v) versions.
Proof.
  induction versions as [|v rest IH]; [done|]. cbn [servedAt existsb].
  by destruct (bool_decide _ && _).
Qed.

Lemma client_GetCRD_run name c :
  client_GetCRD name c
  = (Done match failing c (length (trace c)) (GetCRD name) with
          | Some err => inr err
          | None =>
              match crds c !! name with
              | Some versions => inl versions
              | None => inr NotFound
              end
          end,
     logged c (GetCRD name)).
Proof.
  unfold client_GetCRD, sbind, call.
  destruct (failing c _ _); [done|]. cbn [crds].
  by destruct (crds c !! name).
Qed.

(** The outer loop reads every name once, in order, and collects the
    names that are not served. *)
Lemma crdLoop_run names missing c :
  steadyCRDs c ->
  exists c',
    crdLoop names missing c
    = (Done (missing ++ List.filter (fun name => negb (crdServed c name)) names), c')
    /\ extends c c' (GetCRD <$> names).
Proof.
  revert missing c. induction names as [|name rest IH]; intros missing c Hsteady.
  - exists c. cbn. rewrite app_nil_r. split; [done|apply extends_refl].
  - cbn [crdLoop]. unfold sbind. rewrite client_GetCRD_run.
    set (c1 := logged c (GetCRD name)).
    assert (Hsteady1 : steadyCRDs c1) by exact Hsteady.
    assert (Hsame : forall n, crdServed c1 n = crdServed c n)
      by (intros n; reflexivity).
    destruct (IH (missing ++ [name]) c1 Hsteady1) as (cA & HrunA & HextA).
    destruct (IH missing c1 Hsteady1) as (cB & HrunB & HextB).
    assert (Hfilter : forall l,
              List.filter (fun n => negb (crdServed c1 n)) l
              = List.filter (fun n => negb (crdServed c n)) l).
    { intros l. apply List.filter_ext. intros n. by rewrite Hsame. }
    rewrite Hfilter in HrunA, HrunB.
    cbn [List.filter fmap list_fmap]. unfold crdServed at 1.
    rewrite (Hsteady (length (trace c)) name).
    destruct (failing c 0 (GetCRD name)) as [err|] eqn:Hfail.
    + rewrite (bool_decide_eq_false_2 (Some err = None)) by done. cbn [andb negb].
      assert (Hmiss : (if bool_decide (client_IgnoreAlreadyExists (Some err) <> None)
                       then crdLoop rest (missing ++ [name])
                       else
                         if servedAt (GetMCOASupportedCRDVersion name) []
                         then crdLoop rest missing
                         else crdLoop rest (missing ++ [name]))
                      = crdLoop rest (missing ++ [name]))
        by (by destruct (bool_decide _)).
      rewrite Hmiss. exists cA. rewrite HrunA, <- app_assoc. split; [done|].
      by apply (extends_trans c c1 cA [GetCRD name]).
    + rewrite (bool_decide_eq_true_2 (None = None)) by done. cbn [andb].
      destruct (crds c !! name) as [versions|] eqn:Hcrd; cbn [client_IgnoreAlreadyExists].
      * rewrite bool_decide_eq_false_2 by (intros Hx; by apply Hx).
        rewrite servedAt_existsb.
        destruct (existsb _ versions); cbn [negb].
        -- exists cB. rewrite HrunB. split; [done|].
           by apply (extends_trans c c1 cB [GetCRD name]).
        -- exists cA. rewrite HrunA, <- app_assoc. split; [done|].
           by apply (extends_trans c c1 cA [GetCRD name]).
      * rewrite bool_decide_eq_true_2 by done. cbn [negb].
        exists cA. rewrite HrunA, <- app_assoc. split; [done|].
        by apply (extends_trans c c1 cA [GetCRD name]).
Qed.

Lemma mcoaCRDsInstalled_run mco c :
  if wantsAddon mco then
    steadyCRDs c ->
    let missing :=
      List.filter (fun name => negb (crdServed c name)) GetMCOASupportedCRDNames in
    exists c',
      mcoaCRDsInstalled mco c
      = (Done (match missing with
               | [] => None
               | _ => Some (Degraded
                              {| DReason := mcov1beta2.ReasonMCOAMissingCRDs;
                                 DMessage := missingCRDsMessage missing;
                                 Requeue := false |})
               end), c')
      /\ extends c c' (GetCRD <$> GetMCOASupportedCRDNames)
  else mcoaCRDsInstalled mco c = (Done None, c).
Proof.
  unfold wantsAddon, mcoaCRDsInstalled.
  destruct (mcov1beta2.Capabilities (mcov1beta2.Spec mco)) as [capabilities|]; [|done].
  destruct (bool_decide _ && bool_decide _); [done|].
  change (negb false) with true. cbv iota. intros Hsteady.
  destruct (crdLoop_run GetMCOASupportedCRDNames [] c Hsteady) as (c' & Hrun & Hext).
  exists c'. split; [|done]. unfold sbind. rewrite Hrun. cbn [app].
  by destruct (List.filter _ _).
Qed.

(** The check of the definitions that the addon needs. It makes no
    call when the instance asks for no capability of the addon.
    Otherwise it reads every supported definition once, in the order
    of the list and whatever it finds on the way, and returns [nil]
    when each can be read and has a served version of the supported
    name; if not, it returns a degraded error whose message lists, in
    that order, the definitions that are not served, each with its
    version. A read that fails for any reason, not only for a
    definition that is not there, counts as not served. *)
Theorem X23_missing_crds_are_listed mco c :
  if wantsAddon mco then
    steadyCRDs c ->
    let missing :=
      List.filter (fun name => negb (crdServed c name)) GetMCOASupportedCRDNames in
    exists c',
      mcoaCRDsInstalled mco c
      = (Done (match missing with
               | [] => None
               | _ => Some (Degraded
                              {| DReason := mcov1beta2.ReasonMCOAMissingCRDs;
                                 DMessage := missingCRDsMessage missing;
                                 Requeue := false |})
               end), c')
      /\ extends c c' (GetCRD <$> GetMCOASupportedCRDNames)
  else mcoaCRDsInstalled mco c = (Done None, c).
Proof. apply mcoaCRDsInstalled_run. Qed.

Lemma client_GetSecret_run name c :
  client_GetSecret name c
  = (Done match failing c (length (trace c)) (GetSecret name) with
          | Some err => inr err
          | None =>
              match objSecrets c !! name with
              | Some s => inl (mkSecret name (Labels s) (Owner s) (Data s))
              | None => inr NotFound
              end
          end,
     logged c (GetSecret name)).
Proof.
  unfold client_GetSecret, sbind, call.
  destruct (failing c _ _); [done|]. cbn [objSecrets].
  by destruct (objSecrets c !! name).
Qed.

(** The readiness check of an instance whose object storage is
    configured. Definitions that are not served are reported first,
    and the storage secret is then not read. Otherwise the secret is
    read once: a secret that is not there and a secret whose contents
    are refused are degraded errors, any other failure of the read is
    a plain error, and the check returns [nil] when the secret is
    there and its contents pass. *)
Theorem X24_ready_status mco c storageConfig conf :
  mcov1beta2.StorageConfig (mcov1beta2.Spec mco) = Some storageConfig ->
  mcov1beta2.MetricObjectStorage storageConfig = Some conf ->
  steadyCRDs c ->
  let name := shared.Name conf in
  let reads := if wantsAddon mco then GetCRD <$> GetMCOASupportedCRDNames else [] in
  let missing :=
    List.filter (fun name => negb (crdServed c name)) GetMCOASupportedCRDNames in
  let notThere :=
    Degraded {| DReason := mcov1beta2.ReasonMissingObjectStorageSecret;
                DMessage := "Missing object storage secret";
                Requeue := false |} in
  exists r c',
    checkReadyStatus mco c = (Done r, c')
    /\ if wantsAddon mco && bool_decide (missing <> [])
       then
         trace c' = trace c ++ reads
         /\ r = Some (Degraded {| DReason := mcov1beta2.ReasonMCOAMissingCRDs;
                                  DMessage := missingCRDsMessage missing;
                                  Requeue := false |})
       else
         trace c' = trace c ++ reads ++ [GetSecret name]
         /\ r = match failing c (length (trace c ++ reads)) (GetSecret name) with
                | Some err =>
                    if apierrors_IsNotFound err then Some notThere
                    else Some (Wrapped "failed to lookup object storage secret"
                                 (ApiErr err))
                | None =>
                    match objSecrets c !! name with
                    | None => Some notThere
                    | Some s =>
                        match CheckObjStorageConf (shared.Key conf)
                                (mkSecret name (Labels s) (Owner s) (Data s)) with
                        | Some msg =>
                            Some (Degraded
                                    {| DReason := mcov1beta2.ReasonInvalidObjectStorageSecret;
                                       DMessage :=
                                         String.append
                                           "Invalid object storage secret contents: " msg;
                                       Requeue := false |})
                        | None => None
                        end
                    end
                end.
Proof.
  intros Hsc Hconf Hsteady name reads missing notThere.
  assert (Hstorage : forall c1,
            checkObjStorageStatus mco c1
            = (r <<- client_GetSecret name;;
               match r with
               | inr err =>
                   if apierrors_IsNotFound err then sret (Some notThere)
                   else sret (Some (Wrapped "failed to lookup object storage secret"
                                      (ApiErr err)))
               | inl secret =>
                   match CheckObjStorageConf (shared.Key conf) secret with
                   | Some msg =>
                       sret (Some (Degraded
                                     {| DReason := mcov1beta2.ReasonInvalidObjectStorageSecret;
                                        DMessage :=
                                          String.append
                                            "Invalid object storage secret contents: " msg;
                                        Requeue := false |}))
                   | None => sret None
                   end
               end) c1).
  { intros c1. unfold checkObjStorageStatus, sbind at 1, slift. rewrite Hsc. cbn [deref].
    unfold sbind at 1. by rewrite Hconf. }
  assert (Hafter : forall c1,
            extends c c1 reads ->
            exists r c',
              (e <<- checkObjStorageStatus mco;;
               match e with
               | Some err => sret (Some err)
               | None => sret None
               end) c1 = (Done r, c')
              /\ trace c' = trace c ++ reads ++ [GetSecret name]
              /\ r = match failing c (length (trace c ++ reads)) (GetSecret name) with
                     | Some err =>
                         if apierrors_IsNotFound err then Some notThere
                         else Some (Wrapped "failed to lookup object storage secret"
                                      (ApiErr err))
                     | None =>
                         match objSecrets c !! name with
                         | None => Some notThere
                         | Some s =>
                             match CheckObjStorageConf (shared.Key conf)
                                     (mkSecret name (Labels s) (Owner s) (Data s)) with
                             | Some msg =>
                                 Some (Degraded
                                         {| DReason :=
                                              mcov1beta2.ReasonInvalidObjectStorageSecret;
                                            DMessage :=
                                              String.append
                                                "Invalid object storage secret contents: "
                                                msg;
                                            Requeue := false |})
                             | None => None
                             end
                         end
                     end).
  { intros c1 (Ht & _ & _ & Hs & Hf).
    unfold sbind at 1. rewrite Hstorage. unfold sbind at 1.
    rewrite client_GetSecret_run, Hf, Hs, Ht.
    assert (Htrace : trace (logged c1 (GetSecret name))
                     = trace c ++ reads ++ [GetSecret name])
      by (cbn [trace logged]; by rewrite Ht, <- app_assoc).
    destruct (failing c _ _) as [err|].
    - destruct (apierrors_IsNotFound err);
        (eexists _, _; split; [reflexivity|]; by split).
    - destruct (objSecrets c !! name) as [s|].
      + destruct (CheckObjStorageConf _ _);
          (eexists _, _; split; [reflexivity|]; by split).
      + eexists _, _. split; [reflexivity|]. by split. }
  pose proof (mcoaCRDsInstalled_run mco c) as Hcrds.
  unfold checkReadyStatus, sbind at 1. subst reads.
  destruct (wantsAddon mco).
  - destruct (Hcrds Hsteady) as (c1 & Hrun & Hext). cbv zeta in Hrun. fold missing in Hrun.
    rewrite Hrun. cbn [andb].
    destruct missing as [|m rest].
    + rewrite bool_decide_eq_false_2 by (intros Hx; by apply Hx). by apply Hafter.
    + rewrite bool_decide_eq_true_2 by done.
      eexists _, c1. split; [reflexivity|]. destruct Hext as (Ht & _). by split.
  - rewrite Hcrds. cbn [andb]. apply Hafter, extends_refl.
Qed.
End ReadinessFacts.

(** X23 on an example: of the two definitions of [ToyStatus.cluster]
    the second has the supported version, but does not serve it. *)
Lemma X23_missing_crds_are_listed_witness :
  exists d c',
    @mcoaCRDsInstalled ToyStatus.constants ToyStatus.controllerConfig
      (ToyStatus.instance true (Some (mcov1beta2.mkCapabilities (Some tt) None)))
      (ToyStatus.cluster ToyStatus.never) = (Done (Some (Degraded d)), c')
    /\ DMessage d
       = "MultiCluster-Observability-Addon degraded because the following CRDs are not installed on the hub: opentelemetrycollectors.opentelemetry.io(v1beta1)"
    /\ length (trace c') = 2%nat.
Proof.
  pose proof (@X23_missing_crds_are_listed ToyStatus.constants ToyStatus.controllerConfig
                (ToyStatus.instance true (Some (mcov1beta2.mkCapabilities (Some tt) None)))
                (ToyStatus.cluster ToyStatus.never)) as Hx.
  change (wantsAddon _) with true in Hx. cbv iota zeta in Hx.
  destruct Hx as (c' & Hrun & Hext); [by intros n name|].
  eexists _, c'. split; [rewrite Hrun; vm_compute; reflexivity|].
  split; [vm_compute; reflexivity|].
  destruct Hext as (-> & _). reflexivity.
Defined.

(** X24 on two examples: without a capability of the addon the check
    reads the secret and passes; with one, the definition that is not
    served is reported and the secret is not read. *)
Lemma X24_ready_status_witness :
  @checkReadyStatus ToyStatus.constants ToyStatus.controllerConfig
    (ToyStatus.instance true None) (ToyStatus.cluster ToyStatus.never)
  = (Done None,
     logged (ToyStatus.cluster ToyStatus.never) (GetSecret "thanos-object-storage"))
  /\ exists r c',
       @checkReadyStatus ToyStatus.constants ToyStatus.controllerConfig
         (ToyStatus.instance true (Some (mcov1beta2.mkCapabilities None (Some tt))))
         (ToyStatus.cluster ToyStatus.never) = (Done r, c')
       /\ trace c' = [GetCRD "clusterlogforwarders.observability.openshift.io";
                      GetCRD "opentelemetrycollectors.opentelemetry.io"].
Proof.
  split; [vm_compute; reflexivity|].
  destruct (@X24_ready_status ToyStatus.constants ToyStatus.controllerConfig
              (ToyStatus.instance true (Some (mcov1beta2.mkCapabilities None (Some tt))))
              (ToyStatus.cluster ToyStatus.never)
              (mcov1beta2.mkStorageConfig (Some ToyStatus.storage)) ToyStatus.storage)
    as (r & c' & Hrun & Hcase).
  - reflexivity.
  - reflexivity.
  - by intros n name.
  - exists r, c'. split; [exact Hrun|].
    replace (wantsAddon _ && bool_decide _) with true in Hcase by (vm_compute; reflexivity).
    destruct Hcase as [-> _]. reflexivity.
Defined.


(** ** The S3 check *)

Section S3Facts.
Context `{S3Imports}.

Lemma lowerASCII_s c :
  String (lowerASCII c) "" = "s" -> String c "" = "s" \/ String c "" = "S".
Proof.
  destruct c as [[] [] [] [] [] [] [] []]; vm_compute; intros Hc;
    first [discriminate Hc | by left | by right].
Qed.

Lemma lowerASCII_3 c : String (lowerASCII c) "" = "3" -> String c "" = "3".
Proof.
  destruct c as [[] [] [] [] [] [] [] []]; vm_compute; intros Hc;
    first [discriminate Hc | done].
Qed.

Lemma lowerBytes_s3 s : lowerBytes s = "s3" <-> s = "s3" \/ s = "S3".
Proof.
  split.
  - destruct s as [|a [|b [|? ?]]]; cbn [lowerBytes]; intros Hs; try discriminate Hs.
    injection Hs as Ha Hb.
    assert (Hb' : String b "" = "3") by (apply lowerASCII_3; by rewrite Hb).
    assert (Ha' : String a "" = "s" \/ String a "" = "S")
      by (apply lowerASCII_s; by rewrite Ha).
    injection Hb' as ->.
    destruct Ha' as [Ha' | Ha']; injection Ha' as ->; [by left | by right].
  - by intros [-> | ->].
Qed.

(** The S3 check of a document that decodes, with a type in ASCII.
    It reports the first of: a type other than s3 or S3, an empty
    bucket, an empty endpoint; it passes exactly when the type is one
    of the two spellings and both fields are filled. *)
Theorem X25_s3_conf_checks data objectConfg :
  yaml_Unmarshal data = inl objectConfg ->
  allASCII (config.Type_ objectConfg) = true ->
  let type := config.Type_ objectConfg in
  let conf := config.Config_ objectConfg in
  (type <> "s3" /\ type <> "S3" ->
     IsValidS3Conf data
     = Some (config.Message "invalid type config, only s3 type is supported"))
  /\ (type = "s3" \/ type = "S3" -> config.Bucket conf = "" ->
        IsValidS3Conf data = Some (config.Message "no s3 bucket in config file"))
  /\ (type = "s3" \/ type = "S3" -> config.Bucket conf <> "" ->
        config.Endpoint conf = "" ->
        IsValidS3Conf data = Some (config.Message "no s3 endpoint in config file"))
  /\ (IsValidS3Conf data = None
      <-> (type = "s3" \/ type = "S3")
          /\ config.Bucket conf <> "" /\ config.Endpoint conf <> "").
Proof.
  intros Hyaml Hascii type conf. unfold IsValidS3Conf. rewrite Hyaml.
  unfold strings_ToLower. rewrite Hascii. fold type conf. unfold validateS3.
  pose proof (lowerBytes_s3 type) as Hlow.
  split; [|split; [|split; [|split]]].
  - intros [Hs HS]. rewrite bool_decide_eq_true_2; [done|]. rewrite Hlow. tauto.
  - intros Ht Hb. rewrite bool_decide_eq_false_2 by (rewrite Hlow; tauto).
    by rewrite bool_decide_eq_true_2.
  - intros Ht Hb He. rewrite bool_decide_eq_false_2 by (rewrite Hlow; tauto).
    rewrite bool_decide_eq_false_2 by done. by rewrite bool_decide_eq_true_2.
  - destruct (bool_decide (lowerBytes type <> "s3")) eqn:Hd; [done|].
    apply bool_decide_eq_false in Hd.
    destruct (bool_decide (config.Bucket conf = "")) eqn:Hb; [done|].
    apply bool_decide_eq_false in Hb.
    destruct (bool_decide (config.Endpoint conf = "")) eqn:He; [done|].
    apply bool_decide_eq_false in He.
    intros _. split; [|done].
    apply Hlow. by destruct (decide (lowerBytes type = "s3")).
  - intros (Ht & Hb & He). rewrite bool_decide_eq_false_2 by (rewrite Hlow; tauto).
    by rewrite !bool_decide_eq_false_2 by done.
Qed.
End S3Facts.

(** X25 on an example: the document of [ToyS3], with its type in upper
    case, passes. *)
Lemma X25_s3_conf_checks_witness :
  @IsValidS3Conf ToyS3.imports [] = None.
Proof.
  apply (@X25_s3_conf_checks ToyS3.imports [] ToyS3.document); [reflexivity..|].
  split; [by right|]. by split.
Defined.
